(** * MediClear backend: the model-fallback client, the response normaliser
      and the JSON-file store, embedded from
      [backend/app/api/v1/{chat,symptom_checker,reports}.py].

    Python [str] values are modelled by [string]; one [ascii] stands for one
    code point below 256, and the character classes ([isspace], [isdigit],
    [lower]) are those of CPython on that range.  Console output ([print],
    [traceback.print_exc]) is not part of the model. *)

From Stdlib Require Import String Ascii List ZArith Lia Bool Floats DecimalString.
From Stdlib Require Import Sorted Permutation.
Import ListNotations.

Set Warnings "-register-all,-inexact-float".

Local Open Scope list_scope.
Local Open Scope string_scope.
Local Open Scope nat_scope.

(* ------------------------------------------------------------------ *)
(** ** Python string primitives *)

Module PyStr.

(** [c.isspace()]: TAB..CR, FS..US, SPACE, NEL and NBSP. *)
Definition isspace (c : ascii) : bool :=
  let n := nat_of_ascii c in
  ((9 <=? n) && (n <=? 13)) || ((28 <=? n) && (n <=? 32))
  || (n =? 133) || (n =? 160).

(** [c.isdigit()]: 0..9 and the superscripts two, three and one. *)
Definition isdigit (c : ascii) : bool :=
  let n := nat_of_ascii c in
  ((48 <=? n) && (n <=? 57)) || (n =? 178) || (n =? 179) || (n =? 185).

(** [c.lower()] on one code point below 256: A..Z and the Latin-1
    capitals; the multiplication sign (215) and the sharp s (223) are left
    as they are. *)
Definition lower_char (c : ascii) : ascii :=
  let n := nat_of_ascii c in
  if ((65 <=? n) && (n <=? 90))
     || ((192 <=? n) && (n <=? 222) && negb (n =? 215))
  then ascii_of_nat (n + 32) else c.

(** [s.lower()] on a string of code points below 256.  On that range
    [str.lower] works character by character: the two code points that
    Unicode lowers by context or to more than one character, the capital
    sigma (931) and the dotted capital I (304), lie outside it. *)
Fixpoint lower (s : string) : string :=
  match s with
  | EmptyString => EmptyString
  | String c r => String (lower_char c) (lower r)
  end.

Fixpoint any_char (p : ascii -> bool) (s : string) : bool :=
  match s with
  | EmptyString => false
  | String c r => p c || any_char p r
  end.

(** [s[:n]] for [n >= 0]. *)
Fixpoint take (n : nat) (s : string) : string :=
  match n, s with
  | S k, String c r => String c (take k r)
  | _, _ => EmptyString
  end.

(** [s[n:]] for [n >= 0]. *)
Fixpoint drop (n : nat) (s : string) : string :=
  match n, s with
  | S k, String _ r => drop k r
  | _, _ => s
  end.

(** [s[:-n]] for [n > 0]. *)
Definition drop_last (n : nat) (s : string) : string :=
  take (String.length s - n) s.

Definition startswith (s p : string) : bool := prefix p s.

Definition endswith (s p : string) : bool :=
  (String.length p <=? String.length s)
  && (drop (String.length s - String.length p) s =? p)%string.

(** [sub in s]. *)
Fixpoint contains (sub s : string) : bool :=
  prefix sub s ||
  match s with
  | EmptyString => false
  | String _ r => contains sub r
  end.

Fixpoint lstrip (s : string) : string :=
  match s with
  | EmptyString => EmptyString
  | String c r => if isspace c then lstrip r else s
  end.

Fixpoint rstrip (s : string) : string :=
  match s with
  | EmptyString => EmptyString
  | String c r =>
      match rstrip r with
      | EmptyString => if isspace c then EmptyString else String c EmptyString
      | r' => String c r'
      end
  end.

Definition strip (s : string) : string := rstrip (lstrip s).

Definition is_empty (s : string) : bool :=
  match s with EmptyString => true | _ => false end.

End PyStr.

(** Characters that cannot be typed inside a literal. *)
Definition dquote : string := String (ascii_of_nat 34) EmptyString.
Definition newline : string := String (ascii_of_nat 10) EmptyString.

(** A string literal of the source that is written between double quotes
    inside another one. *)
Definition quoted (s : string) : string := dquote ++ s ++ dquote.

(** [str(n)] for an [int]. *)
Definition str_int (n : Z) : string := NilZero.string_of_int (Z.to_int n).

(* ------------------------------------------------------------------ *)
(** ** Response normaliser

    The same statements appear in [analyze_symptoms]
    (symptom_checker.py, lines 179-188) and in [call_glm_for_analysis]
    (reports.py, lines 178-186). *)

Definition fence : string := "```".
Definition fence_json : string := "```json".

Definition normalize (raw : string) : string :=
  if PyStr.startswith (PyStr.strip raw) fence then
    let t := PyStr.strip raw in
    let t := if PyStr.startswith t fence_json then PyStr.drop 7 t
             else if PyStr.startswith t fence then PyStr.drop 3 t
             else t in
    let t := if PyStr.endswith t fence then PyStr.drop_last 3 t else t in
    PyStr.strip t
  else raw.

Definition payload_a1 : string := "{" ++ dquote ++ "a" ++ dquote ++ ":1}".
Definition fenced_a1 : string :=
  "```json" ++ newline ++ payload_a1 ++ newline ++ "```".

(* ------------------------------------------------------------------ *)
(** ** Parsed JSON values and Python's operations on them *)

(** A value returned by [json.loads] / [response.json()].  A [dict] keeps
    its insertion order; [None] is [JNull]. *)
Inductive json : Type :=
| JNull
| JBool (b : bool)
| JInt (n : Z)
| JFloat (f : float)
| JStr (s : string)
| JArr (items : list json)
| JObj (members : list (string * json)).

Definition Dict : Type := list (string * json).

(** Exceptions that reach the handlers of the embedded functions.  Each one
    that a library raises carries the text [str(e)] gives for it. *)
Inductive exn : Type :=
| TransportError (msg : string)
| HTTPStatusError (msg : string) (status_code : Z) (text : string)
| JSONDecodeError (msg : string)
| RecursionError (msg : string)
| ValueError (msg : string)
| KeyError (key_repr : string)
| IndexError (msg : string)
| TypeError (msg : string)
| AttributeError (msg : string)
| ValidationError (msg : string)
| HTTPException (status_code : Z) (detail : string).

(** How [json.loads] fails on a [str] (CPython 3.11): with a
    [JSONDecodeError] on a text that is not JSON, with a [RecursionError] on
    a text nested deeper than the interpreter's recursion limit, and with a
    [ValueError] that is not a [JSONDecodeError] on an integer literal of
    more digits than [sys.get_int_max_str_digits()].  Each failure carries
    the text [str(e)] gives for it. *)
Inductive loads_error : Type :=
| Malformed (msg : string)
| TooDeep (msg : string)
| TooManyDigits (msg : string).

(** The exception raised for a failure of [json.loads]. *)
Definition loads_exn (failure : loads_error) : exn :=
  match failure with
  | Malformed msg => JSONDecodeError msg
  | TooDeep msg => RecursionError msg
  | TooManyDigits msg => ValueError msg
  end.

Inductive result (A : Type) : Type :=
| Ok (a : A)
| Raise (e : exn).
Arguments Ok {A} a.
Arguments Raise {A} e.

Definition bind {A B} (r : result A) (k : A -> result B) : result B :=
  match r with
  | Ok a => k a
  | Raise e => Raise e
  end.

Notation "x <- r ;; k" := (bind r (fun x => k))
  (at level 61, r at next level, right associativity).

Module Py.

(** [d.get(k)] on the members of a dict. *)
Fixpoint dict_get (k : string) (d : Dict) : option json :=
  match d with
  | [] => None
  | (k', v) :: r => if (k' =? k)%string then Some v else dict_get k r
  end.

(** [type(v).__name__]. *)
Definition type_name (v : json) : string :=
  match v with
  | JNull => "NoneType"
  | JBool _ => "bool"
  | JInt _ => "int"
  | JFloat _ => "float"
  | JStr _ => "str"
  | JArr _ => "list"
  | JObj _ => "dict"
  end.

Definition not_subscriptable (v : json) : exn :=
  TypeError ("'" ++ type_name v ++ "' object is not subscriptable").

(** [v[k]] for a string constant [k] (an identifier, so that its [repr]
    is the key between single quotes). *)
Definition getitem_str (v : json) (k : string) : result json :=
  match v with
  | JObj d =>
      match dict_get k d with
      | Some x => Ok x
      | None => Raise (KeyError ("'" ++ k ++ "'"))
      end
  | JArr _ => Raise (TypeError "list indices must be integers or slices, not str")
  | JStr _ => Raise (TypeError "string indices must be integers, not 'str'")
  | _ => Raise (not_subscriptable v)
  end.

(** [v[0]]; the keys of a parsed object are strings, so [0] is never
    one of them. *)
Definition getitem_0 (v : json) : result json :=
  match v with
  | JArr (x :: _) => Ok x
  | JArr [] => Raise (IndexError "list index out of range")
  | JStr (String c _) => Ok (JStr (String c EmptyString))
  | JStr EmptyString => Raise (IndexError "string index out of range")
  | JObj _ => Raise (KeyError "0")
  | _ => Raise (not_subscriptable v)
  end.

(** [len(v)]. *)
Definition len (v : json) : result nat :=
  match v with
  | JArr l => Ok (List.length l)
  | JStr s => Ok (String.length s)
  | JObj d => Ok (List.length d)
  | _ => Raise (TypeError ("object of type '" ++ type_name v ++ "' has no len()"))
  end.

(** [k in v] for a string [k]. *)
Definition contains_str (k : string) (v : json) : result bool :=
  match v with
  | JObj d => Ok (match dict_get k d with Some _ => true | None => false end)
  | JArr l =>
      Ok (existsb (fun x => match x with
                            | JStr s => (s =? k)%string
                            | _ => false
                            end) l)
  | JStr s => Ok (PyStr.contains k s)
  | _ => Raise (TypeError ("argument of type '" ++ type_name v ++ "' is not iterable"))
  end.

End Py.

(** [data["choices"][0]["message"]["content"]]. *)
Definition first_completion_content (data : json) : result json :=
  choices <- Py.getitem_str data "choices" ;;
  choice <- Py.getitem_0 choices ;;
  message <- Py.getitem_str choice "message" ;;
  Py.getitem_str message "content".

(* ------------------------------------------------------------------ *)
(** ** The outbound HTTP call and the process environment *)

Record Message : Type := {
  role : string;
  content : string
}.

(** The JSON body of a chat-completions request; a key the source does
    not set is [None]. *)
Record Payload : Type := {
  model : string;
  messages : list Message;
  temperature : option float;
  max_tokens : option Z;
  stream : option bool;
  response_format : option (list (string * string))
}.

Record Request : Type := {
  url : string;
  headers : list (string * string);
  json_payload : Payload;
  timeout : float
}.

(** What the handlers observe of an [httpx.Response]:
    [raise_for_status()] returns ([None]) or raises an [HTTPStatusError]
    with the given text; [json()], which is [json.loads] on the body,
    returns a value or fails as [json.loads] does. *)
Record Response : Type := {
  status_code : Z;
  text : string;
  status_error : option string;
  json_body : json + loads_error
}.

(** The collaborators of one request: the environment variable, the
    network and the libraries.  [post sent rq] is the outcome of
    [client.post] for [rq] when [sent] has been posted before. *)
Record Runtime : Type := {
  OPENROUTER_API_KEY : option string;
  post : list Request -> Request -> Response + exn;
  uuid4 : string;
  json_loads : string -> json + loads_error;
  str_HTTPException : Z -> string -> string;
  py_format : json -> string;
  str_float : float -> string;
  pydantic_str : json -> option string;
  pydantic_int : json -> option Z;
  pydantic_list : json -> option (list json);
  pydantic_model : json -> option Dict;
  str_ValidationError : Dict -> string;
  module_name : string
}.

(** [not OPENROUTER_API_KEY]: unset or empty. *)
Definition key_missing (rt : Runtime) : bool :=
  match OPENROUTER_API_KEY rt with
  | None => true
  | Some k => PyStr.is_empty k
  end.

(** [f"{OPENROUTER_API_KEY}"]. *)
Definition key_text (rt : Runtime) : string :=
  match OPENROUTER_API_KEY rt with
  | None => "None"
  | Some k => k
  end.

(** [str(e)]. *)
Definition str_exn (rt : Runtime) (e : exn) : string :=
  match e with
  | TransportError m => m
  | HTTPStatusError m _ _ => m
  | JSONDecodeError m => m
  | RecursionError m => m
  | ValueError m => m
  | KeyError r => r
  | IndexError m => m
  | TypeError m => m
  | AttributeError m => m
  | ValidationError m => m
  | HTTPException c d => str_HTTPException rt c d
  end.

(** [str(last_error)], where [last_error] starts as [None]. *)
Definition str_last_error (rt : Runtime) (last_error : option exn) : string :=
  match last_error with
  | None => "None"
  | Some e => str_exn rt e
  end.

Definition OPENROUTER_BASE_URL : string := "https://openrouter.ai/api/v1".

(** [response.raise_for_status()]. *)
Definition raise_for_status (r : Response) : result unit :=
  match status_error r with
  | None => Ok tt
  | Some m => Raise (HTTPStatusError m (status_code r) (text r))
  end.

(** [response.json()]. *)
Definition response_json (r : Response) : result json :=
  match json_body r with
  | inl v => Ok v
  | inr failure => Raise (loads_exn failure)
  end.

(** [await client.post(...)] after [sent]. *)
Definition client_post (rt : Runtime) (sent : list Request) (rq : Request)
  : result Response :=
  match post rt sent rq with
  | inl r => Ok r
  | inr e => Raise e
  end.

(** The three statements every attempt starts with: [client.post],
    [response.raise_for_status()] and [response.json()].  An attempt
    succeeds at the transport level when they return. *)
Definition fetch (rt : Runtime) (sent : list Request) (rq : Request)
  : result json :=
  response <- client_post rt sent rq ;;
  _ <- raise_for_status response ;;
  response_json response.

(* ------------------------------------------------------------------ *)
(** ** chat.py: [call_glm_model] *)

Module Chat.

Definition models_to_try : list string :=
  [ "zhipuai/glm-4-plus";
    "zhipuai/glm-4-0520";
    "zhipuai/glm-4";
    "openai/gpt-4o";
    "openai/gpt-3.5-turbo" ].

Definition request_headers (rt : Runtime) : list (string * string) :=
  [ ("Authorization", "Bearer " ++ key_text rt);
    ("Content-Type", "application/json");
    ("HTTP-Referer", "http://localhost:3000");
    ("X-Title", "MediClear Chat") ].

Definition request (rt : Runtime) (msgs : list Message) (model_name : string)
  : Request :=
  {| url := OPENROUTER_BASE_URL ++ "/chat/completions";
     headers := request_headers rt;
     json_payload :=
       {| model := model_name;
          messages := msgs;
          temperature := Some 0.7%float;
          max_tokens := Some 2000%Z;
          stream := Some false;
          response_format := None |};
     timeout := 60%float |}.

(** The body of the [try] for one model, once the request is built. *)
Definition attempt (rt : Runtime) (sent : list Request) (rq : Request)
  : result json :=
  data <- fetch rt sent rq ;;
  first_completion_content data.

(** The [for] loop and the [raise] that follows it. *)
Fixpoint fallback (rt : Runtime) (msgs : list Message)
    (models : list string) (last_error : option exn) (sent : list Request)
  : result json * list Request :=
  match models with
  | [] =>
      (Raise (HTTPException 500
                ("All GLM models failed. Last error: "
                 ++ str_last_error rt last_error)),
       sent)
  | model_name :: rest =>
      let rq := request rt msgs model_name in
      match attempt rt sent rq with
      | Ok answer => (Ok answer, (sent ++ [rq])%list)
      | Raise e => fallback rt msgs rest (Some e) (sent ++ [rq])%list
      end
  end.

(** [call_glm_model] over a configured list of models; the second
    component is the list of requests posted, oldest first. *)
Definition call_glm_model_with (models : list string) (rt : Runtime)
    (msgs : list Message) : result json * list Request :=
  if key_missing rt then
    (Raise (HTTPException 500 "OPENROUTER_API_KEY not configured"), [])
  else fallback rt msgs models None [].

Definition call_glm_model : Runtime -> list Message -> result json * list Request :=
  call_glm_model_with models_to_try.

(** *** [calculate_confidence] *)

(** [min(a, b)] and [max(a, b)] of Python: the first argument unless the
    second is strictly smaller (greater). *)
Definition py_min (a b : float) : float := if (b <? a)%float then b else a.
Definition py_max (a b : float) : float := if (a <? b)%float then b else a.

Definition uncertain_phrases : list string :=
  [ "may"; "might"; "possibly"; "unclear"; "uncertain";
    "don't have enough"; "cannot determine"; "insufficient data";
    "would need more"; "consult with"; "speak to your doctor" ].

Definition medical_terms : list string :=
  [ "diagnosis"; "test result"; "level"; "range"; "normal"; "abnormal" ].

(** The four tests of the function, in the order of the source. *)
Definition has_records (medical_records : list Dict) : bool :=
  match medical_records with [] => false | _ :: _ => true end.
Definition has_digit (answer : string) : bool :=
  PyStr.any_char PyStr.isdigit answer.
Definition has_any (phrases : list string) (answer : string) : bool :=
  existsb (fun phrase => PyStr.contains phrase (PyStr.lower answer)) phrases.

Definition calculate_confidence (question : string)
    (medical_records : list Dict) (answer : string) : float :=
  let confidence := 0.3%float in
  let confidence :=
    if has_records medical_records then (confidence + 0.3)%float
    else confidence in
  let confidence :=
    if has_digit answer then (confidence + 0.2)%float else confidence in
  let confidence :=
    if has_any uncertain_phrases answer then (confidence - 0.25)%float
    else confidence in
  let confidence :=
    if has_any medical_terms answer then (confidence + 0.15)%float
    else confidence in
  py_max 0.1 (py_min 1.0 confidence).

End Chat.

(* ------------------------------------------------------------------ *)
(** ** symptom_checker.py: [analyze_symptoms] *)

Module Symptom.

Record SymptomRequest : Type := {
  symptoms : string;
  age : Z;
  gender : string;
  duration : string;
  severity : Z
}.

Record PossibleCondition : Type := {
  condition : string;
  probability : Z;
  description : string
}.

Record SymptomAssessment : Type := {
  assessment_id : string;
  urgency_level : string;
  urgency_score : Z;
  possible_conditions : list PossibleCondition;
  recommended_tests : list string;
  action_items : list string;
  warning_signs : list string;
  when_to_seek_care : string
}.

Definition system_instruction : string :=
  "You are a medical AI assistant providing preliminary, non-diagnostic guidance. "
  ++ "Analyze the user's symptoms and generate a comprehensive assessment strictly in JSON format. "
  ++ "Your response MUST be valid JSON that conforms to this exact structure:" ++ newline
  ++ "{" ++ newline
  ++ "  " ++ quoted "assessment_id" ++ ": " ++ quoted "string" ++ "," ++ newline
  ++ "  " ++ quoted "urgency_level" ++ ": " ++ quoted "NORMAL or MODERATE or URGENT" ++ "," ++ newline
  ++ "  " ++ quoted "urgency_score" ++ ": number (1-100)," ++ newline
  ++ "  " ++ quoted "possible_conditions" ++ ": [{" ++ quoted "condition" ++ ": " ++ quoted "string"
  ++ ", " ++ quoted "probability" ++ ": number (0-100), " ++ quoted "description" ++ ": "
  ++ quoted "string" ++ "}]," ++ newline
  ++ "  " ++ quoted "recommended_tests" ++ ": [" ++ quoted "string" ++ "]," ++ newline
  ++ "  " ++ quoted "action_items" ++ ": [" ++ quoted "string" ++ "]," ++ newline
  ++ "  " ++ quoted "warning_signs" ++ ": [" ++ quoted "string" ++ "]," ++ newline
  ++ "  " ++ quoted "when_to_seek_care" ++ ": " ++ quoted "string" ++ newline
  ++ "}" ++ newline
  ++ "Do not include any text, markdown, or explanation outside the JSON object. "
  ++ "Return ONLY valid JSON.".

(** The line of the prompt that pins the identifier. *)
Definition pinned_line (assessment_id : string) : string :=
  "The assessment_id field MUST be set to: " ++ assessment_id.

Definition user_prompt (data : SymptomRequest) (assessment_id : string) : string :=
  newline
  ++ "Analyze the following patient data for a symptom assessment:" ++ newline
  ++ "- Symptoms Description: " ++ symptoms data ++ newline
  ++ "- Age: " ++ str_int (age data) ++ " years, Gender: " ++ gender data ++ newline
  ++ "- Duration: " ++ duration data ++ newline
  ++ "- Severity: " ++ str_int (severity data) ++ "/10" ++ newline
  ++ newline
  ++ pinned_line assessment_id ++ newline
  ++ newline
  ++ "Provide your response as a valid JSON object only." ++ newline.

Definition models_to_try : list string :=
  [ "zhipuai/glm-4-plus";
    "zhipuai/glm-4-0520";
    "zhipuai/glm-4";
    "openai/gpt-3.5-turbo" ].

(** The test that guards [payload["response_format"] = ...]. *)
Definition supports_json_object (model_name : string) : bool :=
  PyStr.contains "gpt" (PyStr.lower model_name)
  || PyStr.contains "deepseek" (PyStr.lower model_name).

Definition json_object : list (string * string) := [("type", "json_object")].

Definition payload (sys user model_name : string) : Payload :=
  {| model := model_name;
     messages := [ {| role := "system"; content := sys |};
                   {| role := "user"; content := user |} ];
     temperature := Some 0.7%float;
     max_tokens := None;
     stream := None;
     response_format :=
       if supports_json_object model_name then Some json_object else None |}.

Definition request (rt : Runtime) (sys user model_name : string) : Request :=
  {| url := "https://openrouter.ai/api/v1/chat/completions";
     headers :=
       [ ("Authorization", "Bearer " ++ key_text rt);
         ("Content-Type", "application/json");
         ("HTTP-Referer", "http://localhost:3000");
         ("X-Title", "MediClear Symptom Checker") ];
     json_payload := payload sys user model_name;
     timeout := 60%float |}.

(** The body of the [try] inside the loop, up to [break]. *)
Definition attempt (rt : Runtime) (sent : list Request) (rq : Request)
  : result json :=
  fetch rt sent rq.

(** How the [for] loop ends: by [break], with [result] bound, or by
    running out of models, which enters its [else]. *)
Inductive loop_exit : Type :=
| Break (result : json)
| Exhausted (last_error : option exn).

Fixpoint fallback (rt : Runtime) (sys user : string)
    (models : list string) (last_error : option exn) (sent : list Request)
  : loop_exit * list Request :=
  match models with
  | [] => (Exhausted last_error, sent)
  | model_name :: rest =>
      let rq := request rt sys user model_name in
      match attempt rt sent rq with
      | Ok res => (Break res, (sent ++ [rq])%list)
      | Raise e => fallback rt sys user rest (Some e) (sent ++ [rq])%list
      end
  end.

Definition all_failed (rt : Runtime) (last_error : option exn) : exn :=
  HTTPException 500
    ("All GLM models failed. Please check your API key. Last error: "
     ++ str_last_error rt last_error).

(** *** Steps 5 to 7: extraction, clean-up, parsing, validation

    The variable [result] of the source is [res] here. *)

Definition unexpected_format (rt : Runtime) (res : json) : exn :=
  HTTPException 500 ("Unexpected API response format: " ++ py_format rt res).

(** [raw_json_text[:1000]] followed by [raw_json_text.strip()]: both
    succeed on a [str] only (messages of CPython 3.11). *)
Definition as_text (raw_json_text : json) : result string :=
  match raw_json_text with
  | JStr s => Ok s
  | JArr _ => Raise (AttributeError "'list' object has no attribute 'strip'")
  | JObj _ => Raise (TypeError "unhashable type: 'slice'")
  | v => Raise (Py.not_subscriptable v)
  end.

(** One validated field: [None] when the key is absent (no field of the
    schema has a default) or its value is refused. *)
Definition field {A} (d : Dict) (k : string) (parse : json -> option A)
  : option A :=
  match Py.dict_get k d with
  | None => None
  | Some v => parse v
  end.

(** [int = Field(..., ge=lo, le=hi)]. *)
Definition int_between (rt : Runtime) (lo hi : Z) (v : json) : option Z :=
  match pydantic_int rt v with
  | Some n => if ((lo <=? n) && (n <=? hi))%Z then Some n else None
  | None => None
  end.

Fixpoint all_some {A B} (f : A -> option B) (l : list A) : option (list B) :=
  match l with
  | [] => Some []
  | x :: r =>
      match f x, all_some f r with
      | Some y, Some ys => Some (y :: ys)
      | _, _ => None
      end
  end.

(** [List[T]]. *)
Definition list_of {A} (rt : Runtime) (item : json -> option A) (v : json)
  : option (list A) :=
  match pydantic_list rt v with
  | Some l => all_some item l
  | None => None
  end.

Definition validate_PossibleCondition (rt : Runtime) (v : json)
  : option PossibleCondition :=
  match pydantic_model rt v with
  | None => None
  | Some d =>
      match field d "condition" (pydantic_str rt),
            field d "probability" (int_between rt 0 100),
            field d "description" (pydantic_str rt) with
      | Some c, Some p, Some ds =>
          Some {| condition := c; probability := p; description := ds |}
      | _, _, _ => None
      end
  end.

(** The schema of [SymptomAssessment], applied to the members of
    [assessment_data]. *)
Definition validate_SymptomAssessment (rt : Runtime) (d : Dict)
  : option SymptomAssessment :=
  match field d "assessment_id" (pydantic_str rt),
        field d "urgency_level" (pydantic_str rt),
        field d "urgency_score" (int_between rt 1 100),
        field d "possible_conditions" (list_of rt (validate_PossibleCondition rt)),
        field d "recommended_tests" (list_of rt (pydantic_str rt)),
        field d "action_items" (list_of rt (pydantic_str rt)),
        field d "warning_signs" (list_of rt (pydantic_str rt)),
        field d "when_to_seek_care" (pydantic_str rt) with
  | Some a, Some ul, Some us, Some pc, Some rts, Some ai, Some ws, Some wc =>
      Some {| assessment_id := a; urgency_level := ul; urgency_score := us;
              possible_conditions := pc; recommended_tests := rts;
              action_items := ai; warning_signs := ws;
              when_to_seek_care := wc |}
  | _, _, _, _, _, _, _, _ => None
  end.

(** The call of [SymptomAssessment] on the unpacked [assessment_data]. *)
Definition construct (rt : Runtime) (assessment_data : json)
  : result SymptomAssessment :=
  match assessment_data with
  | JObj d =>
      match validate_SymptomAssessment rt d with
      | Some a => Ok a
      | None => Raise (ValidationError (str_ValidationError rt d))
      end
  | v => Raise (TypeError (module_name rt
                           ++ ".SymptomAssessment() argument after ** must be a mapping, not "
                           ++ Py.type_name v))
  end.

(** The statements of the second [try], from the moment
    [raw_json_text] holds the cleaned text. *)
Definition parse_and_validate (rt : Runtime) (raw_json_text : string)
  : result SymptomAssessment :=
  match json_loads rt raw_json_text with
  | inr failure => Raise (loads_exn failure)
  | inl assessment_data => construct rt assessment_data
  end.

(** The statements of the second [try] up to the clean-up: the text that
    [raw_json_text] holds when [json.loads] is reached. *)
Definition cleaned_text (rt : Runtime) (res : json) : result string :=
  has_choices <- Py.contains_str "choices" res ;;
  if negb has_choices then Raise (unexpected_format rt res) else
  choices <- Py.getitem_str res "choices" ;;
  n <- Py.len choices ;;
  if n =? 0 then Raise (unexpected_format rt res) else
  raw <- first_completion_content res ;;
  raw_json_text <- as_text raw ;;
  Ok (normalize raw_json_text).

Definition keywords : list string :=
  ["quota"; "api key"; "authentication"; "rate limit"].

(** The three [except] clauses of the second [try]; [raw_json_text] is
    the text bound to that name, if it is bound to one. *)
Definition handler (rt : Runtime) (raw_json_text : option string) (e : exn)
  : exn :=
  match e with
  | HTTPStatusError _ code error_detail =>
      HTTPException code ("OpenRouter API Error: " ++ error_detail)
  | JSONDecodeError _ =>
      let snippet := match raw_json_text with
                     | Some t => PyStr.take 1000 t
                     | None => "No response"
                     end in
      HTTPException 500
        ("AI returned malformed JSON. Raw response (truncated): " ++ snippet)
  | _ =>
      let msg := PyStr.lower (str_exn rt e) in
      if existsb (fun keyword => PyStr.contains keyword msg) keywords then
        HTTPException 502
          ("OpenRouter API Error: Check your API key or quota. Details: "
           ++ str_exn rt e)
      else
        HTTPException 500
          ("An unexpected error occurred during API call: " ++ str_exn rt e)
  end.

(** The second [try] statement with its handlers. *)
Definition interpret (rt : Runtime) (res : json) : result SymptomAssessment :=
  match cleaned_text rt res with
  | Raise e => Raise (handler rt None e)
  | Ok raw_json_text =>
      match parse_and_validate rt raw_json_text with
      | Ok assessment => Ok assessment
      | Raise e => Raise (handler rt (Some raw_json_text) e)
      end
  end.

Definition not_configured : exn :=
  HTTPException 502 "OpenRouter API Key is not configured in .env".

(** [analyze_symptoms] over a configured list of models; the second
    component is the list of requests posted, oldest first. *)
Definition analyze_symptoms_with (models : list string) (rt : Runtime)
    (data : SymptomRequest) : result SymptomAssessment * list Request :=
  if key_missing rt then (Raise not_configured, [])
  else
    let assessment_id := uuid4 rt in
    match fallback rt system_instruction (user_prompt data assessment_id)
                   models None [] with
    | (Exhausted last_error, sent) => (Raise (all_failed rt last_error), sent)
    | (Break res, sent) => (interpret rt res, sent)
    end.

Definition analyze_symptoms
  : Runtime -> SymptomRequest -> result SymptomAssessment * list Request :=
  analyze_symptoms_with models_to_try.

End Symptom.

(* ------------------------------------------------------------------ *)
(** ** reports.py: [call_glm_for_analysis] and the JSON-file store *)

Module Reports.

Record TestData : Type := {
  value : float;
  unit_ : string;
  normal_range : option (list float);
  status : string
}.

(** [sep.join(l)]. *)
Fixpoint join (sep : string) (l : list string) : string :=
  match l with
  | [] => EmptyString
  | [x] => x
  | x :: r => x ++ sep ++ join sep r
  end.

Definition system_prompt : string :=
  join newline
    [ "You are a medical AI assistant that explains lab reports in simple, patient-friendly language.";
      "Analyze the medical report and provide a comprehensive explanation in JSON format.";
      EmptyString;
      "Your response MUST be valid JSON with this exact structure:";
      "{";
      "  " ++ quoted "simple_summary" ++ ": " ++ quoted "2-3 sentence overview in simple language" ++ ",";
      "  " ++ quoted "key_findings" ++ ": [" ++ quoted "finding 1" ++ ", " ++ quoted "finding 2"
           ++ ", " ++ quoted "finding 3" ++ "],";
      "  " ++ quoted "overall_health_score" ++ ": number (1-100),";
      "  " ++ quoted "risk_level" ++ ": " ++ quoted "LOW or MODERATE or HIGH" ++ ",";
      "  " ++ quoted "concerns" ++ ": [" ++ quoted "concern 1" ++ ", " ++ quoted "concern 2" ++ "],";
      "  " ++ quoted "next_steps" ++ ": [" ++ quoted "step 1" ++ ", " ++ quoted "step 2"
           ++ ", " ++ quoted "step 3" ++ "]";
      "}";
      EmptyString;
      "Guidelines:";
      "- Use simple, non-technical language";
      "- Be compassionate and clear";
      "- Focus on actionable insights";
      "- Always recommend consulting a doctor for medical decisions";
      "- Return ONLY valid JSON, no markdown or extra text" ].

Definition parsed_summary (rt : Runtime) (parsed_data : list (string * TestData))
  : string :=
  join newline
    (map (fun '(test_name, data) =>
            "- " ++ test_name ++ ": " ++ str_float rt (value data) ++ " "
            ++ unit_ data ++ " (Status: " ++ status data ++ ")")
         parsed_data).

Definition user_prompt (rt : Runtime) (extracted_text : string)
    (parsed_data : list (string * TestData)) : string :=
  "Analyze this medical report:" ++ newline
  ++ newline
  ++ "EXTRACTED TEXT:" ++ newline
  ++ PyStr.take 2000 extracted_text ++ newline
  ++ newline
  ++ "PARSED TEST RESULTS:" ++ newline
  ++ parsed_summary rt parsed_data ++ newline
  ++ newline
  ++ "Provide your analysis as valid JSON only.".

Definition models_to_try : list string :=
  [ "zhipuai/glm-4-plus";
    "zhipuai/glm-4-0520";
    "zhipuai/glm-4";
    "openai/gpt-3.5-turbo" ].

Definition request (rt : Runtime) (msgs : list Message) (model_name : string)
  : Request :=
  {| url := OPENROUTER_BASE_URL ++ "/chat/completions";
     headers :=
       [ ("Authorization", "Bearer " ++ key_text rt);
         ("Content-Type", "application/json");
         ("HTTP-Referer", "http://localhost:3000");
         ("X-Title", "MediClear Report Analysis") ];
     json_payload :=
       {| model := model_name;
          messages := msgs;
          temperature := Some 0.7%float;
          max_tokens := Some 1500%Z;
          stream := None;
          response_format := None |};
     timeout := 60%float |}.

(** [raw_content.strip()] exists on a [str] only. *)
Definition as_text (raw_content : json) : result string :=
  match raw_content with
  | JStr s => Ok s
  | v => Raise (AttributeError ("'" ++ Py.type_name v
                                ++ "' object has no attribute 'strip'"))
  end.

(** [json.loads]. *)
Definition loads (rt : Runtime) (s : string) : result json :=
  match json_loads rt s with
  | inl v => Ok v
  | inr failure => Raise (loads_exn failure)
  end.

(** The body of the [try] for one model: here the clean-up and the
    parsing are inside it. *)
Definition attempt (rt : Runtime) (sent : list Request) (rq : Request)
  : result json :=
  res <- fetch rt sent rq ;;
  raw <- first_completion_content res ;;
  raw_content <- as_text raw ;;
  loads rt (normalize raw_content).

(** The [for] loop, whose three handlers all record the error and
    [continue], and the [raise] that follows it. *)
Fixpoint fallback (rt : Runtime) (msgs : list Message)
    (models : list string) (last_error : option exn) (sent : list Request)
  : result json * list Request :=
  match models with
  | [] =>
      (Raise (HTTPException 500
                ("All GLM models failed to analyze report. Last error: "
                 ++ str_last_error rt last_error)),
       sent)
  | model_name :: rest =>
      let rq := request rt msgs model_name in
      match attempt rt sent rq with
      | Ok analysis => (Ok analysis, (sent ++ [rq])%list)
      | Raise e => fallback rt msgs rest (Some e) (sent ++ [rq])%list
      end
  end.

Definition analysis_messages (rt : Runtime) (extracted_text : string)
    (parsed_data : list (string * TestData)) : list Message :=
  [ {| role := "system"; content := system_prompt |};
    {| role := "user"; content := user_prompt rt extracted_text parsed_data |} ].

Definition call_glm_for_analysis_with (models : list string) (rt : Runtime)
    (extracted_text : string) (parsed_data : list (string * TestData))
  : result json * list Request :=
  if key_missing rt then
    (Raise (HTTPException 500 "OPENROUTER_API_KEY not configured"), [])
  else
    fallback rt (analysis_messages rt extracted_text parsed_data) models None [].

Definition call_glm_for_analysis
  : Runtime -> string -> list (string * TestData) -> result json * list Request :=
  call_glm_for_analysis_with models_to_try.

End Reports.

(* ------------------------------------------------------------------ *)
(** ** Python's [==] on parsed values *)

Module PyEq.

(** [n == f] for an [int] and a [float]: the comparison is exact. *)
Definition int_eq_float (n : Z) (f : float) : bool :=
  match Prim2SF f with
  | S754_zero _ => (n =? 0)%Z
  | S754_finite s m e =>
      let v := if s then Z.neg m else Z.pos m in
      if (0 <=? e)%Z then (n =? v * 2 ^ e)%Z
      else ((v mod 2 ^ (- e) =? 0) && (n =? v / 2 ^ (- e)))%Z
  | _ => false
  end.

(** [a == b]: [bool] is a subtype of [int], numbers compare by value, a
    list compares element by element, a dict by its keys. *)
Fixpoint py_eq (a b : json) {struct a} : bool :=
  match a, b with
  | JNull, JNull => true
  | JBool x, JBool y => Bool.eqb x y
  | JBool x, JInt n => (Z.b2z x =? n)%Z
  | JInt n, JBool x => (n =? Z.b2z x)%Z
  | JBool x, JFloat f => int_eq_float (Z.b2z x) f
  | JFloat f, JBool x => int_eq_float (Z.b2z x) f
  | JInt n, JInt m => (n =? m)%Z
  | JInt n, JFloat f => int_eq_float n f
  | JFloat f, JInt n => int_eq_float n f
  | JFloat f, JFloat g => (f =? g)%float
  | JStr s, JStr t => (s =? t)%string
  | JArr xs, JArr ys =>
      (fix items (xs ys : list json) {struct xs} : bool :=
         match xs, ys with
         | [], [] => true
         | x :: xs', y :: ys' => py_eq x y && items xs' ys'
         | _, _ => false
         end) xs ys
  | JObj xs, JObj ys =>
      (List.length xs =? List.length ys)
      && (fix members (xs : list (string * json)) {struct xs} : bool :=
            match xs with
            | [] => true
            | (k, v) :: xs' =>
                match Py.dict_get k ys with
                | Some w => py_eq v w
                | None => false
                end && members xs'
            end) xs
  | _, _ => false
  end.

(** [d.get(k)], which is [None] for an absent key. *)
Definition get (d : Dict) (k : string) : json :=
  match Py.dict_get k d with
  | Some v => v
  | None => JNull
  end.

End PyEq.

(* ------------------------------------------------------------------ *)
(** ** reports.py: the JSON-file store *)

Module Store.

(** The document kept in [records_db.json]. *)
Record Database : Type := {
  medical_records : list Dict;
  report_explanations : list Dict
}.

Definition empty : Database :=
  {| medical_records := []; report_explanations := [] |}.

(** The file: [None] when it cannot be opened or decoded. *)
Definition File : Type := option Database.

Definition load_database (file : File) : Database :=
  match file with
  | Some db => db
  | None => empty
  end.

(** The write is taken to succeed. *)
Definition save_database (data : Database) : File := Some data.

Definition record_id (exp : Dict) : json := PyEq.get exp "record_id".

(** The list comprehension: [explanation_data["record_id"]] is evaluated
    once per element, so it raises only when there is an element. *)
Fixpoint others (rows : list Dict) (explanation_data : Dict)
  : result (list Dict) :=
  match rows with
  | [] => Ok []
  | exp :: rest =>
      rid <- Py.getitem_str (JObj explanation_data) "record_id" ;;
      kept <- others rest explanation_data ;;
      Ok (if negb (PyEq.py_eq (record_id exp) rid) then exp :: kept else kept)
  end.

(** [insert_explanation]: the returned value and the file afterwards. *)
Definition insert_explanation (file : File) (explanation_data : Dict)
  : result Dict * File :=
  let db := load_database file in
  match others (report_explanations db) explanation_data with
  | Raise e => (Raise e, file)
  | Ok kept =>
      let db' := {| medical_records := medical_records db;
                    report_explanations := (kept ++ [explanation_data])%list |} in
      (Ok explanation_data, save_database db')
  end.

(** No two explanations of the list are about the same record. *)
Fixpoint one_per_record (rows : list Dict) : Prop :=
  match rows with
  | [] => True
  | exp :: rest =>
      Forall (fun other => PyEq.py_eq (record_id exp) (record_id other) = false) rest
      /\ one_per_record rest
  end.

(** The explanations of [rows] that are (are not) about record [rid]. *)
Definition about (rid : json) (rows : list Dict) : list Dict :=
  filter (fun exp => PyEq.py_eq (record_id exp) rid) rows.
Definition not_about (rid : json) (rows : list Dict) : list Dict :=
  filter (fun exp => negb (PyEq.py_eq (record_id exp) rid)) rows.

End Store.

(* ------------------------------------------------------------------ *)
(** ** Runs of the three loops

    [outcomes rt models sent] lists what each attempt returns when the
    requests for [models] are posted one after the other, [sent] having been
    posted before. *)

Section Runs.

Variable rt : Runtime.
Variable attempt : Runtime -> list Request -> Request -> result json.
Variable request : string -> Request.

Fixpoint outcomes (models : list string) (sent : list Request)
  : list (result json) :=
  match models with
  | [] => []
  | model_name :: rest =>
      attempt rt sent (request model_name)
      :: outcomes rest (sent ++ [request model_name])%list
  end.

(** The loop the three clients share: post the requests in order until
    an attempt returns.  The result is the value of the attempt that
    returned, if any, the error held in [last_error], and the requests
    posted. *)
Fixpoint first_success (models : list string) (last_error : option exn)
    (sent : list Request) : option json * option exn * list Request :=
  match models with
  | [] => (None, last_error, sent)
  | model_name :: rest =>
      match attempt rt sent (request model_name) with
      | Ok v => (Some v, last_error, (sent ++ [request model_name])%list)
      | Raise e =>
          first_success rest (Some e) (sent ++ [request model_name])%list
      end
  end.

End Runs.

(** The error the loops hold in [last_error] after the failures [es]. *)
Definition last_of (es : list exn) (last_error : option exn) : option exn :=
  List.last (map Some es) last_error.

(** The models named by a list of posted requests. *)
Definition models_of (sent : list Request) : list string :=
  map (fun rq => model (json_payload rq)) sent.

(** [word] occurs in [s] when case is ignored. *)
Definition mentions (word s : string) : Prop :=
  exists pre mid post, s = pre ++ mid ++ post /\ PyStr.lower mid = word.

(** [t] is a run of consecutive characters of [s]. *)
Definition within (t s : string) : Prop :=
  exists pre post, s = pre ++ t ++ post.

(** What [analyze_symptoms] returns once [raw_json_text] holds [text], the
    message content of the first completion. *)
Definition assessment_of_text (rt : Runtime) (text : string)
  : result Symptom.SymptomAssessment :=
  match Symptom.parse_and_validate rt (normalize text) with
  | Ok assessment => Ok assessment
  | Raise e => Raise (Symptom.handler rt (Some (normalize text)) e)
  end.

(** What the last [except] clause of [analyze_symptoms] raises for an
    exception whose text [str(e)] is [msg]: a 502 when the text, in lower
    case, contains one of the keywords, a 500 otherwise
    (symptom_checker.py, lines 211-218). *)
Definition unexpected_error (msg : string) : exn :=
  if existsb (fun keyword => PyStr.contains keyword (PyStr.lower msg))
       Symptom.keywords
  then HTTPException 502
         ("OpenRouter API Error: Check your API key or quota. Details: " ++ msg)
  else HTTPException 500
         ("An unexpected error occurred during API call: " ++ msg).

(* ------------------------------------------------------------------ *)
(** ** A scripted runtime for the examples *)

Module Demo.

Definition ok_response (body : json) : Response :=
  {| status_code := 200; text := EmptyString;
     status_error := None; json_body := inl body |}.

Definition bad_status (code : Z) (msg : string) : Response :=
  {| status_code := code; text := "upstream error";
     status_error := Some msg;
     json_body := inl (JObj [("error", JStr "upstream error")]) |}.

(** The body of a successful completion with one choice. *)
Definition completion (answer : json) : json :=
  JObj [ ("choices",
          JArr [ JObj [ ("message",
                         JObj [ ("role", JStr "assistant");
                                ("content", answer) ]) ] ]) ].

Definition uuid : string := "3f2b8c1e-5d47-4a90-9b6e-0c1d2e3f4a5b".

(** The k-th request receives the k-th entry of the script. *)
Definition scripted (script : list (Response + exn))
  : list Request -> Request -> Response + exn :=
  fun sent _ =>
    nth (List.length sent) script (inr (TransportError "connection refused")).

(** A decoder that knows the documents of [table] and refuses every
    other text. *)
Definition decoder (table : list (string * json)) (s : string)
  : json + loads_error :=
  match find (fun entry => (fst entry =? s)%string) table with
  | Some entry => inl (snd entry)
  | None => inr (Malformed "Expecting value: line 1 column 1 (char 0)")
  end.

Definition runtime (key : option string) (script : list (Response + exn))
    (table : list (string * json)) : Runtime :=
  {| OPENROUTER_API_KEY := key;
     post := scripted script;
     uuid4 := uuid;
     json_loads := decoder table;
     str_HTTPException := fun code detail => str_int code ++ ": " ++ detail;
     py_format := fun _ => "{...}";
     str_float := fun _ => "0.0";
     pydantic_str := fun v => match v with JStr s => Some s | _ => None end;
     pydantic_int := fun v => match v with JInt n => Some n | _ => None end;
     pydantic_list := fun v => match v with JArr l => Some l | _ => None end;
     pydantic_model := fun v => match v with JObj d => Some d | _ => None end;
     str_ValidationError := fun _ => "1 validation error for SymptomAssessment";
     module_name := "app.api.v1.symptom_checker" |}.

Definition timeout_error : Response + exn := inr (TransportError "timed out").
Definition unavailable : Response + exn :=
  inl (bad_status 503 "Server error '503 Service Unavailable'").

Definition question : list Message :=
  [ {| role := "system"; content := "You are a helpful medical AI assistant." |};
    {| role := "user"; content := "Is my glucose normal?" |} ].

(** Four failures, then an answer. *)
Definition fifth_answers : Runtime :=
  runtime (Some "sk-or-demo")
    [ timeout_error; unavailable; timeout_error; unavailable;
      inl (ok_response (completion (JStr "Your glucose is normal."))) ]
    [].

(** Every attempt fails; the last failure is a 503. *)
Definition none_answers : Runtime :=
  runtime (Some "sk-or-demo")
    [ timeout_error; timeout_error; timeout_error; timeout_error; unavailable ]
    [].

Definition unavailable_error : exn :=
  HTTPStatusError "Server error '503 Service Unavailable'" 503 "upstream error".

Definition no_key : Runtime := runtime None [] [].

Definition member (k v : string) : string := quoted k ++ ": " ++ v.

(** A complete assessment, as text and as the value it decodes to. *)
Definition assessment_doc : string :=
  "{" ++ Reports.join ", "
           [ member "assessment_id" (quoted uuid);
             member "urgency_level" (quoted "NORMAL");
             member "urgency_score" "20";
             member "possible_conditions" "[]";
             member "recommended_tests" "[]";
             member "action_items" "[]";
             member "warning_signs" "[]";
             member "when_to_seek_care" (quoted "If the fever lasts three days.") ]
  ++ "}".

Definition assessment_value : json :=
  JObj [ ("assessment_id", JStr uuid);
         ("urgency_level", JStr "NORMAL");
         ("urgency_score", JInt 20);
         ("possible_conditions", JArr []);
         ("recommended_tests", JArr []);
         ("action_items", JArr []);
         ("warning_signs", JArr []);
         ("when_to_seek_care", JStr "If the fever lasts three days.") ].

Definition assessment : Symptom.SymptomAssessment :=
  {| Symptom.assessment_id := uuid;
     Symptom.urgency_level := "NORMAL";
     Symptom.urgency_score := 20;
     Symptom.possible_conditions := [];
     Symptom.recommended_tests := [];
     Symptom.action_items := [];
     Symptom.warning_signs := [];
     Symptom.when_to_seek_care := "If the fever lasts three days." |}.

(** The same assessment without its [urgency_level]. *)
Definition incomplete_doc : string :=
  "{" ++ Reports.join ", "
           [ member "assessment_id" (quoted uuid);
             member "urgency_score" "20";
             member "possible_conditions" "[]";
             member "recommended_tests" "[]";
             member "action_items" "[]";
             member "warning_signs" "[]";
             member "when_to_seek_care" (quoted "If the fever lasts three days.") ]
  ++ "}".

Definition incomplete_members : Dict :=
  [ ("assessment_id", JStr uuid);
    ("urgency_score", JInt 20);
    ("possible_conditions", JArr []);
    ("recommended_tests", JArr []);
    ("action_items", JArr []);
    ("warning_signs", JArr []);
    ("when_to_seek_care", JStr "If the fever lasts three days.") ].

Definition documents : list (string * json) :=
  [ (assessment_doc, assessment_value);
    (incomplete_doc, JObj incomplete_members);
    ("{}", JObj []) ].

(** Three failures, then a complete assessment. *)
Definition fourth_assesses : Runtime :=
  runtime (Some "sk-or-demo")
    [ timeout_error; unavailable; timeout_error;
      inl (ok_response (completion (JStr assessment_doc))) ]
    documents.

Definition apology : string := "Sorry, I cannot help with that.".

(** The first model answers with prose, the second with an object. *)
Definition second_parses : Runtime :=
  runtime (Some "sk-or-demo")
    [ inl (ok_response (completion (JStr apology)));
      inl (ok_response (completion (JStr "{}"))) ]
    documents.

(** The first model times out, the second answers with prose. *)
Definition second_is_prose : Runtime :=
  runtime (Some "sk-or-demo")
    [ timeout_error; inl (ok_response (completion (JStr apology))) ]
    documents.

Definition report_text : string := "Glucose: 90 mg/dL".

(** The only model asked answers with an assessment that lacks its
    [urgency_level]. *)
Definition first_incomplete : Runtime :=
  runtime (Some "sk-or-demo")
    [ inl (ok_response (completion (JStr incomplete_doc))) ]
    documents.

Definition explanation (rid summary : string) : Dict :=
  [ ("record_id", JStr rid); ("simple_summary", JStr summary) ].

(** A store with an explanation for each of two records. *)
Definition two_explained : Store.File :=
  Some {| Store.medical_records := [];
          Store.report_explanations :=
            [ explanation "r1" "old summary"; explanation "r2" "fine" ] |}.

Definition fever : Symptom.SymptomRequest :=
  {| Symptom.symptoms := "fever"; Symptom.age := 30; Symptom.gender := "F";
     Symptom.duration := "2 days"; Symptom.severity := 5 |}.






End Demo.

(* ------------------------------------------------------------------ *)
(** ** chat.py: what is built around the model's answer *)

Module ChatReply.

(** A record as [process_medical_records_from_storage] builds it: a dict
    whose values are [str]. *)
Definition StrDict : Type := list (string * string).

Fixpoint get (record : StrDict) (k : string) : option string :=
  match record with
  | [] => None
  | (k', v) :: r => if (k' =? k)%string then Some v else get r k
  end.

(** [record.get(k, '')]. *)
Definition get_or_empty (record : StrDict) (k : string) : string :=
  match get record k with
  | Some v => v
  | None => EmptyString
  end.

(** [f"{record.get(k)}"]. *)
Definition shown (record : StrDict) (k : string) : string :=
  match get record k with
  | Some v => v
  | None => "None"
  end.

(** [s * n]. *)
Fixpoint times (s : string) (n : nat) : string :=
  match n with
  | 0 => EmptyString
  | S k => s ++ times s k
  end.

(** The text that one turn of the loop of [build_medical_context] adds. *)
Definition record_block (idx : Z) (record : StrDict) : string :=
  "=== Record " ++ str_int idx ++ " ===" ++ newline
  ++ "Record ID: " ++ shown record "id" ++ newline
  ++ "Source File: " ++ shown record "source_file" ++ newline
  ++ "File Type: " ++ shown record "file_type" ++ newline
  ++ "Processed Date: " ++ shown record "processed_date" ++ newline ++ newline
  ++ "Content:" ++ newline ++ shown record "content" ++ newline
  ++ newline ++ times "=" 50 ++ newline ++ newline.

(** The loop over [enumerate(medical_records, idx)]. *)
Fixpoint add_records (idx : Z) (medical_records : list StrDict)
    (context : string) : string :=
  match medical_records with
  | [] => context
  | record :: rest =>
      add_records (idx + 1) rest (context ++ record_block idx record)
  end.

Definition build_medical_context (medical_records : list StrDict) : string :=
  match medical_records with
  | [] => "No medical data available."
  | _ :: _ =>
      add_records 1 medical_records ("User's Medical Records:" ++ newline ++ newline)
  end.

(** [s.split()]: the maximal runs of characters that are not white
    space; [word] is the run being read. *)
Fixpoint split_from (s word : string) : list string :=
  match s with
  | EmptyString => if PyStr.is_empty word then [] else [word]
  | String c r =>
      if PyStr.isspace c then
        if PyStr.is_empty word then split_from r EmptyString
        else word :: split_from r EmptyString
      else split_from r (word ++ String c EmptyString)
  end.

Definition split (s : string) : list string := split_from s EmptyString.

(** The elements of [set(a).intersection(set(b))], each once. *)
Definition common (a b : list string) : list string :=
  nodup string_dec (filter (fun w => existsb (String.eqb w) b) a).

(** Whether one turn of the loop of [extract_referenced_records] appends
    the [record_id]. *)
Definition is_referenced (answer_lower : string) (record : StrDict) : bool :=
  let record_id := get_or_empty record "id" in
  let source_file := get_or_empty record "source_file" in
  let content := PyStr.lower (get_or_empty record "content") in
  if negb (PyStr.is_empty record_id)
     && PyStr.contains (PyStr.lower record_id) answer_lower then true
  else if negb (PyStr.is_empty source_file)
          && PyStr.contains (PyStr.lower source_file) answer_lower then true
  else 5 <? List.length (common (split content) (split answer_lower)).

(** The list [referenced] at the end of the loop. *)
Definition referenced_in_order (answer : string) (medical_records : list StrDict)
  : list string :=
  map (fun record => get_or_empty record "id")
      (filter (is_referenced (PyStr.lower answer)) medical_records).

(** [list(set(referenced))]: the order in which a set is listed is not
    fixed by the source; the list below is one of the possible results, and
    only what does not depend on the order is stated about it. *)
Definition extract_referenced_records (answer : string)
    (medical_records : list StrDict) : list string :=
  nodup string_dec (referenced_in_order answer medical_records).

Definition general_suggestions : list string :=
  [ "What lifestyle changes should I consider based on this data?";
    "Are there any concerning trends in my records?";
    "What should I discuss with my doctor about these results?";
    "When should I schedule my next check-up?" ].

Definition generate_follow_ups (question answer : string)
    (medical_records : list StrDict) : list string :=
  let suggestions :=
    match medical_records with
    | [] => []
    | _ :: _ => [ "Can you explain the most recent test results?";
                  "What do these findings mean for my health?" ]
    end in
  firstn 4 (suggestions ++ general_suggestions)%list.

Record ChatRequest : Type := {
  question : string;
  session_id : option string
}.

Record ChatResponse : Type := {
  answer : string;
  referenced_records : list string;
  confidence_score : float;
  follow_up_suggestions : list string;
  response_session_id : string
}.

Definition system_content (medical_context : string) : string :=
  "You are a helpful medical AI assistant with access to the user's health records, " ++ newline
  ++ "which were extracted from their medical documents using OCR and text processing. Provide accurate, " ++ newline
  ++ "personalized answers based on this medical data. Always reference specific values, dates, and record IDs " ++ newline
  ++ "when available. Be clear, compassionate, and professional." ++ newline
  ++ newline
  ++ "IMPORTANT: Base your answers ONLY on the medical records provided below. Do not make assumptions " ++ newline
  ++ "about data that is not present in the records." ++ newline
  ++ newline
  ++ medical_context ++ newline
  ++ newline
  ++ "When answering:" ++ newline
  ++ "- Reference specific test results and dates" ++ newline
  ++ "- Mention record IDs or source files when relevant" ++ newline
  ++ "- Explain medical terms in simple language" ++ newline
  ++ "- Suggest when to consult a healthcare provider" ++ newline
  ++ "- Be honest if information is insufficient" ++ newline
  ++ "- If you see concerning results, clearly explain why they're concerning".

(** The messages of step 3; [get_conversation_history] returns the empty
    list, so that nothing stands between the two. *)
Definition chat_messages (medical_records : list StrDict) (question : string)
  : list Message :=
  [ {| role := "system";
       content := system_content (build_medical_context medical_records) |};
    {| role := "user"; content := question |} ].

(** The records as the [List[dict]] that [calculate_confidence] takes. *)
Definition as_dicts (medical_records : list StrDict) : list Dict :=
  map (map (fun kv => (fst kv, JStr (snd kv)))) medical_records.

(** [data.session_id or str(uuid.uuid4())]. *)
Definition session_or_new (rt : Runtime) (data : ChatRequest) : string :=
  match session_id data with
  | Some s => if PyStr.is_empty s then uuid4 rt else s
  | None => uuid4 rt
  end.

(** Steps 5 to 9, once the model has answered with [ai_answer]:
    [answer.lower()] exists on a [str] only. *)
Definition respond (rt : Runtime) (medical_records : list StrDict)
    (data : ChatRequest) (ai_answer : json) : result ChatResponse :=
  match ai_answer with
  | JStr text =>
      Ok {| answer := text;
            referenced_records := extract_referenced_records text medical_records;
            confidence_score :=
              Chat.calculate_confidence (question data) (as_dicts medical_records) text;
            follow_up_suggestions :=
              generate_follow_ups (question data) text medical_records;
            response_session_id := session_or_new rt data |}
  | v => Raise (AttributeError ("'" ++ Py.type_name v
                                ++ "' object has no attribute 'lower'"))
  end.

(** [chat_ask_question], from the outcome [storage] of
    [process_medical_records_from_storage] on: the records it returned or
    the exception it raised.  The second component lists the requests that
    [call_glm_model] posted. *)
Definition chat_ask_question (rt : Runtime) (storage : result (list StrDict))
    (data : ChatRequest) : result ChatResponse * list Request :=
  match storage with
  | Raise e => (Raise e, [])
  | Ok medical_records =>
      match Chat.call_glm_model rt (chat_messages medical_records (question data)) with
      | (Raise (HTTPException code detail), sent) =>
          (Raise (HTTPException code detail), sent)
      | (Raise e, sent) =>
          (Raise (HTTPException 500
                    ("Unexpected error calling GLM model: " ++ str_exn rt e)),
           sent)
      | (Ok ai_answer, sent) => (respond rt medical_records data ai_answer, sent)
      end
  end.

End ChatReply.

(* ------------------------------------------------------------------ *)
(** ** reports.py: the lab values read from a report *)

Module Lab.

(** The two library functions of [parse_medical_values]:
    [re.findall(pattern, text)] for a pattern with three groups, and
    [float(s)], which is [None] when it raises [ValueError]. *)
Record TextLib : Type := {
  re_findall : string -> string -> list (string * string * string);
  py_float : string -> option float
}.

Definition test_pattern : string :=
  "([A-Za-z\s]+):\s*(\d+\.?\d*)\s*([a-zA-Z/%]+)".

(** [d[k] = v] on a dict in insertion order. *)
Fixpoint dict_set {V} (k : string) (v : V) (d : list (string * V))
  : list (string * V) :=
  match d with
  | [] => [(k, v)]
  | (k', v') :: r =>
      if (k' =? k)%string then (k', v) :: r else (k', v') :: dict_set k v r
  end.

(** The range and the status that the loop gives to one value. *)
Definition judge (test_name : string) (value : float) : list float * string :=
  if PyStr.contains "Sugar" test_name then
    ([70%float; 100%float],
     if (125 <? value)%float then "URGENT"
     else if (100 <? value)%float then "MONITOR"
     else "NORMAL")
  else ([], "NORMAL").

(** One turn of the loop over the matches. *)
Definition add_match (lib : TextLib) (parsed_data : list (string * Reports.TestData))
    (m : string * string * string) : list (string * Reports.TestData) :=
  let '(name, number, unit_text) := m in
  let test_name := PyStr.strip name in
  match py_float lib number with
  | None => parsed_data
  | Some value =>
      let unit := PyStr.strip unit_text in
      dict_set test_name
        {| Reports.value := value;
           Reports.unit_ := unit;
           Reports.normal_range := Some (fst (judge test_name value));
           Reports.status := snd (judge test_name value) |}
        parsed_data
  end.

Definition parse_medical_values (lib : TextLib) (text : string)
  : list (string * Reports.TestData) :=
  fold_left (add_match lib) (re_findall lib test_pattern text) [].

Definition has_status (s : string) (parsed_data : list (string * Reports.TestData))
  : bool :=
  existsb (fun data => (Reports.status data =? s)%string) (map snd parsed_data).

Definition determine_overall_status (parsed_data : list (string * Reports.TestData))
  : string :=
  if has_status "URGENT" parsed_data then "URGENT"
  else if has_status "MONITOR" parsed_data then "MONITOR"
  else "NORMAL".

(** What the loop of [parse_medical_values] keeps true of its dict: the
    names are distinct, and each test has the range and the status that its
    own name and value call for. *)
Definition judged (parsed_data : list (string * Reports.TestData)) : Prop :=
  NoDup (map fst parsed_data)
  /\ forall name data,
       In (name, data) parsed_data ->
       Reports.status data = snd (judge name (Reports.value data))
       /\ Reports.normal_range data = Some (fst (judge name (Reports.value data))).

(** How grave a status is. *)
Definition rank (s : string) : nat :=
  if (s =? "URGENT")%string then 2
  else if (s =? "MONITOR")%string then 1
  else 0.

End Lab.

(* ------------------------------------------------------------------ *)
(** ** reports.py: queries on the JSON-file store *)

Module Records.

Definition insert_record (file : Store.File) (record_data : Dict)
  : Dict * Store.File :=
  let db := Store.load_database file in
  (record_data,
   Store.save_database
     {| Store.medical_records := (Store.medical_records db ++ [record_data])%list;
        Store.report_explanations := Store.report_explanations db |}).

(** [record.get(k) == s] for a string [s]. *)
Definition has (k s : string) (record : Dict) : bool :=
  PyEq.py_eq (PyEq.get record k) (JStr s).

Definition get_record_by_id (file : Store.File) (record_id : string)
  : option Dict :=
  find (has "id" record_id) (Store.medical_records (Store.load_database file)).

Definition get_explanation_by_record_id (file : Store.File) (record_id : string)
  : option Dict :=
  find (has "record_id" record_id)
       (Store.report_explanations (Store.load_database file)).

(** [if s:] for an optional string. *)
Definition given (s : option string) : option string :=
  match s with
  | Some v => if PyStr.is_empty v then None else Some v
  | None => None
  end.

(** The two filters of [get_records]. *)
Definition select (record_type user_id : option string) (records : list Dict)
  : list Dict :=
  let records :=
    match given user_id with
    | Some u => filter (has "user_id" u) records
    | None => records
    end in
  match given record_type with
  | Some t => filter (has "record_type" t) records
  | None => records
  end.

(** The sort key [x.get("report_date", "")] when it is a string. *)
Definition date_key (record : Dict) : option string :=
  match Py.dict_get "report_date" record with
  | None => Some EmptyString
  | Some (JStr s) => Some s
  | Some _ => None
  end.

(** The key, for records that have one. *)
Definition date_of (record : Dict) : string :=
  match date_key record with
  | Some s => s
  | None => EmptyString
  end.

(** [sorted(records, key=..., reverse=True)] on string keys: the sort of
    Python is stable, also in reverse, so that its result is the list in
    which each record stands before the later records whose key is not
    greater, which is what inserting the records from the last one on
    gives. *)
Fixpoint insert_by_date (x : Dict) (sorted : list Dict) : list Dict :=
  match sorted with
  | [] => [x]
  | y :: r =>
      if String.ltb (date_of x) (date_of y) then y :: insert_by_date x r
      else x :: y :: r
  end.

Fixpoint sorted_by_date (records : list Dict) : list Dict :=
  match records with
  | [] => []
  | x :: r => insert_by_date x (sorted_by_date r)
  end.

(** The date of [x] is not earlier than the date of [y]. *)
Definition not_earlier (x y : Dict) : Prop :=
  String.ltb (date_of x) (date_of y) = false.

(** The bound of a slice, for a list of [n] elements. *)
Definition slice_bound (i n : Z) : Z :=
  if (i <? 0)%Z then Z.max (i + n) 0 else Z.min i n.

(** [l[a:b]]. *)
Definition slice {A} (a b : Z) (l : list A) : list A :=
  let n := Z.of_nat (List.length l) in
  let lo := slice_bound a n in
  let hi := slice_bound b n in
  firstn (Z.to_nat (hi - lo)) (skipn (Z.to_nat lo) l).

(** [get_records]: the page and the total.  The result is [None] when the
    [report_date] of a selected record is not a string: how Python orders
    such keys is not part of this model. *)
Definition get_records (file : Store.File) (limit offset : Z)
    (record_type user_id : option string) : option (list Dict * nat) :=
  let records := select record_type user_id
                   (Store.medical_records (Store.load_database file)) in
  if forallb (fun r => match date_key r with Some _ => true | None => false end)
       records
  then
    let records := sorted_by_date records in
    Some (slice offset (offset + limit) records, List.length records)
  else None.

End Records.

(* ------------------------------------------------------------------ *)
(** ** reports.py: [explain_medical_report] *)

Module Explain.

(** What the endpoint takes from its libraries besides the [Runtime]:
    the coercion of pydantic for a [float], the name of the module that
    declares the models, and the value of [datetime.now().isoformat()]. *)
Record ReportsLib : Type := {
  pydantic_float : json -> option float;
  reports_module : string;
  now_isoformat : string
}.

Record ReportExplanation : Type := {
  record_id : string;
  simple_summary : string;
  key_findings : list string;
  overall_health_score : Z;
  risk_level : string;
  concerns : list string;
  next_steps : list string;
  explanation_generated_at : string
}.

(** [bool(v)]. *)
Definition truthy (v : json) : bool :=
  match v with
  | JNull => false
  | JBool b => b
  | JInt n => negb (n =? 0)%Z
  | JFloat f => negb (f =? 0)%float
  | JStr s => negb (PyStr.is_empty s)
  | JArr l => match l with [] => false | _ :: _ => true end
  | JObj d => match d with [] => false | _ :: _ => true end
  end.

(** [if not record:] for the dict, or [None], that a lookup returns. *)
Definition found (o : option Dict) : option Dict :=
  match o with
  | Some (kv :: d) => Some (kv :: d)
  | _ => None
  end.

Definition validate_ReportExplanation (rt : Runtime) (d : Dict)
  : option ReportExplanation :=
  match Symptom.field d "record_id" (pydantic_str rt),
        Symptom.field d "simple_summary" (pydantic_str rt),
        Symptom.field d "key_findings" (Symptom.list_of rt (pydantic_str rt)),
        Symptom.field d "overall_health_score" (pydantic_int rt),
        Symptom.field d "risk_level" (pydantic_str rt),
        Symptom.field d "concerns" (Symptom.list_of rt (pydantic_str rt)),
        Symptom.field d "next_steps" (Symptom.list_of rt (pydantic_str rt)),
        Symptom.field d "explanation_generated_at" (pydantic_str rt) with
  | Some r, Some ss, Some kf, Some hs, Some rl, Some c, Some ns, Some at_ =>
      Some {| record_id := r; simple_summary := ss; key_findings := kf;
              overall_health_score := hs; risk_level := rl; concerns := c;
              next_steps := ns; explanation_generated_at := at_ |}
  | _, _, _, _, _, _, _, _ => None
  end.

(** The call of [ReportExplanation] on an unpacked dict. *)
Definition construct_ReportExplanation (rt : Runtime) (d : Dict)
  : result ReportExplanation :=
  match validate_ReportExplanation rt d with
  | Some e => Ok e
  | None => Raise (ValidationError (str_ValidationError rt d))
  end.

(** A field declared [Optional[...] = None]. *)
Definition optional {A} (d : Dict) (k : string) (parse : json -> option A)
  : option (option A) :=
  match Py.dict_get k d with
  | None => Some None
  | Some JNull => Some None
  | Some v => match parse v with
              | Some a => Some (Some a)
              | None => None
              end
  end.

Definition validate_TestData (rt : Runtime) (lib : ReportsLib) (d : Dict)
  : option Reports.TestData :=
  match Symptom.field d "value" (pydantic_float lib),
        Symptom.field d "unit" (pydantic_str rt),
        optional d "normal_range" (Symptom.list_of rt (pydantic_float lib)),
        Symptom.field d "status" (pydantic_str rt) with
  | Some v, Some u, Some nr, Some s =>
      Some {| Reports.value := v; Reports.unit_ := u;
              Reports.normal_range := nr; Reports.status := s |}
  | _, _, _, _ => None
  end.

(** The call of [TestData] on an unpacked value. *)
Definition construct_TestData (rt : Runtime) (lib : ReportsLib) (v : json)
  : result Reports.TestData :=
  match v with
  | JObj d =>
      match validate_TestData rt lib d with
      | Some t => Ok t
      | None => Raise (ValidationError (str_ValidationError rt d))
      end
  | _ => Raise (TypeError (reports_module lib
                           ++ ".TestData() argument after ** must be a mapping, not "
                           ++ Py.type_name v))
  end.

Fixpoint construct_all (rt : Runtime) (lib : ReportsLib) (items : Dict)
  : result (list (string * Reports.TestData)) :=
  match items with
  | [] => Ok []
  | (k, v) :: rest =>
      t <- construct_TestData rt lib v ;;
      ts <- construct_all rt lib rest ;;
      Ok ((k, t) :: ts)
  end.

(** The dict comprehension over [parsed_data_raw.items()]. *)
Definition parsed_data_of (rt : Runtime) (lib : ReportsLib) (record : Dict)
  : result (list (string * Reports.TestData)) :=
  match Py.dict_get "parsed_data" record with
  | None => Ok []
  | Some (JObj items) => construct_all rt lib items
  | Some v => Raise (AttributeError ("'" ++ Py.type_name v
                                     ++ "' object has no attribute 'items'"))
  end.

(** [call_glm_for_analysis] on the value found under [extracted_text]: a
    list is sliced and formatted as a string is, any other value that is not
    a string cannot be sliced (messages of CPython 3.11).  The key is
    checked first. *)
Definition user_prompt_with (rt : Runtime) (excerpt : string)
    (parsed_data : list (string * Reports.TestData)) : string :=
  "Analyze this medical report:" ++ newline
  ++ newline
  ++ "EXTRACTED TEXT:" ++ newline
  ++ excerpt ++ newline
  ++ newline
  ++ "PARSED TEST RESULTS:" ++ newline
  ++ Reports.parsed_summary rt parsed_data ++ newline
  ++ newline
  ++ "Provide your analysis as valid JSON only.".

Definition analyse (rt : Runtime) (extracted_text : json)
    (parsed_data : list (string * Reports.TestData)) : result json * list Request :=
  match extracted_text with
  | JStr s => Reports.call_glm_for_analysis rt s parsed_data
  | v =>
      if key_missing rt then
        (Raise (HTTPException 500 "OPENROUTER_API_KEY not configured"), [])
      else
        match v with
        | JArr l =>
            Reports.fallback rt
              [ {| role := "system"; content := Reports.system_prompt |};
                {| role := "user";
                   content := user_prompt_with rt
                                (py_format rt (JArr (firstn 2000 l))) parsed_data |} ]
              Reports.models_to_try None []
        | JObj _ => (Raise (TypeError "unhashable type: 'slice'"), [])
        | _ => (Raise (Py.not_subscriptable v), [])
        end
  end.

(** [analysis.get(k, default)]. *)
Definition get_or (analysis : Dict) (k : string) (default : json) : json :=
  match Py.dict_get k analysis with
  | Some v => v
  | None => default
  end.

Definition explanation_data (lib : ReportsLib) (rid : string) (analysis : Dict)
  : Dict :=
  [ ("record_id", JStr rid);
    ("simple_summary", get_or analysis "simple_summary" (JStr EmptyString));
    ("key_findings", get_or analysis "key_findings" (JArr []));
    ("overall_health_score", get_or analysis "overall_health_score" (JInt 50));
    ("risk_level", get_or analysis "risk_level" (JStr "MODERATE"));
    ("concerns", get_or analysis "concerns" (JArr []));
    ("next_steps", get_or analysis "next_steps" (JArr []));
    ("explanation_generated_at", JStr (now_isoformat lib)) ].

(** Steps 5 and 6: the explanation is stored, then validated. *)
Definition store_and_return (rt : Runtime) (lib : ReportsLib) (file : Store.File)
    (rid : string) (analysis : json) : result ReportExplanation * Store.File :=
  match analysis with
  | JObj d =>
      let data := explanation_data lib rid d in
      match Store.insert_explanation file data with
      | (Raise e, file') => (Raise e, file')
      | (Ok _, file') => (construct_ReportExplanation rt data, file')
      end
  | v => (Raise (AttributeError ("'" ++ Py.type_name v
                                 ++ "' object has no attribute 'get'")),
          file)
  end.

(** [explain_medical_report]: what it returns or raises, the requests
    posted, and the file afterwards. *)
Definition explain_medical_report (rt : Runtime) (lib : ReportsLib)
    (file : Store.File) (rid : string)
  : result ReportExplanation * list Request * Store.File :=
  match found (Records.get_record_by_id file rid) with
  | None =>
      (Raise (HTTPException 404 ("Record with ID " ++ rid ++ " not found.")),
       [], file)
  | Some record =>
      match found (Records.get_explanation_by_record_id file rid) with
      | Some existing_explanation =>
          (construct_ReportExplanation rt existing_explanation, [], file)
      | None =>
          let extracted_text := get_or record "extracted_text" (JStr EmptyString) in
          match parsed_data_of rt lib record with
          | Raise e => (Raise e, [], file)
          | Ok parsed_data =>
              if negb (truthy extracted_text) then
                (Raise (HTTPException 400
                          "No text extracted from this record. Cannot generate explanation."),
                 [], file)
              else
                match analyse rt extracted_text parsed_data with
                | (Raise (HTTPException code detail), sent) =>
                    (Raise (HTTPException code detail), sent, file)
                | (Raise e, sent) =>
                    (Raise (HTTPException 500
                              ("Failed to generate explanation: " ++ str_exn rt e)),
                     sent, file)
                | (Ok analysis, sent) =>
                    let '(r, file') := store_and_return rt lib file rid analysis in
                    (r, sent, file')
                end
          end
      end
  end.

End Explain.

(* ------------------------------------------------------------------ *)
(** ** Sample records, texts and stores for the examples *)

Module Samples.

Definition blood_test : ChatReply.StrDict :=
  [ ("id", "rec-001"); ("source_file", "blood.txt"); ("file_type", "text");
    ("content", "Glucose: 90 mg/dL");
    ("processed_date", "2024-05-01T10:00:00") ].

Definition xray : ChatReply.StrDict :=
  [ ("id", "rec-002"); ("source_file", "xray.png"); ("file_type", "image");
    ("content", "No acute findings.");
    ("processed_date", "2024-05-02T09:30:00") ].

Definition ask : ChatReply.ChatRequest :=
  {| ChatReply.question := "Is my glucose normal?";
     ChatReply.session_id := Some "session-7" |}.

Definition sugar_text : string := "Blood Sugar: 130 mg/dL".
Definition hemoglobin_text : string := "Hemoglobin: 13.5 g/dL".

(** A library that knows the matches of the two sample texts and the
    value of their numbers. *)
Definition text_lib : Lab.TextLib :=
  {| Lab.re_findall := fun _ text =>
       if (text =? sugar_text)%string then [("Blood Sugar", "130", "mg/dL")]
       else if (text =? hemoglobin_text)%string then [("Hemoglobin", "13.5", "g/dL")]
       else [];
     Lab.py_float := fun s =>
       if (s =? "130")%string then Some 130%float
       else if (s =? "13.5")%string then Some 13.5%float
       else None |}.

Definition user : string := "00000000-0000-0000-0000-000000000001".

Definition stored (id date : string) : Dict :=
  [ ("id", JStr id); ("user_id", JStr user); ("record_type", JStr "blood");
    ("report_date", JStr date); ("extracted_text", JStr "Glucose: 90 mg/dL") ].

Definition three_records : Store.File :=
  Some {| Store.medical_records :=
            [ stored "a" "2024-01-05"; stored "b" "2024-03-01";
              stored "c" "2024-02-10" ];
          Store.report_explanations := [] |}.

Definition reports_lib : Explain.ReportsLib :=
  {| Explain.pydantic_float :=
       fun v => match v with JFloat f => Some f | _ => None end;
     Explain.reports_module := "app.api.v1.reports";
     Explain.now_isoformat := "2024-06-01T12:00:00" |}.

(** The first model answers with an empty object. *)
Definition answers_empty_object : Runtime :=
  Demo.runtime (Some "sk-or-demo")
    [ inl (Demo.ok_response (Demo.completion (JStr "{}"))) ]
    Demo.documents.

Definition default_explanation : Explain.ReportExplanation :=
  {| Explain.record_id := "a";
     Explain.simple_summary := EmptyString;
     Explain.key_findings := [];
     Explain.overall_health_score := 50;
     Explain.risk_level := "MODERATE";
     Explain.concerns := [];
     Explain.next_steps := [];
     Explain.explanation_generated_at := "2024-06-01T12:00:00" |}.

End Samples.

(* ================================================================== *)
(** * Properties *)

(* ------------------------------------------------------------------ *)
(** ** Facts about strings *)

Section StringFacts.

Lemma append_nil_r (s : string) : s ++ EmptyString = s.
Proof. induction s as [|c s IH]; simpl; [reflexivity | now rewrite IH]. Qed.

Lemma append_assoc (a b c : string) : (a ++ b) ++ c = a ++ b ++ c.
Proof. induction a as [|x a IH]; simpl; [reflexivity | now rewrite IH]. Qed.

Lemma length_append (a b : string) :
  String.length (a ++ b) = String.length a + String.length b.
Proof. induction a as [|x a IH]; simpl; [reflexivity | now rewrite IH]. Qed.

Lemma prefix_iff (p s : string) :
  prefix p s = true <-> exists post, s = p ++ post.
Proof.
  revert s; induction p as [|c p IH]; intros s.
  - split; [intros _; now exists s | intros _; now destruct s].
  - destruct s as [|d s]; simpl.
    + split; [discriminate | intros [post H]; discriminate].
    + destruct (ascii_dec c d) as [->|ne].
      * rewrite IH. split; intros [post H]; exists post.
        -- now rewrite H.
        -- now inversion H.
      * split; [discriminate | intros [post H]; inversion H; congruence].
Qed.

Lemma contains_iff (sub s : string) :
  PyStr.contains sub s = true <-> within sub s.
Proof.
  unfold within. induction s as [|c s IH]; cbn [PyStr.contains].
  - rewrite orb_false_r, prefix_iff. split.
    + intros [post H]. now exists EmptyString, post.
    + intros [pre [post H]]. destruct pre; [now exists post | discriminate].
  - rewrite orb_true_iff, prefix_iff, IH. split.
    + intros [[post H] | [pre [post H]]].
      * now exists EmptyString, post.
      * exists (String c pre), post. simpl. now rewrite H.
    + intros [pre [post H]]. destruct pre as [|d pre].
      * left. now exists post.
      * right. exists pre, post. simpl in H. now inversion H.
Qed.



Lemma take_all (n : nat) (s : string) :
  String.length s <= n -> PyStr.take n s = s.
Proof.
  revert s; induction n as [|n IH]; intros [|c s]; simpl; intros H;
    try reflexivity; try lia.
  rewrite IH; [reflexivity | lia].
Qed.










End StringFacts.

(* ------------------------------------------------------------------ *)
(** ** The response normaliser *)

Lemma normalize_unfenced (raw : string) :
  PyStr.startswith (PyStr.strip raw) fence = false -> normalize raw = raw.
Proof. unfold normalize. now intros ->. Qed.


(** *** Stripping around a fence *)

Section Unwrap.

Lemma rstrip_append_keep (a b : string) :
  PyStr.rstrip b <> EmptyString ->
  PyStr.rstrip (a ++ b) = a ++ PyStr.rstrip b.
Proof.
  intros H. induction a as [|c a IH]; simpl; [reflexivity|].
  rewrite IH. destruct (a ++ PyStr.rstrip b) as [|d r] eqn:E; [|reflexivity].
  destruct a; [|discriminate E]. simpl in E. contradiction.
Qed.

Lemma rstrip_append_newline (x : string) :
  PyStr.rstrip (x ++ newline) = PyStr.rstrip x.
Proof. induction x as [|c x IH]; simpl; [reflexivity | now rewrite IH]. Qed.

Lemma lstrip_append (p s : string) :
  PyStr.lstrip (p ++ s)
  = match PyStr.lstrip p with
    | EmptyString => PyStr.lstrip s
    | x => x ++ s
    end.
Proof.
  induction p as [|c p IH]; simpl.
  - now destruct (PyStr.lstrip s).
  - destruct (PyStr.isspace c); [exact IH | reflexivity].
Qed.

Lemma strip_between_newlines (p : string) :
  PyStr.strip (newline ++ p ++ newline) = PyStr.strip p.
Proof.
  unfold PyStr.strip. change (PyStr.lstrip (newline ++ p ++ newline))
    with (PyStr.lstrip (p ++ newline)).
  rewrite lstrip_append. destruct (PyStr.lstrip p) as [|c x]; [reflexivity|].
  apply (rstrip_append_newline (String c x)).
Qed.

Lemma drop_length_append (a b : string) : PyStr.drop (String.length a) (a ++ b) = b.
Proof. induction a as [|c a IH]; simpl; [now destruct b | exact IH]. Qed.

Lemma take_length_append (a b : string) : PyStr.take (String.length a) (a ++ b) = a.
Proof.
  induction a as [|c a IH]; simpl; [now destruct b | now rewrite IH].
Qed.

Lemma endswith_append_fence (a : string) : PyStr.endswith (a ++ fence) fence = true.
Proof.
  unfold PyStr.endswith. rewrite length_append. simpl String.length.
  replace (String.length a + 3 - 3) with (String.length a) by lia.
  rewrite drop_length_append, String.eqb_refl.
  apply andb_true_iff. split; [apply Nat.leb_le; lia | reflexivity].
Qed.

Lemma drop_last_append_fence (a : string) : PyStr.drop_last 3 (a ++ fence) = a.
Proof.
  unfold PyStr.drop_last. rewrite length_append. simpl String.length.
  replace (String.length a + 3 - 3) with (String.length a) by lia.
  apply take_length_append.
Qed.

Lemma strip_fenced (opening body : string) (c : ascii) (r : string) :
  opening = String c r -> PyStr.isspace c = false ->
  PyStr.strip (opening ++ body ++ fence) = opening ++ body ++ fence.
Proof.
  intros -> Hc. unfold PyStr.strip. simpl PyStr.lstrip. rewrite Hc.
  change (String c (r ++ body ++ fence)) with (String c r ++ body ++ fence).
  rewrite <- append_assoc. now rewrite rstrip_append_keep.
Qed.

End Unwrap.

(** A fence wrapped around a fenced payload. *)
Definition twice_fenced : string := "``````json{}".

(** C4, as stated, fails: [normalize] removes one layer of fences, so
    its output may still begin with a fence, and normalising that output
    again changes it. *)
Lemma normalize_not_idempotent :
  normalize twice_fenced = "```json{}"
  /\ normalize (normalize twice_fenced) = "{}"
  /\ ~ (forall raw, normalize (normalize raw) = normalize raw).
Proof.
  split; [reflexivity|]. split; [reflexivity|].
  intros H. specialize (H twice_fenced). discriminate H.
Qed.

Lemma prefix_nil (s : string) : prefix EmptyString s = true.
Proof. now destruct s. Qed.

(** A text that begins with a fence and ends with one loses both, and
    the white space around what is left. *)
Lemma normalize_fenced (raw body : string) :
  PyStr.strip raw = fence_json ++ body ++ fence
  \/ (PyStr.strip raw = fence ++ body ++ fence
      /\ PyStr.startswith (body ++ fence) "json" = false) ->
  normalize raw = PyStr.strip body.
Proof.
  unfold normalize. intros [H|[H Hj]]; rewrite H.
  - change (PyStr.startswith (fence_json ++ body ++ fence) fence) with true.
    change (PyStr.startswith (fence_json ++ body ++ fence) fence_json)
      with (prefix EmptyString (body ++ fence)).
    rewrite prefix_nil.
    change (PyStr.drop 7 (fence_json ++ body ++ fence)) with (body ++ fence).
    now rewrite endswith_append_fence, drop_last_append_fence.
  - change (PyStr.startswith (fence ++ body ++ fence) fence)
      with (prefix EmptyString (body ++ fence)).
    change (PyStr.startswith (fence ++ body ++ fence) fence_json)
      with (PyStr.startswith (body ++ fence) "json").
    rewrite prefix_nil, Hj.
    change (PyStr.drop 3 (fence ++ body ++ fence)) with (body ++ fence).
    now rewrite endswith_append_fence, drop_last_append_fence.
Qed.

(** A text that begins with a fence and does not end with one loses the
    leading fence only. *)
Lemma normalize_open_fence (raw body : string) :
  PyStr.endswith body fence = false ->
  PyStr.strip raw = fence_json ++ body
  \/ (PyStr.strip raw = fence ++ body /\ PyStr.startswith body "json" = false) ->
  normalize raw = PyStr.strip body.
Proof.
  unfold normalize. intros He [H|[H Hj]]; rewrite H.
  - change (PyStr.startswith (fence_json ++ body) fence) with true.
    change (PyStr.startswith (fence_json ++ body) fence_json)
      with (prefix EmptyString body).
    rewrite prefix_nil.
    change (PyStr.drop 7 (fence_json ++ body)) with body.
    now rewrite He.
  - change (PyStr.startswith (fence ++ body) fence)
      with (prefix EmptyString body).
    change (PyStr.startswith (fence ++ body) fence_json)
      with (PyStr.startswith body "json").
    rewrite prefix_nil, Hj.
    change (PyStr.drop 3 (fence ++ body)) with body.
    now rewrite He.
Qed.

(** C4 (amended): [normalize] strips one leading fence, tagged [json] or
    not, one trailing fence if there is one, and the white space around what
    is left: this holds of every text that begins with a fence once its
    surrounding white space is ignored, in particular of every payload
    between a fence line and a closing fence line, so that the fenced
    [{"a":1}] of the specification yields the bare payload.  A text that
    does not begin with a fence once its surrounding white space is ignored
    is returned unchanged; and normalising twice is the same as normalising
    once whenever the normalised text does not itself begin with a
    fence. *)
Theorem normalize_strips_one_fence :
  (forall raw body,
      PyStr.strip raw = fence_json ++ body ++ fence
      \/ (PyStr.strip raw = fence ++ body ++ fence
          /\ PyStr.startswith (body ++ fence) "json" = false) ->
      normalize raw = PyStr.strip body)
  /\ (forall raw body,
      PyStr.endswith body fence = false ->
      PyStr.strip raw = fence_json ++ body
      \/ (PyStr.strip raw = fence ++ body
          /\ PyStr.startswith body "json" = false) ->
      normalize raw = PyStr.strip body)
  /\ (forall p,
      normalize (fence_json ++ newline ++ p ++ newline ++ fence) = PyStr.strip p
      /\ normalize (fence ++ newline ++ p ++ newline ++ fence) = PyStr.strip p)
  /\ normalize fenced_a1 = payload_a1
  /\ (forall raw,
        PyStr.startswith (PyStr.strip raw) fence = false ->
        normalize raw = raw)
  /\ (forall raw,
        PyStr.startswith (PyStr.strip (normalize raw)) fence = false ->
        normalize (normalize raw) = normalize raw).
Proof.
  split; [exact normalize_fenced|]. split; [exact normalize_open_fence|].
  split; [|split; [reflexivity|split]].
  - intros p. split.
    + rewrite (normalize_fenced _ (newline ++ p ++ newline)).
      * apply strip_between_newlines.
      * left.
        replace (fence_json ++ newline ++ p ++ newline ++ fence)
          with (fence_json ++ (newline ++ p ++ newline) ++ fence)
          by now rewrite !append_assoc.
        apply (strip_fenced fence_json _ "`"%char "``json" eq_refl eq_refl).
    + rewrite (normalize_fenced _ (newline ++ p ++ newline)).
      * apply strip_between_newlines.
      * right. split; [|reflexivity].
        replace (fence ++ newline ++ p ++ newline ++ fence)
          with (fence ++ (newline ++ p ++ newline) ++ fence)
          by now rewrite !append_assoc.
        apply (strip_fenced fence _ "`"%char "``" eq_refl eq_refl).
  - exact normalize_unfenced.
  - intros raw H. now apply normalize_unfenced.
Qed.

(** A clean payload; an indented list between plain fences; a fence that
    is never closed; and the fenced payload of the specification. *)
Lemma normalize_strips_one_fence_witness :
  normalize payload_a1 = payload_a1
  /\ normalize ("  ```" ++ newline ++ "[1, 2]" ++ newline ++ "```" ++ newline)
     = "[1, 2]"
  /\ normalize ("```json" ++ newline ++ "[1, 2]") = "[1, 2]"
  /\ normalize (normalize fenced_a1) = normalize fenced_a1.
Proof.
  destruct normalize_strips_one_fence as [Hboth [Hopen [_ [_ [Hnone Htwice]]]]].
  split; [apply Hnone; reflexivity|].
  split; [|split; [|apply Htwice; reflexivity]].
  - rewrite (Hboth _ (newline ++ "[1, 2]" ++ newline)); [reflexivity|].
    right. split; reflexivity.
  - rewrite (Hopen _ (newline ++ "[1, 2]")); [reflexivity|reflexivity|].
    left. reflexivity.
Defined.

(* ------------------------------------------------------------------ *)
(** ** The confidence score *)

(** C9: whatever the question, the records and the answer are,
    [calculate_confidence] returns a score between 0.1 and 1.0 inclusive. *)
Theorem calculate_confidence_bounds
    (question : string) (medical_records : list Dict) (answer : string) :
  (0.1 <=? Chat.calculate_confidence question medical_records answer)%float = true
  /\ (Chat.calculate_confidence question medical_records answer <=? 1.0)%float = true.
Proof.
  unfold Chat.calculate_confidence.
  destruct (Chat.has_records medical_records), (Chat.has_digit answer),
    (Chat.has_any Chat.uncertain_phrases answer),
    (Chat.has_any Chat.medical_terms answer);
    vm_compute; split; reflexivity.
Qed.

(* ------------------------------------------------------------------ *)
(** ** The fallback loops *)

Section LoopFacts.

Variable rt : Runtime.
Variable attempt : Runtime -> list Request -> Request -> result json.
Variable request : string -> Request.

Lemma last_cons {A} (a d : A) (l : list A) : List.last (a :: l) d = List.last l a.
Proof.
  revert a d; induction l as [|b l IH]; intros a d; [reflexivity|].
  change (List.last (a :: b :: l) d) with (List.last (b :: l) d).
  now rewrite (IH b d), (IH b a).
Qed.

Lemma last_of_cons (e : exn) (es : list exn) (last_error : option exn) :
  last_of (e :: es) last_error = last_of es (Some e).
Proof. unfold last_of. simpl map. apply last_cons. Qed.

Lemma last_of_snoc (es : list exn) (e : exn) (last_error : option exn) :
  last_of (es ++ [e]) last_error = Some e.
Proof. unfold last_of. rewrite map_app. simpl. apply last_last. Qed.

(** Failed attempts are passed over, one request each. *)
Lemma first_success_failures (pre rest : list string) :
  forall es last_error sent,
    outcomes rt attempt request pre sent = map Raise es ->
    first_success rt attempt request (pre ++ rest) last_error sent
    = first_success rt attempt request rest (last_of es last_error)
        (sent ++ map request pre).
Proof.
  induction pre as [|m pre IH]; intros es last_error sent H; simpl in *.
  - destruct es; [|discriminate]. now rewrite app_nil_r.
  - destruct es as [|e es]; [discriminate|]. simpl in H.
    injection H as H1 H2. rewrite H1.
    rewrite (IH es (Some e) _ H2), last_of_cons, <- app_assoc.
    reflexivity.
Qed.

(** The requests posted are those of an initial segment of the
    configured list, in its order. *)
Lemma first_success_log (models : list string) :
  forall last_error sent,
  exists k,
    snd (first_success rt attempt request models last_error sent)
    = (sent ++ map request (firstn k models))%list.
Proof.
  induction models as [|m models IH]; intros last_error sent; simpl.
  - exists 0. now rewrite app_nil_r.
  - destruct (attempt rt sent (request m)).
    + exists 1. reflexivity.
    + destruct (IH (Some e) (sent ++ [request m])%list) as [k Hk].
      exists (S k). rewrite Hk. simpl. now rewrite <- app_assoc.
Qed.

End LoopFacts.

(** Each loop of the source is [first_success] followed by what the
    function does at the exit of its loop. *)
Lemma chat_fallback_eq (rt : Runtime) (msgs : list Message) (models : list string) :
  forall last_error sent,
    Chat.fallback rt msgs models last_error sent
    = match first_success rt Chat.attempt (Chat.request rt msgs)
              models last_error sent with
      | (Some answer, _, log) => (Ok answer, log)
      | (None, e, log) =>
          (Raise (HTTPException 500
                    ("All GLM models failed. Last error: " ++ str_last_error rt e)),
           log)
      end.
Proof.
  induction models as [|m models IH]; intros last_error sent; simpl.
  - reflexivity.
  - destruct (Chat.attempt rt sent (Chat.request rt msgs m)); [reflexivity | apply IH].
Qed.

Lemma reports_fallback_eq (rt : Runtime) (msgs : list Message) (models : list string) :
  forall last_error sent,
    Reports.fallback rt msgs models last_error sent
    = match first_success rt Reports.attempt (Reports.request rt msgs)
              models last_error sent with
      | (Some analysis, _, log) => (Ok analysis, log)
      | (None, e, log) =>
          (Raise (HTTPException 500
                    ("All GLM models failed to analyze report. Last error: "
                     ++ str_last_error rt e)),
           log)
      end.
Proof.
  induction models as [|m models IH]; intros last_error sent; simpl.
  - reflexivity.
  - destruct (Reports.attempt rt sent (Reports.request rt msgs m));
      [reflexivity | apply IH].
Qed.

Lemma symptom_fallback_eq (rt : Runtime) (sys user : string) (models : list string) :
  forall last_error sent,
    Symptom.fallback rt sys user models last_error sent
    = match first_success rt Symptom.attempt (Symptom.request rt sys user)
              models last_error sent with
      | (Some res, _, log) => (Symptom.Break res, log)
      | (None, e, log) => (Symptom.Exhausted e, log)
      end.
Proof.
  induction models as [|m models IH]; intros last_error sent; simpl.
  - reflexivity.
  - destruct (Symptom.attempt rt sent (Symptom.request rt sys user m));
      [reflexivity | apply IH].
Qed.

Lemma chat_models_of (rt : Runtime) (msgs : list Message) (models : list string) :
  models_of (map (Chat.request rt msgs) models) = models.
Proof. unfold models_of. rewrite map_map. simpl. apply map_id. Qed.

Lemma symptom_models_of (rt : Runtime) (sys user : string) (models : list string) :
  models_of (map (Symptom.request rt sys user) models) = models.
Proof. unfold models_of. rewrite map_map. simpl. apply map_id. Qed.

Lemma reports_models_of (rt : Runtime) (msgs : list Message) (models : list string) :
  models_of (map (Reports.request rt msgs) models) = models.
Proof. unfold models_of. rewrite map_map. simpl. apply map_id. Qed.

(** A response that passes [raise_for_status] and decodes. *)
Lemma fetch_ok (rt : Runtime) (sent : list Request) (rq : Request)
    (response : Response) (data : json) :
  post rt sent rq = inl response ->
  status_error response = None ->
  json_body response = inl data ->
  fetch rt sent rq = Ok data.
Proof.
  intros Hp Hs Hj. unfold fetch, client_post, raise_for_status, response_json.
  rewrite Hp. simpl. rewrite Hs. simpl. now rewrite Hj.
Qed.

(** When the body holds a first completion, the second [try] of
    [analyze_symptoms] reaches the clean-up with its content. *)
Lemma cleaned_text_of_content (rt : Runtime) (res raw : json) :
  first_completion_content res = Ok raw ->
  Symptom.cleaned_text rt res
  = (raw_json_text <- Symptom.as_text raw ;; Ok (normalize raw_json_text)).
Proof.
  intros H. unfold Symptom.cleaned_text. rewrite H.
  unfold first_completion_content in H.
  destruct res as [| | | | |items|d]; try discriminate H.
  simpl in *. destruct (Py.dict_get "choices" d) as [choices|]; [|discriminate H].
  simpl in *.
  destruct choices as [| | | |s|items|d']; try discriminate H.
  - destruct s; [discriminate H | reflexivity].
  - destruct items; [discriminate H | reflexivity].
Qed.

Lemma interpret_of_text (rt : Runtime) (res : json) (text : string) :
  first_completion_content res = Ok (JStr text) ->
  Symptom.interpret rt res = assessment_of_text rt text.
Proof.
  intros H. unfold Symptom.interpret.
  now rewrite (cleaned_text_of_content rt res _ H).
Qed.

(** C1: when the attempts for the first N-1 models of the configured list
    fail and the N-th model answers with a decodable body that holds a first
    completion, [call_glm_model] posts one request per model, in the
    configured order, N in all, and returns the message content of that
    completion; [analyze_symptoms] posts the same N requests and builds its
    assessment from the body of model N, that is from the message content of
    its first completion. *)
Theorem last_model_answers :
  (forall rt msgs pre m es response data answer,
      key_missing rt = false ->
      outcomes rt Chat.attempt (Chat.request rt msgs) pre [] = map Raise es ->
      post rt (map (Chat.request rt msgs) pre) (Chat.request rt msgs m)
      = inl response ->
      status_error response = None ->
      json_body response = inl data ->
      first_completion_content data = Ok answer ->
      Chat.call_glm_model_with (pre ++ [m]) rt msgs
      = (Ok answer, map (Chat.request rt msgs) (pre ++ [m]))
      /\ models_of (snd (Chat.call_glm_model_with (pre ++ [m]) rt msgs))
         = (pre ++ [m])%list
      /\ List.length (snd (Chat.call_glm_model_with (pre ++ [m]) rt msgs))
         = List.length (pre ++ [m]))
  /\ (forall rt input pre m es response data text,
      key_missing rt = false ->
      let rq := Symptom.request rt Symptom.system_instruction
                  (Symptom.user_prompt input (uuid4 rt)) in
      outcomes rt Symptom.attempt rq pre [] = map Raise es ->
      post rt (map rq pre) (rq m) = inl response ->
      status_error response = None ->
      json_body response = inl data ->
      first_completion_content data = Ok (JStr text) ->
      Symptom.analyze_symptoms_with (pre ++ [m]) rt input
      = (assessment_of_text rt text, map rq (pre ++ [m]))
      /\ models_of (snd (Symptom.analyze_symptoms_with (pre ++ [m]) rt input))
         = (pre ++ [m])%list
      /\ List.length (snd (Symptom.analyze_symptoms_with (pre ++ [m]) rt input))
         = List.length (pre ++ [m])).
Proof.
  split.
  - intros rt msgs pre m es response data answer Hkey Hpre Hp Hs Hj Hc.
    assert (E : Chat.call_glm_model_with (pre ++ [m]) rt msgs
                = (Ok answer, map (Chat.request rt msgs) (pre ++ [m]))).
    { unfold Chat.call_glm_model_with. rewrite Hkey, chat_fallback_eq.
      rewrite (first_success_failures _ _ _ pre [m] es None [] Hpre).
      simpl. unfold Chat.attempt. rewrite (fetch_ok _ _ _ _ _ Hp Hs Hj).
      simpl. rewrite Hc. now rewrite map_app. }
    rewrite E. simpl. rewrite chat_models_of, length_map. auto.
  - intros rt input pre m es response data text Hkey rq Hpre Hp Hs Hj Hc.
    assert (E : Symptom.analyze_symptoms_with (pre ++ [m]) rt input
                = (assessment_of_text rt text, map rq (pre ++ [m]))).
    { unfold Symptom.analyze_symptoms_with. rewrite Hkey, symptom_fallback_eq.
      fold rq.
      rewrite (first_success_failures _ _ _ pre [m] es None [] Hpre).
      simpl. unfold Symptom.attempt. rewrite (fetch_ok _ _ _ _ _ Hp Hs Hj).
      rewrite (interpret_of_text _ _ _ Hc). now rewrite map_app. }
    rewrite E. simpl. unfold rq. rewrite symptom_models_of, length_map. auto.
Qed.

(** Four failures and an answer for the chat client; three failures and an
    assessment for the symptom checker. *)
Lemma last_model_answers_witness :
  Chat.call_glm_model Demo.fifth_answers Demo.question
  = (Ok (JStr "Your glucose is normal."),
     map (Chat.request Demo.fifth_answers Demo.question) Chat.models_to_try)
  /\ fst (Symptom.analyze_symptoms Demo.fourth_assesses Demo.fever)
     = Ok Demo.assessment.
Proof.
  destruct last_model_answers as [Hchat Hsymptom]. split.
  - refine (proj1 (Hchat Demo.fifth_answers Demo.question
                     [ "zhipuai/glm-4-plus"; "zhipuai/glm-4-0520";
                       "zhipuai/glm-4"; "openai/gpt-4o" ]
                     "openai/gpt-3.5-turbo"
                     [ TransportError "timed out"; Demo.unavailable_error;
                       TransportError "timed out"; Demo.unavailable_error ]
                     (Demo.ok_response (Demo.completion (JStr "Your glucose is normal.")))
                     (Demo.completion (JStr "Your glucose is normal."))
                     (JStr "Your glucose is normal.")
                     _ _ _ _ _ _)); reflexivity.
  - change (Symptom.analyze_symptoms Demo.fourth_assesses Demo.fever)
      with (Symptom.analyze_symptoms_with
              ([ "zhipuai/glm-4-plus"; "zhipuai/glm-4-0520"; "zhipuai/glm-4" ]
               ++ [ "openai/gpt-3.5-turbo" ])%list
              Demo.fourth_assesses Demo.fever).
    rewrite (proj1 (Hsymptom Demo.fourth_assesses Demo.fever
                      [ "zhipuai/glm-4-plus"; "zhipuai/glm-4-0520"; "zhipuai/glm-4" ]
                      "openai/gpt-3.5-turbo"
                      [ TransportError "timed out"; Demo.unavailable_error;
                        TransportError "timed out" ]
                      (Demo.ok_response (Demo.completion (JStr Demo.assessment_doc)))
                      (Demo.completion (JStr Demo.assessment_doc))
                      Demo.assessment_doc
                      eq_refl eq_refl eq_refl eq_refl eq_refl eq_refl)).
    reflexivity.
Defined.

(** C2: when the attempt for every model of the configured list fails,
    [call_glm_model] and [analyze_symptoms] have posted one request per
    model, in the configured order and no more, and raise an error whose
    detail quotes the failure of the last model attempted and no other. *)
Theorem exhaustion_reports_last_error :
  (forall rt msgs models es,
      key_missing rt = false ->
      outcomes rt Chat.attempt (Chat.request rt msgs) models [] = map Raise es ->
      Chat.call_glm_model_with models rt msgs
      = (Raise (HTTPException 500
                  ("All GLM models failed. Last error: "
                   ++ str_last_error rt (last_of es None))),
         map (Chat.request rt msgs) models)
      /\ models_of (snd (Chat.call_glm_model_with models rt msgs)) = models
      /\ List.length (snd (Chat.call_glm_model_with models rt msgs))
         = List.length models
      /\ (forall es' e, es = (es' ++ [e])%list ->
          str_last_error rt (last_of es None) = str_exn rt e))
  /\ (forall rt input models es,
      key_missing rt = false ->
      let rq := Symptom.request rt Symptom.system_instruction
                  (Symptom.user_prompt input (uuid4 rt)) in
      outcomes rt Symptom.attempt rq models [] = map Raise es ->
      Symptom.analyze_symptoms_with models rt input
      = (Raise (HTTPException 500
                  ("All GLM models failed. Please check your API key. Last error: "
                   ++ str_last_error rt (last_of es None))),
         map rq models)
      /\ models_of (snd (Symptom.analyze_symptoms_with models rt input)) = models
      /\ List.length (snd (Symptom.analyze_symptoms_with models rt input))
         = List.length models
      /\ (forall es' e, es = (es' ++ [e])%list ->
          str_last_error rt (last_of es None) = str_exn rt e)).
Proof.
  split.
  - intros rt msgs models es Hkey Hall.
    assert (E : Chat.call_glm_model_with models rt msgs
                = (Raise (HTTPException 500
                            ("All GLM models failed. Last error: "
                             ++ str_last_error rt (last_of es None))),
                   map (Chat.request rt msgs) models)).
    { unfold Chat.call_glm_model_with. rewrite Hkey, chat_fallback_eq.
      rewrite <- (app_nil_r models) at 1.
      now rewrite (first_success_failures _ _ _ models [] es None [] Hall). }
    rewrite E. simpl. rewrite chat_models_of, length_map. repeat split.
    intros es' e ->. now rewrite last_of_snoc.
  - intros rt input models es Hkey rq Hall.
    assert (E : Symptom.analyze_symptoms_with models rt input
                = (Raise (Symptom.all_failed rt (last_of es None)), map rq models)).
    { unfold Symptom.analyze_symptoms_with. rewrite Hkey, symptom_fallback_eq.
      fold rq. rewrite <- (app_nil_r models) at 1.
      now rewrite (first_success_failures _ _ _ models [] es None [] Hall). }
    rewrite E. simpl. unfold rq. rewrite symptom_models_of, length_map. repeat split.
    intros es' e ->. now rewrite last_of_snoc.
Qed.

(** Five failures for the chat client, the last one a 503; four time-outs
    for the symptom checker. *)
Lemma exhaustion_reports_last_error_witness :
  Chat.call_glm_model Demo.none_answers Demo.question
  = (Raise (HTTPException 500
              "All GLM models failed. Last error: Server error '503 Service Unavailable'"),
     map (Chat.request Demo.none_answers Demo.question) Chat.models_to_try)
  /\ fst (Symptom.analyze_symptoms Demo.none_answers Demo.fever)
     = Raise (HTTPException 500
                "All GLM models failed. Please check your API key. Last error: timed out").
Proof.
  destruct exhaustion_reports_last_error as [Hchat Hsymptom]. split.
  - exact (proj1 (Hchat Demo.none_answers Demo.question Chat.models_to_try
                    [ TransportError "timed out"; TransportError "timed out";
                      TransportError "timed out"; TransportError "timed out";
                      Demo.unavailable_error ]
                    eq_refl eq_refl)).
  - unfold Symptom.analyze_symptoms.
    rewrite (proj1 (Hsymptom Demo.none_answers Demo.fever Symptom.models_to_try
                      [ TransportError "timed out"; TransportError "timed out";
                        TransportError "timed out"; TransportError "timed out" ]
                      eq_refl eq_refl)).
    reflexivity.
Defined.

(** C7: when [OPENROUTER_API_KEY] is unset (or empty), [call_glm_model],
    [analyze_symptoms] and [call_glm_for_analysis] raise their configuration
    error at once: no request has been built or posted. *)
Theorem missing_key_fails_fast (rt : Runtime) :
  key_missing rt = true ->
  (forall models msgs,
      Chat.call_glm_model_with models rt msgs
      = (Raise (HTTPException 500 "OPENROUTER_API_KEY not configured"), []))
  /\ (forall models input,
      Symptom.analyze_symptoms_with models rt input
      = (Raise (HTTPException 502 "OpenRouter API Key is not configured in .env"), []))
  /\ (forall models extracted_text parsed_data,
      Reports.call_glm_for_analysis_with models rt extracted_text parsed_data
      = (Raise (HTTPException 500 "OPENROUTER_API_KEY not configured"), [])).
Proof.
  intros H. repeat split; intros;
    unfold Chat.call_glm_model_with, Symptom.analyze_symptoms_with,
      Reports.call_glm_for_analysis_with; now rewrite H.
Qed.

(** A runtime without the environment variable. *)
Lemma missing_key_fails_fast_witness :
  OPENROUTER_API_KEY Demo.no_key = None
  /\ Chat.call_glm_model Demo.no_key Demo.question
     = (Raise (HTTPException 500 "OPENROUTER_API_KEY not configured"), [])
  /\ Symptom.analyze_symptoms Demo.no_key Demo.fever
     = (Raise (HTTPException 502 "OpenRouter API Key is not configured in .env"), []).
Proof.
  split; [reflexivity|].
  destruct (missing_key_fails_fast Demo.no_key eq_refl) as [Hc [Hs _]].
  split; [apply Hc | apply Hs].
Defined.

(* ------------------------------------------------------------------ *)
(** ** What happens after a transport success *)

(** [analyze_symptoms] leaves its loop at the first attempt that succeeds
    at the transport level. *)
Lemma symptom_run_breaks (rt : Runtime) (input : Symptom.SymptomRequest)
    (pre : list string) (m : string) (rest : list string)
    (es : list exn) (res : json) :
  key_missing rt = false ->
  outcomes rt Symptom.attempt
    (Symptom.request rt Symptom.system_instruction
       (Symptom.user_prompt input (uuid4 rt))) pre [] = map Raise es ->
  fetch rt
    (map (Symptom.request rt Symptom.system_instruction
            (Symptom.user_prompt input (uuid4 rt))) pre)
    (Symptom.request rt Symptom.system_instruction
       (Symptom.user_prompt input (uuid4 rt)) m) = Ok res ->
  Symptom.analyze_symptoms_with (pre ++ m :: rest) rt input
  = (Symptom.interpret rt res,
     map (Symptom.request rt Symptom.system_instruction
            (Symptom.user_prompt input (uuid4 rt))) (pre ++ [m])).
Proof.
  intros Hkey Hpre Hm.
  unfold Symptom.analyze_symptoms_with. rewrite Hkey, symptom_fallback_eq.
  rewrite (first_success_failures _ _ _ pre (m :: rest) es None [] Hpre).
  simpl. unfold Symptom.attempt. rewrite Hm. now rewrite map_app.
Qed.

(** The last [except] clause handles every exception that is neither an
    [HTTPStatusError] nor a [JSONDecodeError]. *)
Lemma handler_unexpected (rt : Runtime) (raw_json_text : option string) (e : exn) :
  (forall m c t, e <> HTTPStatusError m c t) ->
  (forall m, e <> JSONDecodeError m) ->
  Symptom.handler rt raw_json_text e = unexpected_error (str_exn rt e).
Proof.
  intros H1 H2. unfold Symptom.handler, unexpected_error.
  destruct e; try reflexivity; [now elim (H1 msg status_code0 text0) | now elim (H2 msg)].
Qed.

(** Content on which [json.loads] fails is handled by the clause for the
    exception raised. *)
Lemma interpret_undecodable (rt : Runtime) (res : json) (text : string)
    (failure : loads_error) :
  first_completion_content res = Ok (JStr text) ->
  json_loads rt (normalize text) = inr failure ->
  Symptom.interpret rt res
  = Raise (Symptom.handler rt (Some (normalize text)) (loads_exn failure)).
Proof.
  intros Hc Hl. rewrite (interpret_of_text _ _ _ Hc).
  unfold assessment_of_text, Symptom.parse_and_validate. now rewrite Hl.
Qed.

(** Content that is not JSON is reported with the first 1000 characters
    of the cleaned text. *)
Lemma interpret_malformed (rt : Runtime) (res : json) (text msg : string) :
  first_completion_content res = Ok (JStr text) ->
  json_loads rt (normalize text) = inr (Malformed msg) ->
  Symptom.interpret rt res
  = Raise (HTTPException 500
             ("AI returned malformed JSON. Raw response (truncated): "
              ++ PyStr.take 1000 (normalize text))).
Proof. intros Hc Hl. now rewrite (interpret_undecodable _ _ _ _ Hc Hl). Qed.

(** Content on which [json.loads] fails otherwise is reported by the last
    clause, with the text of the exception. *)
Lemma interpret_other_failure (rt : Runtime) (res : json) (text msg : string) :
  first_completion_content res = Ok (JStr text) ->
  json_loads rt (normalize text) = inr (TooDeep msg)
  \/ json_loads rt (normalize text) = inr (TooManyDigits msg) ->
  Symptom.interpret rt res = Raise (unexpected_error msg).
Proof.
  intros Hc [Hl|Hl]; now rewrite (interpret_undecodable _ _ _ _ Hc Hl).
Qed.

(** In [call_glm_for_analysis] the same content is one more failed
    attempt. *)
Lemma reports_attempt_undecodable (rt : Runtime) (sent : list Request)
    (rq : Request) (res : json) (text : string) (failure : loads_error) :
  fetch rt sent rq = Ok res ->
  first_completion_content res = Ok (JStr text) ->
  json_loads rt (normalize text) = inr failure ->
  Reports.attempt rt sent rq = Raise (loads_exn failure).
Proof.
  intros Hf Hc Hl. unfold Reports.attempt. rewrite Hf. simpl. rewrite Hc. simpl.
  unfold Reports.loads. now rewrite Hl.
Qed.

(** C3, as stated, fails for [call_glm_for_analysis]: its first attempt
    succeeds at the transport level with a content that is not JSON, and the
    function goes on to the second model and returns what that one sent. *)
Lemma reports_retries_malformed_content :
  fetch Demo.second_parses []
    (Reports.request Demo.second_parses
       (Reports.analysis_messages Demo.second_parses Demo.report_text [])
       "zhipuai/glm-4-plus")
  = Ok (Demo.completion (JStr Demo.apology))
  /\ json_loads Demo.second_parses (normalize Demo.apology)
     = inr (Malformed "Expecting value: line 1 column 1 (char 0)")
  /\ Reports.call_glm_for_analysis Demo.second_parses Demo.report_text []
     = (Ok (JObj []),
        map (Reports.request Demo.second_parses
               (Reports.analysis_messages Demo.second_parses Demo.report_text []))
            [ "zhipuai/glm-4-plus"; "zhipuai/glm-4-0520" ])
  /\ ~ (forall rt extracted_text parsed_data m rest res,
          key_missing rt = false ->
          fetch rt []
            (Reports.request rt
               (Reports.analysis_messages rt extracted_text parsed_data) m)
          = Ok res ->
          List.length
            (snd (Reports.call_glm_for_analysis_with (m :: rest) rt
                    extracted_text parsed_data)) = 1).
Proof.
  split; [reflexivity|]. split; [reflexivity|]. split; [reflexivity|].
  intros H.
  specialize (H Demo.second_parses Demo.report_text [] "zhipuai/glm-4-plus"
                [ "zhipuai/glm-4-0520"; "zhipuai/glm-4"; "openai/gpt-3.5-turbo" ]
                (Demo.completion (JStr Demo.apology)) eq_refl eq_refl).
  discriminate H.
Qed.

(** C3 (amended): in [analyze_symptoms] the loop ends at the first attempt
    that succeeds at the transport level: no further model is tried and the
    message content of the first completion is what the function goes on
    with.  A content on which [json.loads] fails is raised to the caller
    with the requests posted so far and no other: as the malformed-output
    error when [json.loads] raises [JSONDecodeError], and as the error of
    the last [except] clause, which carries the text of the exception, when
    it raises [RecursionError] or another [ValueError].  In
    [call_glm_for_analysis] extraction, clean-up and parsing are part of the
    attempt: a content on which [json.loads] fails, in whichever way, is
    recorded as the last error and the next model is tried, and the loop
    ends at the first model whose content parses. *)
Theorem transport_success_then_content :
  (forall rt input pre m rest es res,
      key_missing rt = false ->
      let rq := Symptom.request rt Symptom.system_instruction
                  (Symptom.user_prompt input (uuid4 rt)) in
      outcomes rt Symptom.attempt rq pre [] = map Raise es ->
      fetch rt (map rq pre) (rq m) = Ok res ->
      Symptom.analyze_symptoms_with (pre ++ m :: rest) rt input
      = (Symptom.interpret rt res, map rq (pre ++ [m]))
      /\ (forall text,
            first_completion_content res = Ok (JStr text) ->
            Symptom.interpret rt res = assessment_of_text rt text)
      /\ (forall text msg,
            first_completion_content res = Ok (JStr text) ->
            json_loads rt (normalize text) = inr (Malformed msg) ->
            Symptom.analyze_symptoms_with (pre ++ m :: rest) rt input
            = (Raise (HTTPException 500
                        ("AI returned malformed JSON. Raw response (truncated): "
                         ++ PyStr.take 1000 (normalize text))),
               map rq (pre ++ [m])))
      /\ (forall text msg,
            first_completion_content res = Ok (JStr text) ->
            json_loads rt (normalize text) = inr (TooDeep msg)
            \/ json_loads rt (normalize text) = inr (TooManyDigits msg) ->
            Symptom.analyze_symptoms_with (pre ++ m :: rest) rt input
            = (Raise (unexpected_error msg), map rq (pre ++ [m]))))
  /\ (forall rt msgs m rest last_error sent res text failure,
      fetch rt sent (Reports.request rt msgs m) = Ok res ->
      first_completion_content res = Ok (JStr text) ->
      json_loads rt (normalize text) = inr failure ->
      Reports.fallback rt msgs (m :: rest) last_error sent
      = Reports.fallback rt msgs rest (Some (loads_exn failure))
          (sent ++ [Reports.request rt msgs m]))
  /\ (forall rt extracted_text parsed_data pre m rest es analysis,
      key_missing rt = false ->
      let rq := Reports.request rt
                  (Reports.analysis_messages rt extracted_text parsed_data) in
      outcomes rt Reports.attempt rq pre [] = map Raise es ->
      Reports.attempt rt (map rq pre) (rq m) = Ok analysis ->
      Reports.call_glm_for_analysis_with (pre ++ m :: rest) rt
        extracted_text parsed_data
      = (Ok analysis, map rq (pre ++ [m]))).
Proof.
  split; [|split].
  - intros rt input pre m rest es res Hkey rq Hpre Hm.
    pose proof (symptom_run_breaks rt input pre m rest es res Hkey Hpre Hm) as Hrun.
    fold rq in Hrun. split; [exact Hrun|]. split; [|split].
    + intros text. apply interpret_of_text.
    + intros text msg Hc Hl. rewrite Hrun.
      now rewrite (interpret_malformed _ _ _ _ Hc Hl).
    + intros text msg Hc Hl. rewrite Hrun.
      now rewrite (interpret_other_failure _ _ _ _ Hc Hl).
  - intros rt msgs m rest last_error sent res text failure Hf Hc Hl. simpl.
    now rewrite (reports_attempt_undecodable _ _ _ _ _ _ Hf Hc Hl).
  - intros rt extracted_text parsed_data pre m rest es analysis Hkey rq Hpre Hm.
    unfold Reports.call_glm_for_analysis_with.
    rewrite Hkey, reports_fallback_eq. fold rq.
    rewrite (first_success_failures _ _ _ pre (m :: rest) es None [] Hpre).
    simpl. rewrite Hm. now rewrite map_app.
Qed.

(** Prose from the second model: surfaced by the symptom checker, passed
    over by the report analysis. *)
Lemma transport_success_then_content_witness :
  Symptom.analyze_symptoms Demo.second_is_prose Demo.fever
  = (Raise (HTTPException 500
              "AI returned malformed JSON. Raw response (truncated): Sorry, I cannot help with that."),
     map (Symptom.request Demo.second_is_prose Symptom.system_instruction
            (Symptom.user_prompt Demo.fever Demo.uuid))
         [ "zhipuai/glm-4-plus"; "zhipuai/glm-4-0520" ])
  /\ List.length
       (snd (Reports.call_glm_for_analysis Demo.second_parses Demo.report_text []))
     = 2.
Proof.
  destruct transport_success_then_content as [Hsymptom [_ Hreports]]. split.
  - destruct (Hsymptom Demo.second_is_prose Demo.fever
                [ "zhipuai/glm-4-plus" ] "zhipuai/glm-4-0520"
                [ "zhipuai/glm-4"; "openai/gpt-3.5-turbo" ]
                [ TransportError "timed out" ]
                (Demo.completion (JStr Demo.apology))
                eq_refl eq_refl eq_refl) as [_ [_ [Hbad _]]].
    exact (Hbad Demo.apology "Expecting value: line 1 column 1 (char 0)"
             eq_refl eq_refl).
  - change (Reports.call_glm_for_analysis Demo.second_parses Demo.report_text [])
      with (Reports.call_glm_for_analysis_with
              ([ "zhipuai/glm-4-plus" ]
               ++ "zhipuai/glm-4-0520"
                  :: [ "zhipuai/glm-4"; "openai/gpt-3.5-turbo" ])%list
              Demo.second_parses Demo.report_text []).
    rewrite (Hreports Demo.second_parses Demo.report_text []
               [ "zhipuai/glm-4-plus" ] "zhipuai/glm-4-0520"
               [ "zhipuai/glm-4"; "openai/gpt-3.5-turbo" ]
               [ JSONDecodeError "Expecting value: line 1 column 1 (char 0)" ]
               (JObj []) eq_refl eq_refl eq_refl).
    reflexivity.
Defined.

(* ------------------------------------------------------------------ *)
(** ** The malformed-output diagnostic *)



(* ------------------------------------------------------------------ *)
(** ** The structured-output directive *)

Lemma lower_append (a b : string) :
  PyStr.lower (a ++ b) = PyStr.lower a ++ PyStr.lower b.
Proof. induction a as [|c a IH]; simpl; [reflexivity | now rewrite IH]. Qed.

Lemma lower_append_inv (a b : string) :
  forall s, PyStr.lower s = a ++ b ->
  exists s1 s2, s = s1 ++ s2 /\ PyStr.lower s1 = a /\ PyStr.lower s2 = b.
Proof.
  induction a as [|c a IH]; intros s H.
  - exists EmptyString, s. now repeat split.
  - destruct s as [|d s]; [discriminate H|]. simpl in H.
    injection H as Hd Hs. destruct (IH s Hs) as [s1 [s2 [E [H1 H2]]]].
    exists (String d s1), s2. simpl. now rewrite E, H1, Hd.
Qed.

(** The test of the source is containment with case ignored. *)
Lemma contains_lower_iff (word s : string) :
  PyStr.contains word (PyStr.lower s) = true <-> mentions word s.
Proof.
  rewrite contains_iff. unfold within, mentions. split.
  - intros [pre [post H]].
    destruct (lower_append_inv pre (word ++ post) s H) as [s1 [s23 [E1 [H1 H23]]]].
    destruct (lower_append_inv word post s23 H23) as [s2 [s3 [E2 [H2 H3]]]].
    exists s1, s2, s3. now rewrite E1, E2.
  - intros [pre [mid [post [E H]]]].
    exists (PyStr.lower pre), (PyStr.lower post).
    now rewrite E, !lower_append, H.
Qed.

Lemma supports_json_object_iff (model_name : string) :
  Symptom.supports_json_object model_name = true
  <-> mentions "gpt" model_name \/ mentions "deepseek" model_name.
Proof.
  unfold Symptom.supports_json_object.
  now rewrite orb_true_iff, !contains_lower_iff.
Qed.

Lemma response_format_iff (sys user model_name : string) :
  response_format (Symptom.payload sys user model_name) = Some Symptom.json_object
  <-> mentions "gpt" model_name \/ mentions "deepseek" model_name.
Proof.
  rewrite <- supports_json_object_iff. simpl.
  destruct (Symptom.supports_json_object model_name); split;
    intros H; try reflexivity; discriminate H.
Qed.

(** Every request [analyze_symptoms] posts is the request the source
    builds for one of the configured models. *)
Lemma symptom_log (models : list string) (rt : Runtime)
    (input : Symptom.SymptomRequest) :
  Forall (fun rq => exists model_name,
            rq = Symptom.request rt Symptom.system_instruction
                   (Symptom.user_prompt input (uuid4 rt)) model_name)
         (snd (Symptom.analyze_symptoms_with models rt input)).
Proof.
  unfold Symptom.analyze_symptoms_with.
  destruct (key_missing rt); [constructor|].
  rewrite symptom_fallback_eq.
  destruct (first_success_log rt Symptom.attempt
              (Symptom.request rt Symptom.system_instruction
                 (Symptom.user_prompt input (uuid4 rt))) models None [])
    as [k Hk].
  destruct (first_success _ _ _ models None []) as [[[v|] e] log];
    simpl in *; subst log; apply Forall_forall; intros rq Hin;
    apply in_map_iff in Hin; destruct Hin as [m [<- _]]; now exists m.
Qed.

(** C5: in [analyze_symptoms] the payload of an attempt carries
    [response_format = {"type": "json_object"}] exactly when the model
    identifier contains "gpt" or "deepseek", case ignored, and carries no
    [response_format] otherwise; this holds of every request of every
    run. *)
Theorem response_format_only_for_capable_models :
  (forall sys user model_name,
      response_format (Symptom.payload sys user model_name)
      = Some Symptom.json_object
      <-> mentions "gpt" model_name \/ mentions "deepseek" model_name)
  /\ (forall sys user model_name,
      response_format (Symptom.payload sys user model_name) = None
      <-> ~ (mentions "gpt" model_name \/ mentions "deepseek" model_name))
  /\ (forall models rt input,
      Forall (fun rq =>
                (response_format (json_payload rq) = Some Symptom.json_object
                 <-> mentions "gpt" (model (json_payload rq))
                     \/ mentions "deepseek" (model (json_payload rq)))
                /\ (response_format (json_payload rq) = None
                    \/ response_format (json_payload rq) = Some Symptom.json_object))
             (snd (Symptom.analyze_symptoms_with models rt input))).
Proof.
  split; [exact response_format_iff|]. split.
  - intros sys user m. rewrite <- (response_format_iff sys user m). simpl.
    destruct (Symptom.supports_json_object m); split; intros H;
      try reflexivity; try discriminate H.
    + exfalso. now apply H.
    + intros H'. discriminate H'.
  - intros models rt input.
    eapply Forall_impl; [|apply symptom_log].
    intros rq [m ->]. split; [apply response_format_iff|].
    simpl. destruct (Symptom.supports_json_object m); [now right | now left].
Qed.

(** An identifier with [GPT] in capitals, and a GLM identifier. *)
Lemma response_format_only_for_capable_models_witness :
  response_format (Symptom.payload "s" "u" "openai/GPT-3.5-turbo")
  = Some Symptom.json_object
  /\ response_format (Symptom.payload "s" "u" "zhipuai/glm-4") = None.
Proof.
  destruct response_format_only_for_capable_models as [H1 [H2 _]]. split.
  - apply H1. left. now exists "openai/", "GPT", "-3.5-turbo".
  - reflexivity.
Defined.

(* ------------------------------------------------------------------ *)
(** ** The symptom prompt and the assessment schema *)

Lemma user_prompt_pins_id (input : Symptom.SymptomRequest) (id : string) :
  PyStr.contains (Symptom.pinned_line id) (Symptom.user_prompt input id) = true.
Proof.
  apply contains_iff.
  exists (newline
          ++ "Analyze the following patient data for a symptom assessment:" ++ newline
          ++ "- Symptoms Description: " ++ Symptom.symptoms input ++ newline
          ++ "- Age: " ++ str_int (Symptom.age input) ++ " years, Gender: "
          ++ Symptom.gender input ++ newline
          ++ "- Duration: " ++ Symptom.duration input ++ newline
          ++ "- Severity: " ++ str_int (Symptom.severity input) ++ "/10" ++ newline
          ++ newline),
         (newline ++ newline
          ++ "Provide your response as a valid JSON object only." ++ newline).
  unfold Symptom.user_prompt. now rewrite !append_assoc.
Qed.

(** The schema gives [urgency_level] no default. *)
Lemma urgency_level_required (rt : Runtime) (d : Dict) :
  Py.dict_get "urgency_level" d = None ->
  Symptom.validate_SymptomAssessment rt d = None.
Proof.
  intros H. unfold Symptom.validate_SymptomAssessment.
  unfold Symptom.field at 2. rewrite H.
  now destruct (Symptom.field d "assessment_id" (pydantic_str rt)).
Qed.

(** The requests posted are added after those posted before. *)
Lemma symptom_fallback_extends (rt : Runtime) (sys user : string)
    (models : list string) :
  forall last_error sent,
    exists later,
      snd (Symptom.fallback rt sys user models last_error sent)
      = (sent ++ later)%list.
Proof.
  induction models as [|m rest IH]; intros last_error sent; simpl.
  - exists []. now rewrite app_nil_r.
  - destruct (Symptom.attempt rt sent (Symptom.request rt sys user m)) as [res|e].
    + now exists [Symptom.request rt sys user m].
    + destruct (IH (Some e) (sent ++ [Symptom.request rt sys user m])%list)
        as [later E].
      exists (Symptom.request rt sys user m :: later).
      rewrite E. now rewrite <- app_assoc.
Qed.

(** With a key, the request for the first configured model is posted. *)
Lemma symptom_first_request (rt : Runtime) (input : Symptom.SymptomRequest)
    (m : string) (rest : list string) :
  key_missing rt = false ->
  exists later,
    snd (Symptom.analyze_symptoms_with (m :: rest) rt input)
    = Symptom.request rt Symptom.system_instruction
        (Symptom.user_prompt input (uuid4 rt)) m :: later.
Proof.
  intros Hkey. unfold Symptom.analyze_symptoms_with. rewrite Hkey.
  destruct (symptom_fallback_extends rt Symptom.system_instruction
              (Symptom.user_prompt input (uuid4 rt)) (m :: rest) None [])
    as [later E].
  destruct (Symptom.fallback _ _ _ (m :: rest) None []) as [[res|last_error] sent] eqn:F;
    simpl in E |- *; subst sent.
  - simpl in F.
    destruct (Symptom.attempt rt [] _) as [r|e].
    + injection F as _ <-. now exists [].
    + destruct (symptom_fallback_extends rt Symptom.system_instruction
                  (Symptom.user_prompt input (uuid4 rt)) rest (Some e)
                  [Symptom.request rt Symptom.system_instruction
                     (Symptom.user_prompt input (uuid4 rt)) m]) as [tail E].
      rewrite F in E. simpl in E. now exists tail.
  - simpl in F.
    destruct (Symptom.attempt rt [] _) as [r|e].
    + discriminate F.
    + destruct (symptom_fallback_extends rt Symptom.system_instruction
                  (Symptom.user_prompt input (uuid4 rt)) rest (Some e)
                  [Symptom.request rt Symptom.system_instruction
                     (Symptom.user_prompt input (uuid4 rt)) m]) as [tail E].
      rewrite F in E. simpl in E. now exists tail.
Qed.

(** A parsed object without [urgency_level] is refused with the
    validation error, which the last [except] clause reports. *)
Lemma interpret_incomplete (rt : Runtime) (res : json) (text : string) (d : Dict) :
  first_completion_content res = Ok (JStr text) ->
  json_loads rt (normalize text) = inl (JObj d) ->
  Py.dict_get "urgency_level" d = None ->
  Symptom.interpret rt res = Raise (unexpected_error (str_ValidationError rt d)).
Proof.
  intros Hc Hl Hd. rewrite (interpret_of_text _ _ _ Hc).
  unfold assessment_of_text, Symptom.parse_and_validate. rewrite Hl.
  simpl. now rewrite (urgency_level_required rt d Hd).
Qed.

(** C6: the user prompt of [analyze_symptoms] contains the line that pins
    the freshly generated assessment identifier; with a key, the request
    for the first configured model is posted, and every request posted
    carries the system instruction and that prompt.  The parsed response is
    validated against the [SymptomAssessment] schema, in which
    [urgency_level] is required: when the model that answers sends an
    object without it, no assessment is built and no default is supplied;
    the request ends in the error of the last [except] clause, whose detail
    carries the text of the validation error, and no other model is
    asked. *)
Theorem symptom_prompt_pins_id_and_urgency_is_required :
  (forall input id,
      PyStr.contains ("The assessment_id field MUST be set to: " ++ id)
        (Symptom.user_prompt input id) = true)
  /\ (forall rt input m rest,
      key_missing rt = false ->
      exists later,
        snd (Symptom.analyze_symptoms_with (m :: rest) rt input)
        = Symptom.request rt Symptom.system_instruction
            (Symptom.user_prompt input (uuid4 rt)) m :: later)
  /\ (forall models rt input,
      Forall (fun rq =>
                messages (json_payload rq)
                = [ {| role := "system"; content := Symptom.system_instruction |};
                    {| role := "user";
                       content := Symptom.user_prompt input (uuid4 rt) |} ])
             (snd (Symptom.analyze_symptoms_with models rt input)))
  /\ (forall rt d,
      Py.dict_get "urgency_level" d = None ->
      Symptom.validate_SymptomAssessment rt d = None)
  /\ (forall rt input pre m rest es res text d,
      key_missing rt = false ->
      let rq := Symptom.request rt Symptom.system_instruction
                  (Symptom.user_prompt input (uuid4 rt)) in
      outcomes rt Symptom.attempt rq pre [] = map Raise es ->
      fetch rt (map rq pre) (rq m) = Ok res ->
      first_completion_content res = Ok (JStr text) ->
      json_loads rt (normalize text) = inl (JObj d) ->
      Py.dict_get "urgency_level" d = None ->
      Symptom.analyze_symptoms_with (pre ++ m :: rest) rt input
      = (Raise (unexpected_error (str_ValidationError rt d)), map rq (pre ++ [m]))
      /\ (fst (Symptom.analyze_symptoms_with (pre ++ m :: rest) rt input)
          = Raise (HTTPException 502
                     ("OpenRouter API Error: Check your API key or quota. Details: "
                      ++ str_ValidationError rt d))
          \/ fst (Symptom.analyze_symptoms_with (pre ++ m :: rest) rt input)
             = Raise (HTTPException 500
                        ("An unexpected error occurred during API call: "
                         ++ str_ValidationError rt d)))).
Proof.
  split; [exact user_prompt_pins_id|]. split; [|split; [|split]].
  - intros rt input m rest. apply symptom_first_request.
  - intros models rt input.
    eapply Forall_impl; [|apply symptom_log]. now intros rq [m ->].
  - exact urgency_level_required.
  - intros rt input pre m rest es res text d Hkey rq Hpre Hm Hc Hl Hd.
    rewrite (symptom_run_breaks rt input pre m rest es res Hkey Hpre Hm).
    rewrite (interpret_incomplete _ _ _ _ Hc Hl Hd). fold rq.
    split; [reflexivity|]. simpl fst. unfold unexpected_error.
    destruct (existsb _ Symptom.keywords); [now left | now right].
Qed.

(** The request of the specification, answered without [urgency_level]. *)
Lemma symptom_prompt_pins_id_and_urgency_is_required_witness :
  PyStr.contains ("The assessment_id field MUST be set to: " ++ Demo.uuid)
    (Symptom.user_prompt Demo.fever Demo.uuid) = true
  /\ Symptom.validate_SymptomAssessment Demo.first_incomplete Demo.incomplete_members
     = None
  /\ Symptom.analyze_symptoms Demo.first_incomplete Demo.fever
     = (Raise (HTTPException 500
                 "An unexpected error occurred during API call: 1 validation error for SymptomAssessment"),
        [ Symptom.request Demo.first_incomplete Symptom.system_instruction
            (Symptom.user_prompt Demo.fever Demo.uuid) "zhipuai/glm-4-plus" ]).
Proof.
  destruct symptom_prompt_pins_id_and_urgency_is_required
    as [Hpin [_ [_ [Hreq Hrun]]]].
  split; [apply Hpin|]. split; [apply Hreq; reflexivity|].
  exact (proj1 (Hrun Demo.first_incomplete Demo.fever [] "zhipuai/glm-4-plus"
                  [ "zhipuai/glm-4-0520"; "zhipuai/glm-4"; "openai/gpt-3.5-turbo" ]
                  [] (Demo.completion (JStr Demo.incomplete_doc)) Demo.incomplete_doc
                  Demo.incomplete_members
                  eq_refl eq_refl eq_refl eq_refl eq_refl eq_refl)).
Defined.

(* ------------------------------------------------------------------ *)
(** ** The explanations kept in the store *)

Section StoreFacts.

Variable explanation_data : Dict.
Variable rid : json.
Hypothesis has_rid : Py.dict_get "record_id" explanation_data = Some rid.
Hypothesis rid_eq : PyEq.py_eq rid rid = true.

Lemma record_id_new : Store.record_id explanation_data = rid.
Proof. unfold Store.record_id, PyEq.get. now rewrite has_rid. Qed.

(** With a [record_id] in [explanation_data] the comprehension is a
    filter. *)
Lemma others_filter (rows : list Dict) :
  Store.others rows explanation_data = Ok (Store.not_about rid rows).
Proof.
  induction rows as [|exp rows IH]; simpl; [reflexivity|].
  rewrite has_rid. simpl. rewrite IH. simpl.
  now destruct (PyEq.py_eq (Store.record_id exp) rid).
Qed.

Lemma about_not_about (rows : list Dict) :
  Store.about rid (Store.not_about rid rows) = [].
Proof.
  unfold Store.about, Store.not_about.
  induction rows as [|exp rows IH]; simpl; [reflexivity|].
  destruct (PyEq.py_eq (Store.record_id exp) rid) eqn:E; simpl;
    [exact IH | now rewrite E].
Qed.

Lemma not_about_twice (rows : list Dict) :
  Store.not_about rid (Store.not_about rid rows) = Store.not_about rid rows.
Proof.
  unfold Store.not_about.
  induction rows as [|exp rows IH]; simpl; [reflexivity|].
  destruct (PyEq.py_eq (Store.record_id exp) rid) eqn:E; simpl;
    [exact IH | now rewrite E, IH].
Qed.

Lemma about_after (rows : list Dict) :
  Store.about rid (Store.not_about rid rows ++ [explanation_data])
  = [explanation_data].
Proof.
  unfold Store.about. rewrite filter_app. fold (Store.about rid (Store.not_about rid rows)).
  rewrite about_not_about. simpl. now rewrite record_id_new, rid_eq.
Qed.

Lemma not_about_after (rows : list Dict) :
  Store.not_about rid (Store.not_about rid rows ++ [explanation_data])
  = Store.not_about rid rows.
Proof.
  unfold Store.not_about at 1. rewrite filter_app.
  fold (Store.not_about rid (Store.not_about rid rows)).
  rewrite not_about_twice. simpl. rewrite record_id_new, rid_eq. simpl.
  apply app_nil_r.
Qed.

Lemma not_about_in (rows : list Dict) (exp : Dict) :
  In exp (Store.not_about rid rows) ->
  In exp rows /\ PyEq.py_eq (Store.record_id exp) rid = false.
Proof.
  unfold Store.not_about. rewrite filter_In. intros [H1 H2]. split; [exact H1|].
  now destruct (PyEq.py_eq (Store.record_id exp) rid).
Qed.

Lemma one_per_record_after (rows : list Dict) :
  Store.one_per_record rows ->
  Store.one_per_record (Store.not_about rid rows ++ [explanation_data]).
Proof.
  induction rows as [|exp rows IH]; intros H.
  - simpl. auto.
  - destruct H as [Hexp Hrest]. specialize (IH Hrest).
    unfold Store.not_about in *. simpl.
    destruct (PyEq.py_eq (Store.record_id exp) rid) eqn:E; simpl; [exact IH|].
    split; [|exact IH].
    apply Forall_app. split.
    + apply Forall_forall. intros other Hin.
      apply filter_In in Hin. destruct Hin as [Hin _].
      rewrite Forall_forall in Hexp. now apply Hexp.
    + constructor; [|constructor]. now rewrite record_id_new.
Qed.

End StoreFacts.

(** C10: when [explanation_data] has a [record_id] (one that is equal to
    itself, as every string is), [insert_explanation] writes a list in which
    exactly one explanation is about that record, the new one, every earlier
    one about it being gone, and in which the explanations about the other
    records are those of before, in their order; if no two explanations were
    about the same record before, none are after. *)
Theorem insert_explanation_one_per_record
    (file : Store.File) (explanation_data : Dict) (rid : json) :
  Py.dict_get "record_id" explanation_data = Some rid ->
  PyEq.py_eq rid rid = true ->
  exists db',
    Store.insert_explanation file explanation_data
    = (Ok explanation_data, Some db')
    /\ Store.about rid (Store.report_explanations db') = [explanation_data]
    /\ Store.not_about rid (Store.report_explanations db')
       = Store.not_about rid (Store.report_explanations (Store.load_database file))
    /\ Store.report_explanations db'
       = (Store.not_about rid (Store.report_explanations (Store.load_database file))
          ++ [explanation_data])%list
    /\ Store.medical_records db'
       = Store.medical_records (Store.load_database file)
    /\ (Store.one_per_record (Store.report_explanations (Store.load_database file)) ->
        Store.one_per_record (Store.report_explanations db')).
Proof.
  intros Hrid Heq. unfold Store.insert_explanation.
  rewrite (others_filter explanation_data rid Hrid).
  eexists. split; [reflexivity|]. simpl.
  split; [now apply about_after|].
  split; [now apply not_about_after|].
  split; [reflexivity|]. split; [reflexivity|].
  now apply one_per_record_after.
Qed.

(** A second explanation for record [r1] replaces the first. *)
Lemma insert_explanation_one_per_record_witness :
  exists db',
    Store.insert_explanation Demo.two_explained (Demo.explanation "r1" "new summary")
    = (Ok (Demo.explanation "r1" "new summary"), Some db')
    /\ Store.report_explanations db'
       = [ Demo.explanation "r2" "fine"; Demo.explanation "r1" "new summary" ].
Proof.
  destruct (insert_explanation_one_per_record Demo.two_explained
              (Demo.explanation "r1" "new summary") (JStr "r1") eq_refl eq_refl)
    as [db' [H1 [_ [_ [H2 _]]]]].
  exists db'. split; [exact H1 | exact H2].
Defined.

(* ================================================================== *)
(** * Further properties of the three clients *)

(* ------------------------------------------------------------------ *)
(** ** Every run of a loop *)

Section LoopInversion.

Variable rt : Runtime.
Variable attempt : Runtime -> list Request -> Request -> result json.
Variable request : string -> Request.

(** A loop that ends with a value ended at the first attempt that
    returned one. *)
Lemma first_success_some (models : list string) :
  forall last_error sent v e log,
    first_success rt attempt request models last_error sent = (Some v, e, log) ->
    exists pre m rest es,
      models = (pre ++ m :: rest)%list
      /\ outcomes rt attempt request pre sent = map Raise es
      /\ attempt rt (sent ++ map request pre) (request m) = Ok v
      /\ log = (sent ++ map request (pre ++ [m]))%list.
Proof.
  induction models as [|m models IH]; intros last_error sent v e log H; simpl in H.
  - discriminate H.
  - destruct (attempt rt sent (request m)) as [v'|e'] eqn:E.
    + injection H as <- _ <-. exists [], m, models, []. simpl.
      now rewrite app_nil_r.
    + destruct (IH _ _ _ _ _ H) as [pre [m' [rest [es [Hm [Ho [Ha Hl]]]]]]].
      exists (m :: pre), m', rest, (e' :: es). simpl.
      rewrite Hm, E, Ho. repeat split.
      * now rewrite <- app_assoc in Ha.
      * now rewrite <- app_assoc in Hl.
Qed.

(** A loop that ends without a value has tried every model. *)
Lemma first_success_none (models : list string) :
  forall last_error sent e log,
    first_success rt attempt request models last_error sent = (None, e, log) ->
    exists es,
      outcomes rt attempt request models sent = map Raise es
      /\ e = last_of es last_error
      /\ log = (sent ++ map request models)%list.
Proof.
  induction models as [|m models IH]; intros last_error sent e log H; simpl in H.
  - injection H as <- <-. exists []. simpl. now rewrite app_nil_r.
  - destruct (attempt rt sent (request m)) as [v'|e'] eqn:E; [discriminate H|].
    destruct (IH _ _ _ _ H) as [es [Ho [He Hl]]].
    exists (e' :: es). simpl. rewrite E, Ho, last_of_cons.
    repeat split; [exact He | now rewrite <- app_assoc in Hl].
Qed.

End LoopInversion.

Lemma firstn_le_length {A} (k : nat) (l : list A) :
  exists k', k' <= List.length l /\ firstn k l = firstn k' l.
Proof.
  exists (Nat.min k (List.length l)). split; [lia|].
  destruct (Nat.le_ge_cases k (List.length l)) as [H|H].
  - now rewrite Nat.min_l.
  - rewrite Nat.min_r by exact H. now rewrite !firstn_all2 by lia.
Qed.

(** X1: whatever the network answers, the requests posted by
    [call_glm_model], [analyze_symptoms] and [call_glm_for_analysis] are
    those of an initial segment of the configured list, in its order: never
    more requests than models, never a model out of turn. *)
Theorem requests_follow_configured_order :
  (forall models rt msgs,
      exists k, k <= List.length models
        /\ models_of (snd (Chat.call_glm_model_with models rt msgs))
           = firstn k models)
  /\ (forall models rt input,
      exists k, k <= List.length models
        /\ models_of (snd (Symptom.analyze_symptoms_with models rt input))
           = firstn k models)
  /\ (forall models rt extracted_text parsed_data,
      exists k, k <= List.length models
        /\ models_of (snd (Reports.call_glm_for_analysis_with models rt
                             extracted_text parsed_data))
           = firstn k models).
Proof.
  split; [|split].
  - intros models rt msgs. unfold Chat.call_glm_model_with.
    destruct (key_missing rt); [exists 0; split; [lia | reflexivity]|].
    rewrite chat_fallback_eq.
    destruct (first_success_log rt Chat.attempt (Chat.request rt msgs)
                models None []) as [k Hk].
    destruct (firstn_le_length k models) as [k' [Hle Hk']].
    exists k'. split; [exact Hle|]. rewrite <- Hk'.
    destruct (first_success _ _ _ models None []) as [[[v|] e] log];
      simpl in *; subst log; apply chat_models_of.
  - intros models rt input. unfold Symptom.analyze_symptoms_with.
    destruct (key_missing rt); [exists 0; split; [lia | reflexivity]|].
    rewrite symptom_fallback_eq.
    destruct (first_success_log rt Symptom.attempt
                (Symptom.request rt Symptom.system_instruction
                   (Symptom.user_prompt input (uuid4 rt))) models None [])
      as [k Hk].
    destruct (firstn_le_length k models) as [k' [Hle Hk']].
    exists k'. split; [exact Hle|]. rewrite <- Hk'.
    destruct (first_success _ _ _ models None []) as [[[v|] e] log];
      simpl in *; subst log; apply symptom_models_of.
  - intros models rt extracted_text parsed_data.
    unfold Reports.call_glm_for_analysis_with.
    destruct (key_missing rt); [exists 0; split; [lia | reflexivity]|].
    rewrite reports_fallback_eq.
    destruct (first_success_log rt Reports.attempt
                (Reports.request rt
                   (Reports.analysis_messages rt extracted_text parsed_data))
                models None []) as [k Hk].
    destruct (firstn_le_length k models) as [k' [Hle Hk']].
    exists k'. split; [exact Hle|]. rewrite <- Hk'.
    destruct (first_success _ _ _ models None []) as [[[v|] e] log];
      simpl in *; subst log; apply reports_models_of.
Qed.

Lemma bind_ok {A B} (r : result A) (k : A -> result B) (b : B) :
  bind r k = Ok b -> exists a, r = Ok a /\ k a = Ok b.
Proof. destruct r as [a|e]; simpl; [now exists a | discriminate]. Qed.

(** X2: [call_glm_model] ends in one of three ways and no other: without
    a key it raises its configuration error and posts nothing; it returns
    the message content of the first completion in the response to the last
    request it posted, every earlier attempt having failed; or every attempt
    failed, one request per model was posted, and it raises HTTP 500 with the
    last failure. *)
Theorem call_glm_model_outcomes (models : list string) (rt : Runtime)
    (msgs : list Message) :
  (key_missing rt = true
   /\ Chat.call_glm_model_with models rt msgs
      = (Raise (HTTPException 500 "OPENROUTER_API_KEY not configured"), []))
  \/ (key_missing rt = false
      /\ exists pre m rest es data answer,
        models = (pre ++ m :: rest)%list
        /\ outcomes rt Chat.attempt (Chat.request rt msgs) pre [] = map Raise es
        /\ fetch rt (map (Chat.request rt msgs) pre) (Chat.request rt msgs m)
           = Ok data
        /\ first_completion_content data = Ok answer
        /\ Chat.call_glm_model_with models rt msgs
           = (Ok answer, map (Chat.request rt msgs) (pre ++ [m])))
  \/ (key_missing rt = false
      /\ exists es,
        outcomes rt Chat.attempt (Chat.request rt msgs) models [] = map Raise es
        /\ Chat.call_glm_model_with models rt msgs
           = (Raise (HTTPException 500
                       ("All GLM models failed. Last error: "
                        ++ str_last_error rt (last_of es None))),
              map (Chat.request rt msgs) models)).
Proof.
  unfold Chat.call_glm_model_with.
  destruct (key_missing rt) eqn:Hkey; [left; now split|]. right.
  rewrite chat_fallback_eq.
  destruct (first_success rt Chat.attempt (Chat.request rt msgs) models None [])
    as [[[answer|] e] log] eqn:E.
  - left. split; [reflexivity|].
    destruct (first_success_some _ _ _ _ _ _ _ _ _ E)
      as [pre [m [rest [es [Hm [Ho [Ha Hl]]]]]]].
    simpl in Ha, Hl. unfold Chat.attempt in Ha.
    destruct (bind_ok _ _ _ Ha) as [data [Hf Hc]].
    exists pre, m, rest, es, data, answer. now subst log.
  - right. split; [reflexivity|].
    destruct (first_success_none _ _ _ _ _ _ _ _ E) as [es [Ho [He Hl]]].
    exists es. simpl in Hl. now subst.
Qed.

(* ------------------------------------------------------------------ *)
(** ** What [analyze_symptoms] lets out *)

Lemma bind_raise {A B} (r : result A) (k : A -> result B) (e : exn) :
  bind r k = Raise e -> r = Raise e \/ exists a, r = Ok a /\ k a = Raise e.
Proof.
  destruct r as [a|e']; simpl; intros H.
  - right. exists a. split; [reflexivity | exact H].
  - left. now injection H as ->.
Qed.

Lemma getitem_str_raises (v : json) (k : string) (e : exn) :
  Py.getitem_str v k = Raise e -> forall m c t, e <> HTTPStatusError m c t.
Proof.
  intros H m c t ->. unfold Py.getitem_str, Py.not_subscriptable in H.
  destruct v; try discriminate H.
  destruct (Py.dict_get k members); discriminate H.
Qed.

Lemma getitem_0_raises (v : json) (e : exn) :
  Py.getitem_0 v = Raise e -> forall m c t, e <> HTTPStatusError m c t.
Proof.
  intros H m c t ->. unfold Py.getitem_0, Py.not_subscriptable in H.
  destruct v as [| | | |s|items|d]; try discriminate H.
  - destruct s; discriminate H.
  - destruct items; discriminate H.
Qed.

Lemma first_completion_content_raises (data : json) (e : exn) :
  first_completion_content data = Raise e -> forall m c t, e <> HTTPStatusError m c t.
Proof.
  unfold first_completion_content. intros H.
  destruct (bind_raise _ _ _ H) as [H1|[choices [_ H1]]];
    [exact (getitem_str_raises _ _ _ H1)|].
  destruct (bind_raise _ _ _ H1) as [H2|[choice [_ H2]]];
    [exact (getitem_0_raises _ _ H2)|].
  destruct (bind_raise _ _ _ H2) as [H3|[message [_ H3]]];
    exact (getitem_str_raises _ _ _ H3).
Qed.

(** Nothing in the second [try] raises an [HTTPStatusError]. *)
Lemma cleaned_text_raises (rt : Runtime) (res : json) (e : exn) :
  Symptom.cleaned_text rt res = Raise e -> forall m c t, e <> HTTPStatusError m c t.
Proof.
  unfold Symptom.cleaned_text. intros H.
  destruct (bind_raise _ _ _ H) as [H1|[has [_ H1]]].
  { intros m c t ->. destruct res; discriminate H1. }
  destruct (negb has).
  { injection H1 as <-. intros m c t E. discriminate E. }
  destruct (bind_raise _ _ _ H1) as [H2|[choices [_ H2]]];
    [exact (getitem_str_raises _ _ _ H2)|].
  destruct (bind_raise _ _ _ H2) as [H3|[n [_ H3]]].
  { intros m c t ->. destruct choices; discriminate H3. }
  destruct (n =? 0).
  { injection H3 as <-. intros m c t E. discriminate E. }
  destruct (bind_raise _ _ _ H3) as [H4|[raw [_ H4]]];
    [exact (first_completion_content_raises _ _ H4)|].
  destruct (bind_raise _ _ _ H4) as [H5|[raw_json_text [_ H5]]];
    [|discriminate H5].
  intros m c t ->. destruct raw; discriminate H5.
Qed.

Lemma parse_and_validate_raises (rt : Runtime) (raw_json_text : string) (e : exn) :
  Symptom.parse_and_validate rt raw_json_text = Raise e ->
  forall m c t, e <> HTTPStatusError m c t.
Proof.
  intros H m c t ->.
  unfold Symptom.parse_and_validate, Symptom.construct in H.
  destruct (json_loads rt raw_json_text) as [v|[msg|msg|msg]];
    [|discriminate H..].
  destruct v as [| | | | | |d]; try discriminate H.
  destruct (Symptom.validate_SymptomAssessment rt d); discriminate H.
Qed.

Lemma handler_codes (rt : Runtime) (raw_json_text : option string) (e : exn) :
  (forall m c t, e <> HTTPStatusError m c t) ->
  exists code detail,
    Symptom.handler rt raw_json_text e = HTTPException code detail
    /\ (code = 500 \/ code = 502)%Z.
Proof.
  intros H. unfold Symptom.handler.
  destruct e; try (exfalso; eapply H; reflexivity);
    try match goal with
        | |- context [if ?b then _ else _] => destruct b
        end;
    eexists; eexists; (split; [reflexivity | auto]).
Qed.

Lemma interpret_raises (rt : Runtime) (res : json) (e : exn) :
  Symptom.interpret rt res = Raise e ->
  exists code detail, e = HTTPException code detail /\ (code = 500 \/ code = 502)%Z.
Proof.
  unfold Symptom.interpret. intros H.
  destruct (Symptom.cleaned_text rt res) as [raw_json_text|e0] eqn:E.
  - destruct (Symptom.parse_and_validate rt raw_json_text) as [a|e1] eqn:E1;
      [discriminate H|]. injection H as <-.
    exact (handler_codes rt _ e1 (parse_and_validate_raises _ _ _ E1)).
  - injection H as <-.
    exact (handler_codes rt _ e0 (cleaned_text_raises _ _ _ E)).
Qed.

(** X3: whatever [analyze_symptoms] raises is an [HTTPException] whose
    status is 500 or 502; the handler that would forward an upstream status
    is never entered. *)
Theorem analyze_symptoms_raises_500_or_502
    (models : list string) (rt : Runtime) (input : Symptom.SymptomRequest)
    (e : exn) :
  fst (Symptom.analyze_symptoms_with models rt input) = Raise e ->
  exists code detail,
    e = HTTPException code detail /\ (code = 500 \/ code = 502)%Z.
Proof.
  unfold Symptom.analyze_symptoms_with.
  destruct (key_missing rt).
  - simpl. intros H. injection H as <-. eexists; eexists; split; [reflexivity | auto].
  - destruct (Symptom.fallback _ _ _ models None []) as [[res|last_error] sent];
      simpl; intros H.
    + now apply (interpret_raises rt res).
    + injection H as <-. eexists; eexists; split; [reflexivity | auto].
Qed.

(** The symptom checker surfaces prose as a 500. *)
Lemma analyze_symptoms_raises_500_or_502_witness :
  exists code detail,
    HTTPException 500
      "AI returned malformed JSON. Raw response (truncated): Sorry, I cannot help with that."
    = HTTPException code detail
    /\ (code = 500 \/ code = 502)%Z.
Proof.
  exact (analyze_symptoms_raises_500_or_502 Symptom.models_to_try
           Demo.second_is_prose Demo.fever _ eq_refl).
Defined.

(* ------------------------------------------------------------------ *)
(** ** What a returned assessment satisfies *)

Lemma int_between_bounds (rt : Runtime) (lo hi : Z) (v : json) (n : Z) :
  Symptom.int_between rt lo hi v = Some n -> (lo <= n <= hi)%Z.
Proof.
  unfold Symptom.int_between. destruct (pydantic_int rt v) as [k|]; [|discriminate].
  destruct ((lo <=? k) && (k <=? hi))%Z eqn:E; [|discriminate].
  intros H. injection H as <-. apply andb_true_iff in E. lia.
Qed.

Lemma field_some {A} (d : Dict) (k : string) (parse : json -> option A) (a : A) :
  Symptom.field d k parse = Some a ->
  exists v, Py.dict_get k d = Some v /\ parse v = Some a.
Proof.
  unfold Symptom.field. destruct (Py.dict_get k d) as [v|]; [|discriminate].
  intros H. now exists v.
Qed.

Lemma all_some_Forall {A B} (f : A -> option B) (P : B -> Prop) :
  (forall x y, f x = Some y -> P y) ->
  forall l l', Symptom.all_some f l = Some l' -> Forall P l'.
Proof.
  intros Hf. induction l as [|x l IH]; simpl; intros l' H.
  - injection H as <-. constructor.
  - destruct (f x) as [y|] eqn:E; [|discriminate].
    destruct (Symptom.all_some f l) as [ys|]; [|discriminate].
    injection H as <-. constructor; [now apply (Hf x) | now apply IH].
Qed.

Lemma validate_PossibleCondition_bounds (rt : Runtime) (v : json)
    (pc : Symptom.PossibleCondition) :
  Symptom.validate_PossibleCondition rt v = Some pc ->
  (0 <= Symptom.probability pc <= 100)%Z.
Proof.
  unfold Symptom.validate_PossibleCondition.
  destruct (pydantic_model rt v) as [d|]; [|discriminate].
  destruct (Symptom.field d "condition" _); [|discriminate].
  destruct (Symptom.field d "probability" _) as [p|] eqn:E; [|discriminate].
  destruct (Symptom.field d "description" _); [|discriminate].
  intros H. injection H as <-. simpl.
  destruct (field_some _ _ _ _ E) as [w [_ Hw]].
  exact (int_between_bounds _ _ _ _ _ Hw).
Qed.

Lemma validate_SymptomAssessment_bounds (rt : Runtime) (d : Dict)
    (a : Symptom.SymptomAssessment) :
  Symptom.validate_SymptomAssessment rt d = Some a ->
  (1 <= Symptom.urgency_score a <= 100)%Z
  /\ Forall (fun pc => (0 <= Symptom.probability pc <= 100)%Z)
            (Symptom.possible_conditions a).
Proof.
  unfold Symptom.validate_SymptomAssessment.
  destruct (Symptom.field d "assessment_id" _); [|discriminate].
  destruct (Symptom.field d "urgency_level" _); [|discriminate].
  destruct (Symptom.field d "urgency_score" _) as [us|] eqn:Eus; [|discriminate].
  destruct (Symptom.field d "possible_conditions" _) as [pcs|] eqn:Epc; [|discriminate].
  destruct (Symptom.field d "recommended_tests" _); [|discriminate].
  destruct (Symptom.field d "action_items" _); [|discriminate].
  destruct (Symptom.field d "warning_signs" _); [|discriminate].
  destruct (Symptom.field d "when_to_seek_care" _); [|discriminate].
  intros H. injection H as <-. simpl. split.
  - destruct (field_some _ _ _ _ Eus) as [w [_ Hw]].
    exact (int_between_bounds _ _ _ _ _ Hw).
  - destruct (field_some _ _ _ _ Epc) as [w [_ Hw]].
    unfold Symptom.list_of in Hw. destruct (pydantic_list rt w) as [items|]; [|discriminate].
    eapply all_some_Forall; [|exact Hw].
    intros x y. apply validate_PossibleCondition_bounds.
Qed.

(** X4: an assessment that [analyze_symptoms] returns has an
    [urgency_score] between 1 and 100 and, for each possible condition, a
    [probability] between 0 and 100, whatever the model sent. *)
Theorem returned_assessment_within_bounds
    (models : list string) (rt : Runtime) (input : Symptom.SymptomRequest)
    (a : Symptom.SymptomAssessment) :
  fst (Symptom.analyze_symptoms_with models rt input) = Ok a ->
  (1 <= Symptom.urgency_score a <= 100)%Z
  /\ Forall (fun pc => (0 <= Symptom.probability pc <= 100)%Z)
            (Symptom.possible_conditions a).
Proof.
  unfold Symptom.analyze_symptoms_with.
  destruct (key_missing rt); [discriminate|].
  destruct (Symptom.fallback _ _ _ models None []) as [[res|last_error] sent];
    simpl; [|discriminate].
  unfold Symptom.interpret.
  destruct (Symptom.cleaned_text rt res) as [raw_json_text|]; [|discriminate].
  unfold Symptom.parse_and_validate, Symptom.construct.
  destruct (json_loads rt raw_json_text) as [[| | | | | |d]|]; try discriminate.
  destruct (Symptom.validate_SymptomAssessment rt d) as [a'|] eqn:E; [|discriminate].
  intros H. injection H as <-. exact (validate_SymptomAssessment_bounds _ _ _ E).
Qed.

(** The symptom checker returns the validated assessment of the fourth
    model. *)
Lemma returned_assessment_within_bounds_witness :
  (1 <= Symptom.urgency_score Demo.assessment <= 100)%Z
  /\ Forall (fun pc => (0 <= Symptom.probability pc <= 100)%Z)
            (Symptom.possible_conditions Demo.assessment).
Proof.
  exact (returned_assessment_within_bounds Symptom.models_to_try
           Demo.fourth_assesses Demo.fever Demo.assessment eq_refl).
Defined.

(* ------------------------------------------------------------------ *)
(** ** How much of a report is sent *)

Lemma reports_log (models : list string) (rt : Runtime)
    (extracted_text : string) (parsed_data : list (string * Reports.TestData)) :
  Forall (fun rq => exists model_name,
            rq = Reports.request rt
                   (Reports.analysis_messages rt extracted_text parsed_data)
                   model_name)
         (snd (Reports.call_glm_for_analysis_with models rt extracted_text
                 parsed_data)).
Proof.
  unfold Reports.call_glm_for_analysis_with.
  destruct (key_missing rt); [constructor|].
  rewrite reports_fallback_eq.
  destruct (first_success_log rt Reports.attempt
              (Reports.request rt
                 (Reports.analysis_messages rt extracted_text parsed_data))
              models None []) as [k Hk].
  destruct (first_success _ _ _ models None []) as [[[v|] e] log];
    simpl in *; subst log; apply Forall_forall; intros rq Hin;
    apply in_map_iff in Hin; destruct Hin as [m [<- _]]; now exists m.
Qed.

Lemma length_take_min (n : nat) (s : string) :
  String.length (PyStr.take n s) = Nat.min n (String.length s).
Proof.
  revert s; induction n as [|n IH]; intros [|c s]; simpl; try reflexivity.
  now rewrite IH.
Qed.

Lemma user_prompt_length (rt : Runtime) (extracted_text : string)
    (parsed_data : list (string * Reports.TestData)) :
  String.length (Reports.user_prompt rt extracted_text parsed_data)
  = String.length (Reports.user_prompt rt EmptyString parsed_data)
    + Nat.min 2000 (String.length extracted_text).
Proof.
  unfold Reports.user_prompt. rewrite !length_append, length_take_min.
  simpl. lia.
Qed.

(** X5: [call_glm_for_analysis] sends the first 2000 characters of the
    extracted text and nothing beyond them: two texts that agree on these
    characters give the same run, and in every request posted the user
    message is longer than the one for an empty text by the length of the
    text, or by 2000 if the text is longer. *)
Theorem analysis_sends_first_2000_characters :
  (forall models rt text1 text2 parsed_data,
      PyStr.take 2000 text1 = PyStr.take 2000 text2 ->
      Reports.call_glm_for_analysis_with models rt text1 parsed_data
      = Reports.call_glm_for_analysis_with models rt text2 parsed_data)
  /\ (forall models rt extracted_text parsed_data,
      Forall (fun rq =>
                exists sys user,
                  messages (json_payload rq) = [sys; user]
                  /\ role user = "user"
                  /\ String.length (content user)
                     = String.length (Reports.user_prompt rt EmptyString parsed_data)
                       + Nat.min 2000 (String.length extracted_text))
             (snd (Reports.call_glm_for_analysis_with models rt extracted_text
                     parsed_data))).
Proof.
  split.
  - intros models rt text1 text2 parsed_data H.
    unfold Reports.call_glm_for_analysis_with, Reports.analysis_messages,
      Reports.user_prompt. now rewrite H.
  - intros models rt extracted_text parsed_data.
    eapply Forall_impl; [|apply reports_log].
    intros rq [m ->]. simpl. eexists; eexists. split; [reflexivity|].
    split; [reflexivity|]. simpl. apply user_prompt_length.
Qed.

(** Two reports that differ after their 2000th character. *)
Lemma analysis_sends_first_2000_characters_witness :
  Reports.call_glm_for_analysis Demo.second_parses
    (Reports.join EmptyString (repeat "0123456789" 200) ++ "left") []
  = Reports.call_glm_for_analysis Demo.second_parses
      (Reports.join EmptyString (repeat "0123456789" 200) ++ "right") [].
Proof.
  destruct analysis_sends_first_2000_characters as [H _].
  apply H. vm_compute. reflexivity.
Defined.

(* ------------------------------------------------------------------ *)
(** ** A fenced payload between two lines *)

(** X6: a payload wrapped between a fence line, tagged [json] or not, and
    a closing fence line is unwrapped by [normalize]: the result is the
    payload without its surrounding white space, hence the payload itself
    when it has none. *)
Theorem normalize_unwraps_fenced_payload (p : string) :
  normalize (fence_json ++ newline ++ p ++ newline ++ fence) = PyStr.strip p
  /\ normalize (fence ++ newline ++ p ++ newline ++ fence) = PyStr.strip p
  /\ (PyStr.strip p = p ->
      normalize (fence_json ++ newline ++ p ++ newline ++ fence) = p).
Proof.
  assert (Htag : normalize (fence_json ++ newline ++ p ++ newline ++ fence)
                 = PyStr.strip p).
  { unfold normalize.
    replace (fence_json ++ newline ++ p ++ newline ++ fence)
      with (fence_json ++ (newline ++ p ++ newline) ++ fence)
      by now rewrite !append_assoc.
    rewrite (strip_fenced fence_json _ "`"%char "``json" eq_refl eq_refl).
    change (PyStr.startswith (fence_json ++ (newline ++ p ++ newline) ++ fence) fence)
      with true.
    change (PyStr.startswith (fence_json ++ (newline ++ p ++ newline) ++ fence)
              fence_json) with true.
    cbv iota.
    change (PyStr.drop 7 (fence_json ++ (newline ++ p ++ newline) ++ fence))
      with ((newline ++ p ++ newline) ++ fence).
    rewrite endswith_append_fence, drop_last_append_fence.
    apply strip_between_newlines. }
  split; [exact Htag|]. split; [|intros H; now rewrite Htag].
  unfold normalize.
  replace (fence ++ newline ++ p ++ newline ++ fence)
    with (fence ++ (newline ++ p ++ newline) ++ fence)
    by now rewrite !append_assoc.
  rewrite (strip_fenced fence _ "`"%char "``" eq_refl eq_refl).
  change (PyStr.startswith (fence ++ (newline ++ p ++ newline) ++ fence) fence)
    with true.
  change (PyStr.startswith (fence ++ (newline ++ p ++ newline) ++ fence) fence_json)
    with false.
  cbv iota.
  change (PyStr.drop 3 (fence ++ (newline ++ p ++ newline) ++ fence))
    with ((newline ++ p ++ newline) ++ fence).
  rewrite endswith_append_fence, drop_last_append_fence.
  apply strip_between_newlines.
Qed.

(** The payload of the specification. *)
Lemma normalize_unwraps_fenced_payload_witness :
  normalize (fence_json ++ newline ++ payload_a1 ++ newline ++ fence) = payload_a1.
Proof.
  destruct (normalize_unwraps_fenced_payload payload_a1) as [_ [_ H]].
  apply H. reflexivity.
Defined.

(* ------------------------------------------------------------------ *)
(** ** How the confidence score moves *)

(** X7: for one answer, [calculate_confidence] is never lower with
    records than without, whatever the questions are, and it stays below
    1.0: the upper clamp is never the value returned. *)
Theorem confidence_grows_with_records
    (question question' : string) (record : Dict) (records : list Dict)
    (answer : string) :
  (Chat.calculate_confidence question [] answer
   <=? Chat.calculate_confidence question' (record :: records) answer)%float = true
  /\ (Chat.calculate_confidence question' (record :: records) answer <? 1.0)%float
     = true
  /\ (Chat.calculate_confidence question [] answer <? 1.0)%float = true.
Proof.
  unfold Chat.calculate_confidence. simpl Chat.has_records. cbv iota.
  destruct (Chat.has_digit answer),
    (Chat.has_any Chat.uncertain_phrases answer),
    (Chat.has_any Chat.medical_terms answer);
    vm_compute; repeat split.
Qed.

(* ================================================================== *)
(** * The chat endpoint *)

(* ------------------------------------------------------------------ *)
(** ** The context built from the records *)

Lemma add_records_append (medical_records : list ChatReply.StrDict) :
  forall idx context,
  exists tail,
    ChatReply.add_records idx medical_records context = context ++ tail.
Proof.
  induction medical_records as [|r rs IH]; intros idx context; simpl.
  - exists EmptyString. now rewrite append_nil_r.
  - destruct (IH (idx + 1)%Z (context ++ ChatReply.record_block idx r)) as [tail H].
    exists (ChatReply.record_block idx r ++ tail). now rewrite H, append_assoc.
Qed.

Lemma add_records_block (pre : list ChatReply.StrDict) :
  forall idx context r post,
    within (ChatReply.record_block (idx + Z.of_nat (List.length pre)) r)
           (ChatReply.add_records idx (pre ++ r :: post) context).
Proof.
  induction pre as [|p pre IH]; intros idx context r post.
  - simpl. rewrite Z.add_0_r.
    destruct (add_records_append post (idx + 1)%Z
                (context ++ ChatReply.record_block idx r)) as [tail H].
    exists context, tail. now rewrite H, append_assoc.
  - simpl List.length. rewrite Nat2Z.inj_succ.
    replace (idx + Z.succ (Z.of_nat (List.length pre)))%Z
      with (idx + 1 + Z.of_nat (List.length pre))%Z by lia.
    apply IH.
Qed.

(** X8: [build_medical_context] answers the fixed sentence for no record
    and otherwise a text that begins with its heading and holds, for the
    record at each position, the block numbered with that position (from 1)
    and filled with its id, source file, type, date and content. *)
Theorem context_holds_every_record :
  ChatReply.build_medical_context [] = "No medical data available."
  /\ (forall pre r post,
        PyStr.startswith (ChatReply.build_medical_context (pre ++ r :: post))
          "User's Medical Records:" = true
        /\ within (ChatReply.record_block (Z.of_nat (List.length pre) + 1) r)
                  (ChatReply.build_medical_context (pre ++ r :: post))).
Proof.
  split; [reflexivity|]. intros pre r post.
  assert (E : ChatReply.build_medical_context (pre ++ r :: post)
              = ChatReply.add_records 1 (pre ++ r :: post)
                  ("User's Medical Records:" ++ newline ++ newline)).
  { now destruct pre. }
  rewrite E. split.
  - destruct (add_records_append (pre ++ r :: post) 1
                ("User's Medical Records:" ++ newline ++ newline)) as [tail H].
    rewrite H. apply prefix_iff.
    exists (newline ++ newline ++ tail). now rewrite !append_assoc.
  - rewrite Z.add_comm. apply add_records_block.
Qed.

(* ------------------------------------------------------------------ *)
(** ** The records an answer refers to *)

Lemma referenced_in_order_In (answer : string)
    (medical_records : list ChatReply.StrDict) (id : string) :
  In id (ChatReply.referenced_in_order answer medical_records)
  <-> exists record,
        In record medical_records
        /\ ChatReply.get_or_empty record "id" = id
        /\ ChatReply.is_referenced (PyStr.lower answer) record = true.
Proof.
  unfold ChatReply.referenced_in_order. rewrite in_map_iff. split.
  - intros [record [Hid Hin]]. apply filter_In in Hin. destruct Hin as [Hin Hr].
    now exists record.
  - intros [record [Hin [Hid Hr]]]. exists record. split; [exact Hid|].
    apply filter_In. now split.
Qed.

Lemma extract_referenced_In (answer : string)
    (medical_records : list ChatReply.StrDict) (id : string) :
  In id (ChatReply.extract_referenced_records answer medical_records)
  <-> exists record,
        In record medical_records
        /\ ChatReply.get_or_empty record "id" = id
        /\ ChatReply.is_referenced (PyStr.lower answer) record = true.
Proof.
  unfold ChatReply.extract_referenced_records. rewrite nodup_In.
  apply referenced_in_order_In.
Qed.

(** X9: the list [extract_referenced_records] returns has no duplicate,
    is no longer than the list of records, and holds exactly the ids of the
    records that one of the three tests of the loop accepts. *)
Theorem referenced_records_are_ids_of_accepted_records
    (answer : string) (medical_records : list ChatReply.StrDict) :
  NoDup (ChatReply.extract_referenced_records answer medical_records)
  /\ List.length (ChatReply.extract_referenced_records answer medical_records)
     <= List.length medical_records
  /\ (forall id,
        In id (ChatReply.extract_referenced_records answer medical_records)
        <-> exists record,
              In record medical_records
              /\ ChatReply.get_or_empty record "id" = id
              /\ ChatReply.is_referenced (PyStr.lower answer) record = true).
Proof.
  unfold ChatReply.extract_referenced_records. split; [apply NoDup_nodup|]. split.
  - eapply Nat.le_trans;
      [apply NoDup_incl_length;
       [apply NoDup_nodup | intros x Hx; apply nodup_In in Hx; exact Hx]|].
    unfold ChatReply.referenced_in_order. rewrite length_map. apply filter_length_le.
  - intros id. fold (ChatReply.extract_referenced_records answer medical_records).
    apply extract_referenced_In.
Qed.

Lemma is_empty_false (s : string) : PyStr.is_empty s = false <-> s <> EmptyString.
Proof. destruct s; simpl; split; congruence. Qed.

Lemma common_nil (a : list string) : ChatReply.common a [] = [].
Proof.
  unfold ChatReply.common.
  replace (filter (fun w => existsb (String.eqb w) []) a) with (@nil string);
    [reflexivity|].
  induction a as [|w a IH]; [reflexivity | exact IH].
Qed.

Lemma is_referenced_empty_answer (record : ChatReply.StrDict) :
  ChatReply.is_referenced EmptyString record = false.
Proof.
  unfold ChatReply.is_referenced.
  change (ChatReply.split EmptyString) with (@nil string). rewrite common_nil.
  destruct (ChatReply.get_or_empty record "id");
    destruct (ChatReply.get_or_empty record "source_file"); reflexivity.
Qed.

(** X10: a record is among the referenced ones as soon as the first or
    the second test of the loop accepts it, whatever its content and the
    other records are: when its id is not empty and, in lower case, occurs
    in the answer in lower case, its id is returned; when its source file is
    not empty and occurs in the same way, its id is returned as well, be it
    the empty string of a record without id.  For an empty answer nothing is
    referenced. *)
Theorem mentioned_record_is_referenced :
  (forall answer medical_records record,
      In record medical_records ->
      ChatReply.get_or_empty record "id" <> EmptyString ->
      PyStr.contains (PyStr.lower (ChatReply.get_or_empty record "id"))
        (PyStr.lower answer) = true ->
      In (ChatReply.get_or_empty record "id")
         (ChatReply.extract_referenced_records answer medical_records))
  /\ (forall answer medical_records record,
      In record medical_records ->
      ChatReply.get_or_empty record "source_file" <> EmptyString ->
      PyStr.contains (PyStr.lower (ChatReply.get_or_empty record "source_file"))
        (PyStr.lower answer) = true ->
      In (ChatReply.get_or_empty record "id")
         (ChatReply.extract_referenced_records answer medical_records))
  /\ (forall medical_records,
      ChatReply.extract_referenced_records EmptyString medical_records = []).
Proof.
  split; [|split].
  - intros answer medical_records record Hin Hne Hm.
    apply extract_referenced_In.
    exists record. split; [exact Hin|]. split; [reflexivity|].
    unfold ChatReply.is_referenced.
    apply is_empty_false in Hne. now rewrite Hne, Hm.
  - intros answer medical_records record Hin Hne Hm.
    apply extract_referenced_In.
    exists record. split; [exact Hin|]. split; [reflexivity|].
    unfold ChatReply.is_referenced.
    apply is_empty_false in Hne. rewrite Hne, Hm.
    now destruct (negb _ && _).
  - intros medical_records.
    unfold ChatReply.extract_referenced_records, ChatReply.referenced_in_order.
    change (PyStr.lower EmptyString) with EmptyString.
    induction medical_records as [|r rs IH]; [reflexivity|].
    simpl filter. now rewrite is_referenced_empty_answer.
Qed.

(* ------------------------------------------------------------------ *)
(** ** The endpoint around [call_glm_model] *)

Lemma chat_log (models : list string) (rt : Runtime) (msgs : list Message) :
  Forall (fun rq => exists model_name, rq = Chat.request rt msgs model_name)
         (snd (Chat.call_glm_model_with models rt msgs)).
Proof.
  unfold Chat.call_glm_model_with.
  destruct (key_missing rt); [constructor|].
  rewrite chat_fallback_eq.
  destruct (first_success_log rt Chat.attempt (Chat.request rt msgs) models None [])
    as [k Hk].
  destruct (first_success _ _ _ models None []) as [[[v|] e] log];
    simpl in *; subst log; apply Forall_forall; intros rq Hin;
    apply in_map_iff in Hin; destruct Hin as [m [<- _]]; now exists m.
Qed.

Lemma chat_ask_question_log (rt : Runtime)
    (medical_records : list ChatReply.StrDict) (data : ChatReply.ChatRequest) :
  snd (ChatReply.chat_ask_question rt (Ok medical_records) data)
  = snd (Chat.call_glm_model rt
           (ChatReply.chat_messages medical_records (ChatReply.question data))).
Proof.
  unfold ChatReply.chat_ask_question.
  destruct (Chat.call_glm_model rt _) as [[v|e] sent]; [reflexivity|].
  now destruct e.
Qed.

Lemma confidence_in_range (question : string) (medical_records : list Dict)
    (answer : string) :
  (0.1 <=? Chat.calculate_confidence question medical_records answer)%float = true
  /\ (Chat.calculate_confidence question medical_records answer <=? 1.0)%float = true.
Proof.
  unfold Chat.calculate_confidence.
  destruct (Chat.has_records medical_records), (Chat.has_digit answer),
    (Chat.has_any Chat.uncertain_phrases answer),
    (Chat.has_any Chat.medical_terms answer);
    split; vm_compute; reflexivity.
Qed.

Lemma follow_ups_length (question answer : string)
    (medical_records : list ChatReply.StrDict) :
  List.length (ChatReply.generate_follow_ups question answer medical_records) = 4.
Proof. now destruct medical_records. Qed.

(** X11: a response that [chat_ask_question] returns carries the text
    that [call_glm_model] returned for the two messages of the endpoint, a
    confidence between 0.1 and 1.0, exactly four follow-up suggestions,
    referenced ids without duplicate that are ids of the records, and the
    session id of the request when it has one that is not empty, a fresh one
    otherwise. *)
Theorem chat_response_shape
    (rt : Runtime) (medical_records : list ChatReply.StrDict)
    (data : ChatReply.ChatRequest) (resp : ChatReply.ChatResponse)
    (sent : list Request) :
  ChatReply.chat_ask_question rt (Ok medical_records) data = (Ok resp, sent) ->
  Chat.call_glm_model rt
    (ChatReply.chat_messages medical_records (ChatReply.question data))
  = (Ok (JStr (ChatReply.answer resp)), sent)
  /\ (0.1 <=? ChatReply.confidence_score resp)%float = true
  /\ (ChatReply.confidence_score resp <=? 1.0)%float = true
  /\ List.length (ChatReply.follow_up_suggestions resp) = 4
  /\ NoDup (ChatReply.referenced_records resp)
  /\ (forall id, In id (ChatReply.referenced_records resp) ->
        exists record, In record medical_records
                       /\ ChatReply.get_or_empty record "id" = id)
  /\ (forall s, ChatReply.session_id data = Some s -> s <> EmptyString ->
        ChatReply.response_session_id resp = s)
  /\ (ChatReply.session_id data = None \/ ChatReply.session_id data = Some EmptyString ->
        ChatReply.response_session_id resp = uuid4 rt).
Proof.
  unfold ChatReply.chat_ask_question.
  destruct (Chat.call_glm_model rt _) as [[ai_answer|e] log];
    [|destruct e; discriminate].
  unfold ChatReply.respond. destruct ai_answer as [| | | |text| |]; try discriminate.
  intros H. injection H as <- <-. simpl.
  split; [reflexivity|].
  destruct (confidence_in_range (ChatReply.question data)
              (ChatReply.as_dicts medical_records) text) as [Hlo Hhi].
  split; [exact Hlo|]. split; [exact Hhi|].
  split; [apply follow_ups_length|].
  split; [apply NoDup_nodup|]. split.
  - intros id Hid. apply extract_referenced_In in Hid.
    destruct Hid as [record [H1 [H2 _]]].
    now exists record.
  - unfold ChatReply.session_or_new. split.
    + intros s -> Hs. apply is_empty_false in Hs. now rewrite Hs.
    + intros [-> | ->]; reflexivity.
Qed.

Lemma call_glm_model_raises (models : list string) (rt : Runtime)
    (msgs : list Message) (e : exn) (sent : list Request) :
  Chat.call_glm_model_with models rt msgs = (Raise e, sent) ->
  exists detail,
    e = HTTPException 500 detail /\ (sent = [] \/ models_of sent = models).
Proof.
  unfold Chat.call_glm_model_with. destruct (key_missing rt).
  - intros H. injection H as <- <-. eexists. split; [reflexivity | now left].
  - rewrite chat_fallback_eq.
    destruct (first_success rt Chat.attempt (Chat.request rt msgs) models None [])
      as [[[v|] e'] log] eqn:E; [discriminate|].
    intros H. injection H as <- <-. eexists. split; [reflexivity|]. right.
    destruct (first_success_none _ _ _ _ _ _ _ _ E) as [es [_ [_ ->]]].
    simpl. apply chat_models_of.
Qed.

Lemma call_glm_model_returns (models : list string) (rt : Runtime)
    (msgs : list Message) (v : json) (sent : list Request) :
  Chat.call_glm_model_with models rt msgs = (Ok v, sent) -> sent <> [].
Proof.
  unfold Chat.call_glm_model_with. destruct (key_missing rt); [discriminate|].
  rewrite chat_fallback_eq.
  destruct (first_success rt Chat.attempt (Chat.request rt msgs) models None [])
    as [[[v'|] e'] log] eqn:E; [|discriminate].
  intros H. injection H as <- <-.
  destruct (first_success_some _ _ _ _ _ _ _ _ _ E) as [pre [m [rest [es [_ [_ [_ ->]]]]]]].
  simpl. rewrite map_app. intros H. now apply app_eq_nil in H.
Qed.

(** X12: when reading the storage fails, [chat_ask_question] raises that
    failure and no request is posted.  Otherwise what it raises is either an
    HTTP 500 of [call_glm_model], no request or one request per configured
    model having been posted, or the [AttributeError] of an answer that is
    not a string, after at least one request; it never answers instead with
    a default text. *)
Theorem chat_ask_question_failures :
  (forall rt e data,
      ChatReply.chat_ask_question rt (Raise e) data = (Raise e, []))
  /\ (forall rt medical_records data e sent,
      ChatReply.chat_ask_question rt (Ok medical_records) data = (Raise e, sent) ->
      (exists detail,
          e = HTTPException 500 detail
          /\ (sent = [] \/ models_of sent = Chat.models_to_try))
      \/ (exists msg, e = AttributeError msg /\ sent <> [])).
Proof.
  split; [reflexivity|].
  intros rt medical_records data e sent. unfold ChatReply.chat_ask_question.
  destruct (Chat.call_glm_model rt _) as [[ai_answer|e0] log] eqn:E.
  - intros H. injection H as H <-. right.
    pose proof (call_glm_model_returns _ _ _ _ _ E) as Hne.
    unfold ChatReply.respond in H.
    destruct ai_answer; try discriminate H; injection H as <-;
      eexists; (split; [reflexivity | exact Hne]).
  - destruct (call_glm_model_raises _ _ _ _ _ E) as [detail [-> Hsent]].
    intros H. injection H as <- <-. left. now exists detail.
Qed.

Lemma within_append_right (t a m : string) : within t m -> within t (a ++ m).
Proof.
  intros [pre [post ->]]. exists (a ++ pre), post. now rewrite append_assoc.
Qed.

Lemma within_append_left (t m b : string) : within t m -> within t (m ++ b).
Proof.
  intros [pre [post ->]]. exists pre, (post ++ b). now rewrite !append_assoc.
Qed.

Lemma system_content_within (t medical_context : string) :
  within t medical_context -> within t (ChatReply.system_content medical_context).
Proof.
  intros H. unfold ChatReply.system_content.
  do 14 apply within_append_right. now apply within_append_left.
Qed.

(** X13: every request that [chat_ask_question] posts carries two
    messages: a system message that holds the numbered block of each record
    read from the storage, and the question of the user as it was asked. *)
Theorem chat_requests_carry_records_and_question
    (rt : Runtime) (pre : list ChatReply.StrDict) (r : ChatReply.StrDict)
    (post : list ChatReply.StrDict) (data : ChatReply.ChatRequest) :
  Forall (fun rq =>
            exists sys,
              messages (json_payload rq)
              = [ sys; {| role := "user"; content := ChatReply.question data |} ]
              /\ role sys = "system"
              /\ within (ChatReply.record_block (Z.of_nat (List.length pre) + 1) r)
                        (content sys))
         (snd (ChatReply.chat_ask_question rt (Ok (pre ++ r :: post)%list) data)).
Proof.
  rewrite chat_ask_question_log.
  eapply Forall_impl; [|apply chat_log].
  intros rq [m ->].
  exists {| role := "system";
            content := ChatReply.system_content
                         (ChatReply.build_medical_context (pre ++ r :: post)) |}.
  split; [reflexivity|]. split; [reflexivity|].
  cbn [content]. apply system_content_within.
  assert (E : ChatReply.build_medical_context (pre ++ r :: post)
              = ChatReply.add_records 1 (pre ++ r :: post)
                  ("User's Medical Records:" ++ newline ++ newline)).
  { now destruct pre. }
  rewrite E, Z.add_comm. apply add_records_block.
Qed.

(* ================================================================== *)
(** * The lab values of a report *)

Lemma has_status_iff (s : string) (parsed_data : list (string * Reports.TestData)) :
  Lab.has_status s parsed_data = true
  <-> exists name data, In (name, data) parsed_data /\ Reports.status data = s.
Proof.
  unfold Lab.has_status. rewrite existsb_exists. split.
  - intros [data [Hin Hs]]. apply in_map_iff in Hin.
    destruct Hin as [[name data'] [E Hin]]. simpl in E. subst data'.
    exists name, data. split; [exact Hin | now apply String.eqb_eq].
  - intros [name [data [Hin Hs]]]. exists data. split.
    + apply in_map_iff. now exists (name, data).
    + now apply String.eqb_eq.
Qed.

Lemma has_status_append (s : string) (a b : list (string * Reports.TestData)) :
  Lab.has_status s (a ++ b) = Lab.has_status s a || Lab.has_status s b.
Proof. unfold Lab.has_status. now rewrite map_app, existsb_app. Qed.

(** X14: [determine_overall_status] answers the gravest status present:
    URGENT exactly when some test is URGENT, MONITOR exactly when none is
    URGENT and some test is MONITOR, NORMAL otherwise; the status of two sets
    of tests taken together is the graver of their two statuses. *)
Theorem overall_status_is_the_gravest :
  (forall parsed_data,
      Lab.determine_overall_status parsed_data = "URGENT"
      <-> exists name data,
            In (name, data) parsed_data /\ Reports.status data = "URGENT")
  /\ (forall parsed_data,
      Lab.determine_overall_status parsed_data = "MONITOR"
      <-> (~ exists name data,
               In (name, data) parsed_data /\ Reports.status data = "URGENT")
          /\ exists name data,
               In (name, data) parsed_data /\ Reports.status data = "MONITOR")
  /\ (forall parsed_data,
      Lab.determine_overall_status parsed_data = "URGENT"
      \/ Lab.determine_overall_status parsed_data = "MONITOR"
      \/ Lab.determine_overall_status parsed_data = "NORMAL")
  /\ (forall a b,
      Lab.rank (Lab.determine_overall_status (a ++ b))
      = Nat.max (Lab.rank (Lab.determine_overall_status a))
                (Lab.rank (Lab.determine_overall_status b))).
Proof.
  split; [|split; [|split]].
  - intros d. rewrite <- has_status_iff. unfold Lab.determine_overall_status.
    destruct (Lab.has_status "URGENT" d); [now split|].
    destruct (Lab.has_status "MONITOR" d); split; discriminate.
  - intros d. rewrite <- !has_status_iff. unfold Lab.determine_overall_status.
    destruct (Lab.has_status "URGENT" d).
    + split; [discriminate | intros [H _]; now contradiction H].
    + destruct (Lab.has_status "MONITOR" d); split; try discriminate.
      * intros _. split; [discriminate | reflexivity].
      * reflexivity.
      * intros [_ H]. discriminate H.
  - intros d. unfold Lab.determine_overall_status.
    destruct (Lab.has_status "URGENT" d); [now left|].
    destruct (Lab.has_status "MONITOR" d); [right; now left | right; now right].
  - intros a b. unfold Lab.determine_overall_status.
    rewrite !has_status_append.
    destruct (Lab.has_status "URGENT" a), (Lab.has_status "URGENT" b),
      (Lab.has_status "MONITOR" a), (Lab.has_status "MONITOR" b); reflexivity.
Qed.

Section DictSet.

Context {V : Type}.

Lemma dict_set_In (k : string) (v : V) (d : list (string * V)) (k' : string) (v' : V) :
  In (k', v') (Lab.dict_set k v d) -> (k' = k /\ v' = v) \/ In (k', v') d.
Proof.
  induction d as [|[k0 v0] d IH]; simpl.
  - intros [H|[]]. injection H as <- <-. now left.
  - destruct (String.eqb_spec k0 k) as [->|ne]; simpl.
    + intros [H|H]; [injection H as <- <-; now left | right; now right].
    + intros [H|H]; [right; now left|].
      destruct (IH H) as [H'|H']; [now left | right; now right].
Qed.

Lemma dict_set_keys (k : string) (v : V) (d : list (string * V)) (k' : string) :
  In k' (map fst (Lab.dict_set k v d)) -> k' = k \/ In k' (map fst d).
Proof.
  intros H. apply in_map_iff in H. destruct H as [[k0 v0] [E H]]. simpl in E. subst k0.
  destruct (dict_set_In _ _ _ _ _ H) as [[-> _]|H']; [now left|].
  right. apply in_map_iff. now exists (k', v0).
Qed.

Lemma dict_set_NoDup (k : string) (v : V) (d : list (string * V)) :
  NoDup (map fst d) -> NoDup (map fst (Lab.dict_set k v d)).
Proof.
  induction d as [|[k0 v0] d IH]; simpl; intros H.
  - constructor; [intros [] | constructor].
  - inversion H as [|? ? Hnot Hrest]; subst.
    destruct (String.eqb_spec k0 k) as [->|ne]; simpl.
    + now constructor.
    + constructor; [|now apply IH].
      intros Hin. destruct (dict_set_keys _ _ _ _ Hin) as [->|Hin']; contradiction.
Qed.

End DictSet.

Lemma add_match_judged (lib : Lab.TextLib) (parsed_data : list (string * Reports.TestData))
    (m : string * string * string) :
  Lab.judged parsed_data -> Lab.judged (Lab.add_match lib parsed_data m).
Proof.
  intros [Hnd Hall]. destruct m as [[name number] unit_text].
  unfold Lab.add_match. destruct (Lab.py_float lib number) as [value|]; [|now split].
  split; [now apply dict_set_NoDup|].
  intros name' data H. destruct (dict_set_In _ _ _ _ _ H) as [[-> ->]|H'].
  - now split.
  - now apply Hall.
Qed.

Lemma parse_judged (lib : Lab.TextLib) (text : string) :
  Lab.judged (Lab.parse_medical_values lib text).
Proof.
  unfold Lab.parse_medical_values.
  assert (G : forall ms acc, Lab.judged acc -> Lab.judged (fold_left (Lab.add_match lib) ms acc)).
  { induction ms as [|m ms IH]; intros acc H; simpl; [exact H|].
    apply IH. now apply add_match_judged. }
  apply G. split; [constructor | intros name data []].
Qed.

Lemma judge_status (test_name : string) (value : float) :
  (snd (Lab.judge test_name value) = "URGENT"
   <-> PyStr.contains "Sugar" test_name = true /\ (125 <? value)%float = true)
  /\ (snd (Lab.judge test_name value) = "MONITOR"
      <-> PyStr.contains "Sugar" test_name = true
          /\ (125 <? value)%float = false /\ (100 <? value)%float = true)
  /\ (PyStr.contains "Sugar" test_name = false ->
      Lab.judge test_name value = ([], "NORMAL")).
Proof.
  unfold Lab.judge.
  destruct (PyStr.contains "Sugar" test_name); simpl;
    [destruct (125 <? value)%float; [|destruct (100 <? value)%float]|];
    repeat split; try discriminate; try tauto; intros [? ?]; try discriminate;
    intuition discriminate.
Qed.

(** X15: in the dict that [parse_medical_values] returns the test names
    are distinct, and each test has the status and the range that its own
    name and value call for: URGENT exactly for a name that contains "Sugar"
    with a value above 125, and NORMAL with an empty range for every name
    that does not contain "Sugar". *)
Theorem parsed_tests_are_distinct_and_judged (lib : Lab.TextLib) (text : string) :
  NoDup (map fst (Lab.parse_medical_values lib text))
  /\ forall name data,
       In (name, data) (Lab.parse_medical_values lib text) ->
       (Reports.status data = "URGENT"
        <-> PyStr.contains "Sugar" name = true
            /\ (125 <? Reports.value data)%float = true)
       /\ (Reports.status data = "MONITOR"
           <-> PyStr.contains "Sugar" name = true
               /\ (125 <? Reports.value data)%float = false
               /\ (100 <? Reports.value data)%float = true)
       /\ (PyStr.contains "Sugar" name = false ->
           Reports.status data = "NORMAL" /\ Reports.normal_range data = Some []).
Proof.
  destruct (parse_judged lib text) as [Hnd Hall]. split; [exact Hnd|].
  intros name data Hin. destruct (Hall name data Hin) as [Hs Hr].
  destruct (judge_status name (Reports.value data)) as [Hu [Hm Hn]].
  rewrite Hs, Hr. split; [exact Hu|]. split; [exact Hm|].
  intros H. now rewrite (Hn H).
Qed.

(** X16: the status that an upload starts with, which is
    [determine_overall_status] of [parse_medical_values], is URGENT exactly
    when a parsed test whose name contains "Sugar" has a value above 125;
    a report without such a name is NORMAL whatever its values are. *)
Theorem initial_status_depends_on_sugar_only (lib : Lab.TextLib) (text : string) :
  (Lab.determine_overall_status (Lab.parse_medical_values lib text) = "URGENT"
   <-> exists name data,
         In (name, data) (Lab.parse_medical_values lib text)
         /\ PyStr.contains "Sugar" name = true
         /\ (125 <? Reports.value data)%float = true)
  /\ ((forall name data,
          In (name, data) (Lab.parse_medical_values lib text) ->
          PyStr.contains "Sugar" name = false) ->
      Lab.determine_overall_status (Lab.parse_medical_values lib text) = "NORMAL").
Proof.
  destruct (parse_judged lib text) as [_ Hall].
  unfold Lab.determine_overall_status. split.
  - destruct (Lab.has_status "URGENT" _) eqn:E.
    + split; [intros _|reflexivity].
      apply has_status_iff in E. destruct E as [name [data [Hin Hs]]].
      exists name, data. split; [exact Hin|].
      destruct (Hall name data Hin) as [Hj _]. rewrite Hj in Hs.
      now apply (judge_status name (Reports.value data)).
    + split.
      * destruct (Lab.has_status "MONITOR" _); discriminate.
      * intros [name [data [Hin [H1 H2]]]].
        assert (F : Lab.has_status "URGENT" (Lab.parse_medical_values lib text) = true).
        { apply has_status_iff. exists name, data. split; [exact Hin|].
          destruct (Hall name data Hin) as [Hj _]. rewrite Hj.
          now apply (judge_status name (Reports.value data)). }
        rewrite F in E. discriminate E.
  - intros Hno.
    assert (G : forall s, s <> "NORMAL" ->
                Lab.has_status s (Lab.parse_medical_values lib text) = false).
    { intros s Hs. destruct (Lab.has_status s _) eqn:E; [|reflexivity].
      apply has_status_iff in E. destruct E as [name [data [Hin Hst]]].
      destruct (Hall name data Hin) as [Hj _].
      destruct (judge_status name (Reports.value data)) as [_ [_ Hn]].
      rewrite (Hn (Hno name data Hin)) in Hj. simpl in Hj. congruence. }
    rewrite (G "URGENT"), (G "MONITOR"); [reflexivity | discriminate | discriminate].
Qed.

(* ================================================================== *)
(** * The JSON-file store *)

Lemma py_eq_str (v : json) (s : string) :
  PyEq.py_eq v (JStr s) = true <-> v = JStr s.
Proof.
  destruct v; simpl; try (split; discriminate).
  rewrite String.eqb_eq. split; congruence.
Qed.

Lemma has_distinct (k s s' : string) (record : Dict) :
  Records.has k s record = true -> s' <> s -> Records.has k s' record = false.
Proof.
  unfold Records.has. intros H Hne. apply py_eq_str in H. rewrite H. simpl.
  apply String.eqb_neq. congruence.
Qed.

Lemma find_append {A} (p : A -> bool) (a b : list A) :
  find p (a ++ b) = match find p a with Some x => Some x | None => find p b end.
Proof.
  induction a as [|x a IH]; simpl; [reflexivity|]. now destruct (p x).
Qed.

Lemma find_filter {A} (p q : A -> bool) (l : list A) :
  (forall x, p x = true -> q x = true) -> find p (filter q l) = find p l.
Proof.
  intros H. induction l as [|x l IH]; simpl; [reflexivity|].
  destruct (q x) eqn:Eq; simpl.
  - now rewrite IH.
  - destruct (p x) eqn:Ep; [|exact IH]. rewrite (H x Ep) in Eq. discriminate.
Qed.

Lemma find_none_filter {A} (p q : A -> bool) (l : list A) :
  (forall x, q x = true -> p x = false) -> find p (filter q l) = None.
Proof.
  intros H. induction l as [|x l IH]; simpl; [reflexivity|].
  destruct (q x) eqn:Eq; simpl; [|exact IH]. now rewrite (H x Eq).
Qed.

Lemma insert_explanation_file (file : Store.File) (explanation_data : Dict)
    (rid : json) :
  Py.dict_get "record_id" explanation_data = Some rid ->
  Store.insert_explanation file explanation_data
  = (Ok explanation_data,
     Some {| Store.medical_records := Store.medical_records (Store.load_database file);
             Store.report_explanations :=
               (Store.not_about rid
                  (Store.report_explanations (Store.load_database file))
                ++ [explanation_data])%list |}).
Proof.
  intros H. unfold Store.insert_explanation.
  now rewrite (others_filter explanation_data rid H).
Qed.

(** X17: after [insert_explanation] of an explanation for record [rid],
    [get_explanation_by_record_id] returns that explanation for [rid] and,
    for every other id, what it returned before. *)
Theorem lookup_after_insert_explanation
    (file : Store.File) (explanation_data : Dict) (rid rid' : string) :
  Py.dict_get "record_id" explanation_data = Some (JStr rid) ->
  Records.get_explanation_by_record_id
    (snd (Store.insert_explanation file explanation_data)) rid'
  = if (rid' =? rid)%string then Some explanation_data
    else Records.get_explanation_by_record_id file rid'.
Proof.
  intros H. rewrite (insert_explanation_file file explanation_data _ H).
  unfold Records.get_explanation_by_record_id. simpl.
  rewrite find_append.
  assert (Hnew : Records.has "record_id" rid' explanation_data = (rid =? rid')%string).
  { unfold Records.has, PyEq.get. now rewrite H. }
  destruct (String.eqb_spec rid' rid) as [->|ne].
  - unfold Store.not_about. rewrite find_none_filter.
    + simpl. now rewrite Hnew, String.eqb_refl.
    + intros x Hx. change (Records.has "record_id" rid x)
        with (PyEq.py_eq (Store.record_id x) (JStr rid)).
      now destruct (PyEq.py_eq (Store.record_id x) (JStr rid)).
  - unfold Store.not_about. rewrite find_filter.
    + destruct (find _ _); [reflexivity|]. simpl. rewrite Hnew.
      apply String.eqb_neq in ne. rewrite String.eqb_sym in ne. now rewrite ne.
    + intros x Hx. change (negb (Records.has "record_id" rid x) = true).
      rewrite (has_distinct _ _ rid _ Hx); [reflexivity|].
      intros E. now apply ne.
Qed.

(** X18: of two explanations inserted one after the other for the same
    record only the second is kept: the file is the one that inserting the
    second alone gives, so that inserting an explanation twice is the same as
    inserting it once. *)
Theorem second_explanation_replaces_first
    (file : Store.File) (first second : Dict) (rid : string) :
  Py.dict_get "record_id" first = Some (JStr rid) ->
  Py.dict_get "record_id" second = Some (JStr rid) ->
  snd (Store.insert_explanation
         (snd (Store.insert_explanation file first)) second)
  = snd (Store.insert_explanation file second)
  /\ snd (Store.insert_explanation
            (snd (Store.insert_explanation file second)) second)
     = snd (Store.insert_explanation file second).
Proof.
  intros H1 H2.
  assert (G : forall d, Py.dict_get "record_id" d = Some (JStr rid) ->
              snd (Store.insert_explanation
                     (snd (Store.insert_explanation file d)) second)
              = snd (Store.insert_explanation file second)).
  { intros d Hd.
    rewrite (insert_explanation_file file d _ Hd). simpl snd.
    rewrite (insert_explanation_file _ second _ H2).
    rewrite (insert_explanation_file file second _ H2). simpl.
    rewrite (not_about_after d (JStr rid) Hd (String.eqb_refl rid)).
    reflexivity. }
  split; [now apply G | now apply G].
Qed.

(** X19: [insert_record] appends and never replaces: the file has one
    record more and the same explanations, and [get_record_by_id] still
    returns, for every id, the record it returned before; the new record is
    returned only for an id under which nothing was found. *)
Theorem insert_record_never_replaces
    (file : Store.File) (record_data : Dict) (record_id : string) :
  Records.get_record_by_id (snd (Records.insert_record file record_data)) record_id
  = match Records.get_record_by_id file record_id with
    | Some record => Some record
    | None => if Records.has "id" record_id record_data then Some record_data else None
    end
  /\ List.length (Store.medical_records
                    (Store.load_database (snd (Records.insert_record file record_data))))
     = S (List.length (Store.medical_records (Store.load_database file)))
  /\ Store.report_explanations
       (Store.load_database (snd (Records.insert_record file record_data)))
     = Store.report_explanations (Store.load_database file)
  /\ fst (Records.insert_record file record_data) = record_data.
Proof.
  unfold Records.get_record_by_id, Records.insert_record. simpl.
  rewrite find_append, length_app. simpl.
  split; [|split; [lia | split; reflexivity]].
  destruct (find _ _); [reflexivity|].
  now destruct (Records.has "id" record_id record_data).
Qed.

(* ------------------------------------------------------------------ *)
(** ** Pages of records *)

Section Pages.

Lemma ltb_asym (a b : string) : String.ltb a b = true -> String.ltb b a = false.
Proof.
  unfold String.ltb. rewrite (String.compare_antisym b a).
  now destruct (String.compare a b).
Qed.

Lemma insert_by_date_hd (x : Dict) (l : list Dict) (y : Dict) :
  Records.not_earlier y x -> HdRel Records.not_earlier y l -> HdRel Records.not_earlier y (Records.insert_by_date x l).
Proof.
  intros Hyx H. destruct l as [|z l]; simpl.
  - now constructor.
  - destruct (String.ltb (Records.date_of x) (Records.date_of z)); constructor.
    + now inversion H.
    + exact Hyx.
Qed.

Lemma insert_by_date_sorted (x : Dict) (l : list Dict) :
  Sorted Records.not_earlier l -> Sorted Records.not_earlier (Records.insert_by_date x l).
Proof.
  induction l as [|y l IH]; simpl; intros H.
  - repeat constructor.
  - inversion H as [|? ? Hs Hh]; subst.
    destruct (String.ltb (Records.date_of x) (Records.date_of y)) eqn:E.
    + constructor; [now apply IH|].
      apply insert_by_date_hd; [now apply ltb_asym | exact Hh].
    + constructor; [exact H | now constructor].
Qed.

Lemma sorted_by_date_sorted (l : list Dict) : Sorted Records.not_earlier (Records.sorted_by_date l).
Proof.
  induction l as [|x l IH]; simpl; [constructor | now apply insert_by_date_sorted].
Qed.

Lemma Sorted_skipn (n : nat) (l : list Dict) : Sorted Records.not_earlier l -> Sorted Records.not_earlier (skipn n l).
Proof.
  revert l; induction n as [|n IH]; intros l H; [exact H|].
  destruct l as [|x l]; [constructor|]. simpl. apply IH. now inversion H.
Qed.

Lemma Sorted_firstn (n : nat) (l : list Dict) : Sorted Records.not_earlier l -> Sorted Records.not_earlier (firstn n l).
Proof.
  revert l; induction n as [|n IH]; intros l H; [constructor|].
  destruct l as [|x l]; [constructor|]. simpl.
  inversion H as [|? ? Hs Hh]; subst. constructor; [now apply IH|].
  destruct l as [|y l]; [destruct n; constructor|].
  destruct n; constructor. now inversion Hh.
Qed.

End Pages.

Lemma insert_by_date_perm (x : Dict) (l : list Dict) :
  Permutation.Permutation (Records.insert_by_date x l) (x :: l).
Proof.
  induction l as [|y l IH]; simpl; [reflexivity|].
  destruct (String.ltb (Records.date_of x) (Records.date_of y)); [|reflexivity].
  rewrite IH. apply Permutation.perm_swap.
Qed.

Lemma sorted_by_date_perm (l : list Dict) :
  Permutation.Permutation (Records.sorted_by_date l) l.
Proof.
  induction l as [|x l IH]; simpl; [reflexivity|].
  rewrite insert_by_date_perm. now constructor.
Qed.

Lemma firstn_min_length {A} (k : nat) (l : list A) :
  firstn (Nat.min k (List.length l)) l = firstn k l.
Proof.
  destruct (Nat.le_ge_cases k (List.length l)) as [H|H].
  - now rewrite Nat.min_l.
  - rewrite Nat.min_r by exact H. now rewrite !firstn_all2 by lia.
Qed.

(** A slice with bounds that are not negative. *)
Lemma slice_page {A} (offset limit : Z) (l : list A) :
  (0 <= offset)%Z -> (0 <= limit)%Z ->
  Records.slice offset (offset + limit) l
  = firstn (Z.to_nat limit) (skipn (Z.to_nat offset) l).
Proof.
  intros Ho Hl. unfold Records.slice, Records.slice_bound.
  set (n := Z.of_nat (List.length l)).
  assert (Hn : (0 <= n)%Z) by (unfold n; lia).
  destruct (offset <? 0)%Z eqn:E1; [apply Z.ltb_lt in E1; lia|].
  destruct (offset + limit <? 0)%Z eqn:E2; [apply Z.ltb_lt in E2; lia|].
  destruct (Z.le_gt_cases n offset) as [Hge|Hlt].
  - rewrite (Z.min_r offset n) by lia.
    rewrite !skipn_all2 by (unfold n in *; lia). now rewrite !firstn_nil.
  - rewrite (Z.min_l offset n) by lia.
    rewrite <- (firstn_min_length (Z.to_nat limit)).
    rewrite length_skipn. f_equal. unfold n in *. lia.
Qed.

Lemma select_In (record_type user_id : option string) (records : list Dict)
    (r : Dict) :
  In r (Records.select record_type user_id records) ->
  In r records
  /\ (forall u, Records.given user_id = Some u -> Records.has "user_id" u r = true)
  /\ (forall t, Records.given record_type = Some t ->
                Records.has "record_type" t r = true).
Proof.
  unfold Records.select.
  destruct (Records.given user_id) as [u|], (Records.given record_type) as [t|];
    intros H; repeat (apply filter_In in H; destruct H as [H ?]);
    repeat split; try assumption; intros ? E; now (injection E as <- || discriminate E).
Qed.

Lemma In_firstn {A} (n : nat) (l : list A) (x : A) : In x (firstn n l) -> In x l.
Proof.
  intros H. rewrite <- (firstn_skipn n l). apply in_or_app. now left.
Qed.

Lemma In_skipn {A} (n : nat) (l : list A) (x : A) : In x (skipn n l) -> In x l.
Proof.
  intros H. rewrite <- (firstn_skipn n l). apply in_or_app. now right.
Qed.

Lemma get_records_some (file : Store.File) (limit offset : Z)
    (record_type user_id : option string) (page : list Dict) (total : nat) :
  Records.get_records file limit offset record_type user_id = Some (page, total) ->
  page = Records.slice offset (offset + limit)
           (Records.sorted_by_date
              (Records.select record_type user_id
                 (Store.medical_records (Store.load_database file))))
  /\ total = List.length (Records.select record_type user_id
                            (Store.medical_records (Store.load_database file))).
Proof.
  unfold Records.get_records. destruct (forallb _ _); [|discriminate].
  intros H. injection H as <- <-. split; [reflexivity|].
  apply Permutation_length, sorted_by_date_perm.
Qed.

(** X20: for a limit and an offset that are not negative, the page that
    [get_records] returns has at most [limit] records, exactly as many as
    remain after the offset if these are fewer; its records are stored
    records that pass the two filters, in an order in which the report date
    never increases; and the total counts the records that pass the filters,
    whatever the limit and the offset are. *)
Theorem page_of_records
    (file : Store.File) (limit offset : Z) (record_type user_id : option string)
    (page : list Dict) (total : nat) :
  (0 <= limit)%Z -> (0 <= offset)%Z ->
  Records.get_records file limit offset record_type user_id = Some (page, total) ->
  List.length page = Nat.min (Z.to_nat limit) (total - Z.to_nat offset)
  /\ total = List.length (Records.select record_type user_id
                            (Store.medical_records (Store.load_database file)))
  /\ Sorted Records.not_earlier page
  /\ forall r, In r page ->
       In r (Store.medical_records (Store.load_database file))
       /\ (forall u, Records.given user_id = Some u ->
                     Records.has "user_id" u r = true)
       /\ (forall t, Records.given record_type = Some t ->
                     Records.has "record_type" t r = true).
Proof.
  intros Hl Ho H. destruct (get_records_some _ _ _ _ _ _ _ H) as [-> Ht].
  rewrite (slice_page _ _ _ Ho Hl).
  split; [|split; [exact Ht|split]].
  - rewrite length_firstn, length_skipn, Ht.
    now rewrite (Permutation_length (sorted_by_date_perm _)).
  - apply Sorted_firstn, Sorted_skipn, sorted_by_date_sorted.
  - intros r Hin. apply In_firstn, In_skipn in Hin.
    apply (Permutation_in _ (sorted_by_date_perm _)) in Hin.
    now apply select_In.
Qed.

(** X21: pages follow one another without gap or overlap: the page of
    [a] records at an offset followed by the page of [b] records at that
    offset plus [a] is the page of [a + b] records at the offset; and the
    page of [total] records at offset 0 holds every record that passes the
    filters, once each. *)
Theorem pages_tile_the_records
    (file : Store.File) (a b offset : Z) (record_type user_id : option string)
    (page1 page2 : list Dict) (total1 total2 : nat) :
  (0 <= a)%Z -> (0 <= b)%Z -> (0 <= offset)%Z ->
  Records.get_records file a offset record_type user_id = Some (page1, total1) ->
  Records.get_records file b (offset + a) record_type user_id = Some (page2, total2) ->
  Records.get_records file (a + b) offset record_type user_id
  = Some ((page1 ++ page2)%list, total1)
  /\ total2 = total1
  /\ exists everything,
       Records.get_records file (Z.of_nat total1) 0 record_type user_id
       = Some (everything, total1)
       /\ Permutation everything
            (Records.select record_type user_id
               (Store.medical_records (Store.load_database file))).
Proof.
  intros Ha Hb Ho H1 H2.
  destruct (get_records_some _ _ _ _ _ _ _ H1) as [-> Ht1].
  destruct (get_records_some _ _ _ _ _ _ _ H2) as [-> Ht2].
  unfold Records.get_records in *.
  destruct (forallb _ _); [|discriminate H1].
  split; [|split; [congruence|]].
  - f_equal. f_equal; [|now injection H1].
    rewrite !slice_page by lia.
    set (l := Records.sorted_by_date _).
    replace (Z.to_nat (offset + a)) with (Z.to_nat a + Z.to_nat offset) by lia.
    rewrite <- skipn_skipn, Z2Nat.inj_add by lia.
    set (m := skipn (Z.to_nat offset) l).
    rewrite <- (firstn_skipn (Z.to_nat a) (firstn (Z.to_nat a + Z.to_nat b) m)).
    rewrite firstn_firstn, Nat.min_l by lia.
    rewrite skipn_firstn_comm.
    now replace (Z.to_nat a + Z.to_nat b - Z.to_nat a) with (Z.to_nat b) by lia.
  - eexists. split.
    + f_equal. f_equal. now injection H1.
    + rewrite (slice_page 0 _ _ (Z.le_refl 0) (Nat2Z.is_nonneg total1)).
      simpl skipn. rewrite Nat2Z.id, firstn_all2.
      * apply sorted_by_date_perm.
      * rewrite (Permutation_length (sorted_by_date_perm _)). lia.
Qed.

(** A slice that starts at 0 and ends at a negative index. *)
Lemma slice_from_the_end {A} (limit : Z) (l : list A) :
  (limit < 0)%Z ->
  Records.slice 0 (0 + limit) l
  = firstn (List.length l - Z.to_nat (- limit)) l.
Proof.
  intros Hl. unfold Records.slice, Records.slice_bound.
  change (0 + limit)%Z with limit. change (0 <? 0)%Z with false.
  apply Z.ltb_lt in Hl. rewrite Hl. apply Z.ltb_lt in Hl. cbv iota.
  rewrite Z.min_l by lia. change (Z.to_nat 0) with 0. simpl skipn.
  f_equal. lia.
Qed.

(** X22: with offset 0 a negative limit is not refused: it is the end of
    the slice counted from the end of the list, so that the page is the
    sorted list of the selected records without its last [-limit] records.
    The page is empty exactly when no more than [-limit] records are
    selected; with limit -1 it is the sorted list without its last record;
    and the total still counts every selected record. *)
Theorem negative_limit_counts_from_the_end
    (file : Store.File) (limit : Z) (record_type user_id : option string)
    (page : list Dict) (total : nat) :
  (limit < 0)%Z ->
  Records.get_records file limit 0 record_type user_id = Some (page, total) ->
  let selected := Records.select record_type user_id
                    (Store.medical_records (Store.load_database file)) in
  total = List.length selected
  /\ (exists dropped,
        Records.sorted_by_date selected = (page ++ dropped)%list
        /\ List.length dropped = Nat.min total (Z.to_nat (- limit)))
  /\ Z.of_nat (List.length page) = Z.max 0 (Z.of_nat total + limit)
  /\ (page = [] <-> (Z.of_nat total <= - limit)%Z)
  /\ (limit = (-1)%Z -> page = removelast (Records.sorted_by_date selected)).
Proof.
  intros Hl H selected. destruct (get_records_some _ _ _ _ _ _ _ H) as [-> Ht].
  fold selected in Ht |- *.
  set (l := Records.sorted_by_date selected) in *.
  assert (Hlen : List.length l = total).
  { unfold l. now rewrite (Permutation_length (sorted_by_date_perm _)). }
  rewrite (slice_from_the_end limit l Hl).
  set (k := List.length l - Z.to_nat (- limit)).
  assert (Hpage : List.length (firstn k l) = k).
  { rewrite length_firstn. unfold k. lia. }
  split; [exact Ht|]. split; [|split; [|split]].
  - exists (skipn k l). split; [now rewrite firstn_skipn|].
    rewrite length_skipn. unfold k. lia.
  - rewrite Hpage. unfold k. lia.
  - split.
    + intros E. rewrite E in Hpage. simpl in Hpage. unfold k in Hpage. lia.
    + intros Hle. apply length_zero_iff_nil. rewrite Hpage. unfold k. lia.
  - intros ->. symmetry. unfold k.
    replace (List.length l - Z.to_nat (- -1)) with (Nat.pred (List.length l)) by lia.
    apply removelast_firstn_len.
Qed.

(* ================================================================== *)
(** * The explanation endpoint *)

Lemma explanation_found_after_insert (file : Store.File) (d : Dict) (rid : string) :
  Py.dict_get "record_id" d = Some (JStr rid) ->
  Records.get_explanation_by_record_id (snd (Store.insert_explanation file d)) rid
  = Some d.
Proof.
  intros H. rewrite (insert_explanation_file file d _ H).
  unfold Records.get_explanation_by_record_id. simpl. rewrite find_append.
  unfold Store.not_about. rewrite find_none_filter.
  - simpl. unfold Records.has, PyEq.get. rewrite H. simpl.
    now rewrite String.eqb_refl.
  - intros x Hx. change (Records.has "record_id" rid x)
      with (PyEq.py_eq (Store.record_id x) (JStr rid)).
    now destruct (PyEq.py_eq (Store.record_id x) (JStr rid)).
Qed.

Lemma records_kept_by_insert (file : Store.File) (d : Dict) (rid id : string) :
  Py.dict_get "record_id" d = Some (JStr rid) ->
  Records.get_record_by_id (snd (Store.insert_explanation file d)) id
  = Records.get_record_by_id file id.
Proof.
  intros H. now rewrite (insert_explanation_file file d _ H).
Qed.

(** What [store_and_return] does to the file. *)
Lemma store_and_return_cases (rt : Runtime) (lib : Explain.ReportsLib)
    (file : Store.File) (rid : string) (analysis : json)
    (r : result Explain.ReportExplanation) (file' : Store.File) :
  Explain.store_and_return rt lib file rid analysis = (r, file') ->
  (file' = file /\ exists msg, r = Raise (AttributeError msg))
  \/ (exists d,
        analysis = JObj d
        /\ file' = snd (Store.insert_explanation file (Explain.explanation_data lib rid d))
        /\ r = Explain.construct_ReportExplanation rt (Explain.explanation_data lib rid d)).
Proof.
  unfold Explain.store_and_return.
  destruct analysis as [| | | | | |d];
    try (intros H; injection H as <- <-; left; split; [reflexivity | now eexists]).
  rewrite (insert_explanation_file file (Explain.explanation_data lib rid d)
             (JStr rid) eq_refl).
  intros H. injection H as <- <-. right. exists d. repeat split.
  now rewrite (insert_explanation_file file (Explain.explanation_data lib rid d)
                 (JStr rid) eq_refl).
Qed.

Lemma analyse_without_key (rt : Runtime) (extracted_text : json)
    (parsed_data : list (string * Reports.TestData)) :
  key_missing rt = true ->
  Explain.analyse rt extracted_text parsed_data
  = (Raise (HTTPException 500 "OPENROUTER_API_KEY not configured"), []).
Proof.
  intros H. unfold Explain.analyse, Reports.call_glm_for_analysis,
    Reports.call_glm_for_analysis_with.
  rewrite H. now destruct extracted_text.
Qed.

(** Every way through [explain_medical_report]. *)
Lemma explain_cases (rt : Runtime) (lib : Explain.ReportsLib)
    (file : Store.File) (rid : string)
    (r : result Explain.ReportExplanation) (sent : list Request)
    (file' : Store.File) :
  Explain.explain_medical_report rt lib file rid = (r, sent, file') ->
  (sent = [] /\ file' = file)
  \/ (key_missing rt = false
      /\ exists record,
          Explain.found (Records.get_record_by_id file rid) = Some record
          /\ Explain.found (Records.get_explanation_by_record_id file rid) = None
          /\ Explain.truthy (Explain.get_or record "extracted_text" (JStr EmptyString))
             = true
          /\ ((file' = file /\ exists e, r = Raise e
                                         /\ forall m, e <> ValidationError m)
              \/ exists d,
                   file' = snd (Store.insert_explanation file
                                  (Explain.explanation_data lib rid d))
                   /\ r = Explain.construct_ReportExplanation rt
                            (Explain.explanation_data lib rid d))).
Proof.
  unfold Explain.explain_medical_report.
  destruct (Explain.found (Records.get_record_by_id file rid)) as [record|] eqn:Er;
    [|intros H; injection H as <- <- <-; now left].
  destruct (Explain.found (Records.get_explanation_by_record_id file rid))
    as [existing|] eqn:Ee; [intros H; injection H as <- <- <-; now left|].
  destruct (Explain.parsed_data_of rt lib record) as [parsed_data|e];
    [|intros H; injection H as <- <- <-; now left].
  destruct (Explain.truthy _) eqn:Et; simpl negb; cbv iota;
    [|intros H; injection H as <- <- <-; now left].
  destruct (key_missing rt) eqn:Ek.
  { rewrite (analyse_without_key _ _ _ Ek). intros H. injection H as <- <- <-.
    now left. }
  intros H. right. split; [reflexivity|]. exists record.
  split; [reflexivity|]. split; [reflexivity|]. split; [exact Et|].
  destruct (Explain.analyse rt _ parsed_data) as [[analysis|e] log].
  - destruct (Explain.store_and_return rt lib file rid analysis) as [r0 f0] eqn:Es.
    injection H as <- <- <-.
    destruct (store_and_return_cases _ _ _ _ _ _ _ Es) as [[-> [msg ->]]|[d [_ [-> ->]]]].
    + left. split; [reflexivity|]. eexists. split; [reflexivity | discriminate].
    + right. now exists d.
  - left. destruct e; injection H as <- <- <-;
      (split; [reflexivity|]; eexists; split; [reflexivity | discriminate]).
Qed.

(** X23: [explain_medical_report] posts a request or changes the file only
    for a record that is stored, has no explanation yet and has a text, and
    only with the key configured; and whenever it raises an HTTP error (404,
    400 or 500) the file is as it was. *)
Theorem explain_calls_the_model_only_when_needed
    (rt : Runtime) (lib : Explain.ReportsLib) (file : Store.File) (rid : string)
    (r : result Explain.ReportExplanation) (sent : list Request)
    (file' : Store.File) :
  Explain.explain_medical_report rt lib file rid = (r, sent, file') ->
  (sent <> [] \/ file' <> file ->
   key_missing rt = false
   /\ exists record,
        Explain.found (Records.get_record_by_id file rid) = Some record
        /\ Explain.found (Records.get_explanation_by_record_id file rid) = None
        /\ Explain.truthy (Explain.get_or record "extracted_text" (JStr EmptyString))
           = true)
  /\ (forall code detail, r = Raise (HTTPException code detail) -> file' = file).
Proof.
  intros H. destruct (explain_cases _ _ _ _ _ _ _ H)
    as [[-> ->]|[Hk [record [Hr [He [Ht Hw]]]]]].
  - split; [intros [F|F]; now contradiction F | reflexivity].
  - split; [intros _; split; [exact Hk | now exists record]|].
    intros code detail ->. destruct Hw as [[-> _]|[d [_ Hc]]]; [reflexivity|].
    unfold Explain.construct_ReportExplanation in Hc.
    destruct (Explain.validate_ReportExplanation rt _); discriminate Hc.
Qed.

(** X24: once a call of [explain_medical_report] has written the file,
    every later call for the same record ends as that call did, an answer or
    the validation error of the stored explanation, without posting a request
    and without changing the file again: the explanation is stored before it
    is validated, and the stored one is what later calls read. *)
Theorem explain_again_replays_first_outcome
    (rt : Runtime) (lib lib' : Explain.ReportsLib) (file : Store.File)
    (rid : string) (r : result Explain.ReportExplanation)
    (sent : list Request) (file' : Store.File) :
  Explain.explain_medical_report rt lib file rid = (r, sent, file') ->
  file' <> file ->
  Explain.explain_medical_report rt lib' file' rid = (r, [], file')
  /\ exists d,
       Records.get_explanation_by_record_id file' rid
       = Some (Explain.explanation_data lib rid d).
Proof.
  intros H Hne. destruct (explain_cases _ _ _ _ _ _ _ H)
    as [[_ ->]|[_ [record [Hr [_ [_ Hw]]]]]]; [now contradiction Hne|].
  destruct Hw as [[-> _]|[d [-> ->]]]; [now contradiction Hne|].
  split; [|exists d; now apply explanation_found_after_insert].
  unfold Explain.explain_medical_report.
  rewrite (records_kept_by_insert file (Explain.explanation_data lib rid d)
             rid rid eq_refl), Hr.
  now rewrite (explanation_found_after_insert file
                 (Explain.explanation_data lib rid d) rid eq_refl).
Qed.

(* ================================================================== *)
(** * Examples *)

(** An answer that names the first record in capitals, and one that
    names the file of a record without id. *)
Lemma mentioned_record_is_referenced_witness :
  In "rec-001"
     (ChatReply.extract_referenced_records "See REC-001 for details."
        [Samples.blood_test; Samples.xray])
  /\ In EmptyString
        (ChatReply.extract_referenced_records "As SCAN.PNG shows, all is well."
           [Samples.blood_test; [("source_file", "scan.png")]]).
Proof.
  destruct mentioned_record_is_referenced as [Hid [Hfile _]]. split.
  - apply (Hid _ _ Samples.blood_test).
    + now left.
    + discriminate.
    + reflexivity.
  - apply (Hfile _ _ [("source_file", "scan.png")]).
    + right. now left.
    + discriminate.
    + reflexivity.
Defined.

(** The chat endpoint with two records, answered by the fifth model. *)
Lemma chat_response_shape_witness :
  exists resp sent,
    ChatReply.chat_ask_question Demo.fifth_answers
      (Ok [Samples.blood_test; Samples.xray]) Samples.ask = (Ok resp, sent)
    /\ ChatReply.answer resp = "Your glucose is normal."
    /\ List.length (ChatReply.follow_up_suggestions resp) = 4
    /\ ChatReply.response_session_id resp = "session-7".
Proof.
  eexists. eexists. split; [reflexivity|]. split; [reflexivity|].
  match goal with
  | |- List.length (ChatReply.follow_up_suggestions ?r) = 4 /\ _ =>
      destruct (chat_response_shape Demo.fifth_answers
                  [Samples.blood_test; Samples.xray] Samples.ask r _ eq_refl)
        as [_ [_ [_ [Hn [_ [_ [Hs _]]]]]]]
  end.
  split; [exact Hn|]. apply (Hs "session-7"); [reflexivity | discriminate].
Defined.

(** The chat endpoint when every model fails. *)
Lemma chat_ask_question_failures_witness :
  (exists detail,
      HTTPException 500
        "All GLM models failed. Last error: Server error '503 Service Unavailable'"
      = HTTPException 500 detail
      /\ (snd (ChatReply.chat_ask_question Demo.none_answers
                 (Ok [Samples.blood_test]) Samples.ask) = []
          \/ models_of
               (snd (ChatReply.chat_ask_question Demo.none_answers
                       (Ok [Samples.blood_test]) Samples.ask))
             = Chat.models_to_try))
  \/ (exists msg,
         HTTPException 500
           "All GLM models failed. Last error: Server error '503 Service Unavailable'"
         = AttributeError msg
         /\ snd (ChatReply.chat_ask_question Demo.none_answers
                   (Ok [Samples.blood_test]) Samples.ask) <> []).
Proof.
  destruct chat_ask_question_failures as [_ H].
  apply (H Demo.none_answers [Samples.blood_test] Samples.ask).
  reflexivity.
Defined.

(** A blood sugar of 130 is URGENT. *)
Lemma parsed_tests_are_distinct_and_judged_witness :
  exists data,
    In ("Blood Sugar", data)
       (Lab.parse_medical_values Samples.text_lib Samples.sugar_text)
    /\ Reports.status data = "URGENT".
Proof.
  eexists. split; [left; reflexivity|].
  match goal with
  | |- Reports.status ?d = _ =>
      destruct (proj2 (parsed_tests_are_distinct_and_judged Samples.text_lib
                         Samples.sugar_text) "Blood Sugar" d (or_introl eq_refl))
        as [Hu _]
  end.
  apply Hu. split; reflexivity.
Defined.

(** A report about hemoglobin starts as NORMAL. *)
Lemma initial_status_depends_on_sugar_only_witness :
  Lab.determine_overall_status
    (Lab.parse_medical_values Samples.text_lib Samples.hemoglobin_text) = "NORMAL".
Proof.
  apply (initial_status_depends_on_sugar_only Samples.text_lib Samples.hemoglobin_text).
  intros name data [H|[]]. now injection H as <- _.
Defined.

(** A new explanation for [r1]: found for [r1], and [r2] keeps its own. *)
Lemma lookup_after_insert_explanation_witness :
  Records.get_explanation_by_record_id
    (snd (Store.insert_explanation Demo.two_explained
            (Demo.explanation "r1" "new summary"))) "r1"
  = Some (Demo.explanation "r1" "new summary")
  /\ Records.get_explanation_by_record_id
       (snd (Store.insert_explanation Demo.two_explained
               (Demo.explanation "r1" "new summary"))) "r2"
     = Some (Demo.explanation "r2" "fine").
Proof.
  split.
  - exact (lookup_after_insert_explanation Demo.two_explained
             (Demo.explanation "r1" "new summary") "r1" "r1" eq_refl).
  - exact (lookup_after_insert_explanation Demo.two_explained
             (Demo.explanation "r1" "new summary") "r1" "r2" eq_refl).
Defined.

(** Two summaries for [r1], one after the other. *)
Lemma second_explanation_replaces_first_witness :
  snd (Store.insert_explanation
         (snd (Store.insert_explanation Demo.two_explained
                 (Demo.explanation "r1" "draft")))
         (Demo.explanation "r1" "final"))
  = snd (Store.insert_explanation Demo.two_explained (Demo.explanation "r1" "final")).
Proof.
  exact (proj1 (second_explanation_replaces_first Demo.two_explained
                  (Demo.explanation "r1" "draft") (Demo.explanation "r1" "final")
                  "r1" eq_refl eq_refl)).
Defined.

(** The first page of two among three records. *)
Lemma page_of_records_witness :
  List.length [Samples.stored "b" "2024-03-01"; Samples.stored "c" "2024-02-10"]
  = Nat.min (Z.to_nat 2) (3 - Z.to_nat 0)
  /\ Sorted Records.not_earlier
       [Samples.stored "b" "2024-03-01"; Samples.stored "c" "2024-02-10"].
Proof.
  destruct (page_of_records Samples.three_records 2 0 None (Some Samples.user)
              [Samples.stored "b" "2024-03-01"; Samples.stored "c" "2024-02-10"] 3
              ltac:(lia) ltac:(lia) eq_refl) as [H1 [_ [H2 _]]].
  split; [exact H1 | exact H2].
Defined.

(** A page of one and a page of two make the page of three. *)
Lemma pages_tile_the_records_witness :
  Records.get_records Samples.three_records (1 + 2) 0 None None
  = Some (([Samples.stored "b" "2024-03-01"]
           ++ [Samples.stored "c" "2024-02-10"; Samples.stored "a" "2024-01-05"])%list,
          3).
Proof.
  exact (proj1 (pages_tile_the_records Samples.three_records 1 2 0 None None
                  [Samples.stored "b" "2024-03-01"]
                  [Samples.stored "c" "2024-02-10"; Samples.stored "a" "2024-01-05"]
                  3 3 ltac:(lia) ltac:(lia) ltac:(lia) eq_refl eq_refl)).
Defined.

(** Three records and a limit of -1: the two latest come back. *)
Lemma negative_limit_counts_from_the_end_witness :
  [Samples.stored "b" "2024-03-01"; Samples.stored "c" "2024-02-10"]
  = removelast
      (Records.sorted_by_date
         (Records.select None None
            (Store.medical_records (Store.load_database Samples.three_records))))
  /\ Z.of_nat (List.length [Samples.stored "b" "2024-03-01";
                            Samples.stored "c" "2024-02-10"])
     = Z.max 0 (Z.of_nat 3 + -1).
Proof.
  destruct (negative_limit_counts_from_the_end Samples.three_records (-1) None None
              [Samples.stored "b" "2024-03-01"; Samples.stored "c" "2024-02-10"]
              3 ltac:(lia) eq_refl) as [_ [_ [Hn [_ Hlast]]]].
  split; [apply Hlast; reflexivity | exact Hn].
Defined.

(** The first explanation of record [a] posts one request. *)
Lemma explain_calls_the_model_only_when_needed_witness :
  key_missing Samples.answers_empty_object = false
  /\ exists record,
       Explain.found (Records.get_record_by_id Samples.three_records "a")
       = Some record
       /\ Explain.found
            (Records.get_explanation_by_record_id Samples.three_records "a") = None
       /\ Explain.truthy (Explain.get_or record "extracted_text" (JStr EmptyString))
          = true.
Proof.
  refine (proj1 (explain_calls_the_model_only_when_needed
                   Samples.answers_empty_object Samples.reports_lib
                   Samples.three_records "a" _ _ _ eq_refl) _).
  left. discriminate.
Defined.

(** The second explanation of record [a] posts none. *)
Lemma explain_again_replays_first_outcome_witness :
  exists file',
    snd (Explain.explain_medical_report Samples.answers_empty_object
           Samples.reports_lib Samples.three_records "a") = file'
    /\ Explain.explain_medical_report Samples.answers_empty_object
         Samples.reports_lib file' "a"
       = (Ok Samples.default_explanation, [], file').
Proof.
  eexists. split; [reflexivity|].
  refine (proj1 (explain_again_replays_first_outcome
                   Samples.answers_empty_object Samples.reports_lib
                   Samples.reports_lib Samples.three_records "a"
                   (Ok Samples.default_explanation) _ _ eq_refl _)).
  discriminate.
Defined.
